(** * analise-sinais-trading: extraction pipeline and metrics engine

    A shallow embedding of the message-to-record extraction
    ([app.extract_records] and the page modules' [_extract_records]), of the
    date normaliser ([app.try_parse_iso_date]) and of the metrics and risk
    computations of [app.py], [gestao_risco.py], [analise_gales.py],
    [performance_paridades.py], [qualidade_sala.py] and
    [validacao_horarios.py], and of the extraction of
    [padroes_tendencias.py], with the properties the specification states
    about them and further properties read off the code.

    Conventions.
    - A Python [str] is the list of its code points ([pystr]).
    - A Python [int] is a [Z]; a Python [float] is idealised as an exact
      rational ([Q]): rounding of binary floating point is not modelled, and
      equalities between floats are stated with [==].
    - A Python [dict] is a [gmap]; [d.get(k)] is [d !! k] with [None] as
      [VNone].
    - Code that can raise returns a [pyres]; code whose every raising call
      sits under a [try ... except] returns its value directly, the handler
      being the [None] branch of an [option].
    - What belongs to the Python runtime and not to the repository (Unicode
      tables, [str()] of a non-string object, the [datetime] conversions) is
      a field of the classes [PyRuntime] and [DateLib]. *)

From Stdlib Require Import ZArith NArith QArith Qround List String Ascii Bool Lia Lqa.
From Stdlib Require Import Floats.
From stdpp Require Import base option list gmap.
Import ListNotations.

Set Default Proof Using "Type".
#[local] Set Warnings "-register-all,-inexact-float".

(** ** Strings *)

Definition pystr := list N.

(** An ASCII literal of the source as a [pystr]. *)
Definition py (s : string) : pystr :=
  List.map N_of_ascii (list_ascii_of_string s).

Definition pystr_eqb (a b : pystr) : bool := bool_decide (a = b).

(** [needle in text] on two strings. *)
Fixpoint starts_with (p s : pystr) : bool :=
  match p, s with
  | [], _ => true
  | _ :: _, [] => false
  | a :: p', b :: s' => (a =? b)%N && starts_with p' s'
  end.

Fixpoint contains (needle s : pystr) : bool :=
  starts_with needle s ||
  match s with
  | [] => false
  | _ :: s' => contains needle s'
  end.

(** [str.isspace] of one code point: the 29 code points Python 3 treats as
    whitespace ([\s] of [re] on [str] patterns uses the same table). *)
Definition is_space (c : N) : bool :=
  ((9 <=? c) && (c <=? 13) || (28 <=? c) && (c <=? 32) || (c =? 133) || (c =? 160)
   || (c =? 5760) || (8192 <=? c) && (c <=? 8202) || (c =? 8232) || (c =? 8233)
   || (c =? 8239) || (c =? 8287) || (c =? 12288))%N.

Fixpoint lstrip (s : pystr) : pystr :=
  match s with
  | c :: s' => if is_space c then lstrip s' else s
  | [] => []
  end.

(** [s.strip()] *)
Definition strip (s : pystr) : pystr := rev (lstrip (rev (lstrip s))).

(** The line boundaries of [str.splitlines]. *)
Definition is_linebreak (c : N) : bool :=
  ((10 <=? c) && (c <=? 13) || (28 <=? c) && (c <=? 30) || (c =? 133)
   || (c =? 8232) || (c =? 8233))%N.

(** [s.splitlines()]: a CR LF pair is one boundary, and a final boundary
    opens no empty last line. [cur] is the current line, reversed. *)
Fixpoint splitlines_from (cur : pystr) (s : pystr) : list pystr :=
  match s with
  | [] => match cur with [] => [] | _ => [rev cur] end
  | c :: s' =>
      if is_linebreak c then
        match s' with
        | c' :: s'' =>
            if ((c =? 13) && (c' =? 10))%N
            then rev cur :: splitlines_from [] s''
            else rev cur :: splitlines_from [] s'
        | [] => [rev cur]
        end
      else splitlines_from (c :: cur) s'
  end.

Definition splitlines (s : pystr) : list pystr := splitlines_from [] s.

(** [sep.join(parts)] *)
Fixpoint join (sep : pystr) (parts : list pystr) : pystr :=
  match parts with
  | [] => []
  | [p] => p
  | p :: rest => p ++ sep ++ join sep rest
  end.

(** [" ".join(text.splitlines()).strip()], the single-line form every
    extractor matches against. *)
Definition one_line (text : pystr) : pystr := strip (join [32%N] (splitlines text)).

(** [s.split(":")] restricted to its first component, as [time.split(":")[0]]. *)
Fixpoint before_colon (s : pystr) : pystr :=
  match s with
  | [] => []
  | c :: s' => if (c =? 58)%N then [] else c :: before_colon s'
  end.

(** ** Values of a loaded JSON document *)

Record date := mkdate { year : Z; month : Z; day : Z }.

Inductive value :=
| VNone
| VBool (b : bool)
| VInt (n : Z)
| VFloat (q : Q)
| VStr (s : pystr)
| VList (l : list value)
| VDict (d : gmap pystr value)
| VDate (d : date)
| VDatetime (d : date) (seconds : Z).

Abbreviation message := (gmap pystr value).

(** Python truthiness, as used by [not x], [x or y] and [if x]. *)
Definition truthy (v : value) : bool :=
  match v with
  | VNone => false
  | VBool b => b
  | VInt n => negb (n =? 0)%Z
  | VFloat q => negb (Qeq_bool q 0)
  | VStr s => negb (pystr_eqb s [])
  | VList l => match l with [] => false | _ => true end
  | VDict d => negb (bool_decide (d = ∅))
  | VDate _ | VDatetime _ _ => true
  end.

(** [a or b] *)
Definition py_or (a b : value) : value := if truthy a then a else b.

(** [msg.get(k)] *)
Definition get (msg : message) (k : string) : value :=
  default VNone (msg !! py k).

(** ** Exceptions *)

Inductive exn := TypeError | IndexError | ValueError.

Inductive pyres (A : Type) :=
| Ok (a : A)
| Raise (e : exn).
Arguments Ok {A} a.
Arguments Raise {A} e.

Definition bind {A B} (m : pyres A) (f : A -> pyres B) : pyres B :=
  match m with
  | Ok a => f a
  | Raise e => Raise e
  end.

Notation "'do' x <- m ; k" := (bind m (fun x => k))
  (at level 10, x name, m at level 100, k at level 200).

Fixpoint mapM_pyres {A B} (f : A -> pyres B) (l : list A) : pyres (list B) :=
  match l with
  | [] => Ok []
  | a :: l' => do b <- f a; do bs <- mapM_pyres f l'; Ok (b :: bs)
  end.

(** ** Lists and numbers *)

(** [l[i]]: a negative index counts from the end; out of range raises. *)
Definition py_index {A} (l : list A) (i : Z) : pyres A :=
  let n := Z.of_nat (length l) in
  let j := if (i <? 0)%Z then (i + n)%Z else i in
  if ((0 <=? j) && (j <? n))%Z
  then match l !! Z.to_nat j with Some a => Ok a | None => Raise IndexError end
  else Raise IndexError.

(** [l[:i]]: a negative bound counts from the end; bounds are clipped. *)
Definition py_slice_to {A} (l : list A) (i : Z) : list A :=
  let n := Z.of_nat (length l) in
  let j := if (i <? 0)%Z then Z.max 0 (i + n) else Z.min i n in
  take (Z.to_nat j) l.

(** number of elements satisfying a test, as a Python [int]:
    [len(df[mask])], [mask.sum()] and [value_counts().get(x, 0)] *)
Definition count {A} (P : A -> bool) (l : list A) : Z :=
  Z.of_nat (length (List.filter P l)).

(** [df.groupby(key)]: the rows of each key, in their order; rows whose key
    is missing are left out *)
Definition groupby {A K} `{Countable K} (key : A -> option K) (l : list A)
    : gmap K (list A) :=
  fold_left (fun acc a =>
               match key a with
               | Some k => <[k := default [] (acc !! k) ++ [a]]> acc
               | None => acc
               end) l ∅.

Definition Qltb (a b : Q) : bool := match (a ?= b)%Q with Lt => true | _ => false end.
Definition Qleb (a b : Q) : bool := match (a ?= b)%Q with Gt => false | _ => true end.

(** [a / b * 100] on two columns of counts followed by [.fillna(0)]: the
    quotient is NaN only as 0/0, the numerator counting a part of what the
    denominator counts *)
Definition pct_fillna (a b : Z) : Q :=
  if (b =? 0)%Z then 0%Q else (inject_Z a / inject_Z b * 100)%Q.

(** [sum(l)] *)
Definition py_sum (l : list Q) : Q := fold_left Qplus l 0%Q.

(** [round(x)] to the nearest integer, ties to even, and [round(x, 2)] *)
Definition round_half_even (q : Q) : Z :=
  let f := Qfloor q in
  match (q - inject_Z f ?= 1 # 2)%Q with
  | Lt => f
  | Gt => (f + 1)%Z
  | Eq => if Z.even f then f else (f + 1)%Z
  end.

Definition round2 (q : Q) : Q := (inject_Z (round_half_even (q * 100)) / 100)%Q.

(** ** The Python runtime

    Tables and built-ins of CPython that the repository relies on and does
    not define. Every general theorem below holds for all of them. *)

Class PyRuntime := {
  (** the digit value of a code point of Unicode category Nd: [\d] of [re],
      and the digits [int()] and [float()] accept *)
  decimal_value : N -> option N;
  (** [str.isalnum] of one code point: [\w] of [re] is this or an underscore *)
  is_alnum : N -> bool;
  (** two code points that [re.IGNORECASE] identifies *)
  ci_eq : N -> N -> bool;
  (** [str.upper] *)
  py_upper : pystr -> pystr;
  (** [str(x)] of an object that is not a [str] *)
  py_repr : value -> pystr;
  (** no decimal digit is whitespace, and the colon is no decimal digit *)
  decimal_not_space : forall c d, decimal_value c = Some d -> is_space c = false;
  decimal_not_colon : decimal_value 58 = None;
  (** the colon has no case: [re.IGNORECASE] identifies it with itself only *)
  colon_caseless : forall c, ci_eq c 58 = true -> c = 58%N;
}.

Section Runtime.
Context {R : PyRuntime}.

Definition is_decimal (c : N) : bool :=
  match decimal_value c with Some _ => true | None => false end.

(** [str(x)] *)
Definition py_str (v : value) : pystr :=
  match v with
  | VStr s => s
  | _ => py_repr v
  end.

(** ** Regular expressions

    The fragment of [re] the repository's patterns use, with the
    backtracking semantics of CPython's matcher: alternatives in order,
    greedy repetition, the first match found. *)

Inductive citem :=
| CChar (c : N)            (* a literal character *)
| CRange (lo hi : N)       (* lo-hi *)
| CDigit                   (* \d *)
| CWord                    (* \w *)
| CSpace.                  (* \s *)

Inductive regex :=
| REps
| RSet (neg : bool) (items : list citem)  (* [...] and [^...]; a single item is the bare atom *)
| RCat (r1 r2 : regex)
| RAlt (r1 r2 : regex)                    (* r1|r2 *)
| RStar (r : regex)                       (* r*, greedy *)
| RGroup (name : string) (r : regex)      (* (?P<name>r) *)
| RBol                                    (* ^ *)
| REol.                                   (* $ *)

Declare Scope re_scope.
Delimit Scope re_scope with re.
Bind Scope re_scope with regex.
Infix "⋅" := RCat (at level 40, left associativity) : re_scope.

(** [r+], [r?], [r{n}] *)
Definition RPlus (r : regex) : regex := RCat r (RStar r).
Definition ROpt (r : regex) : regex := RAlt r REps.
Fixpoint RRep (n : nat) (r : regex) : regex :=
  match n with
  | O => REps
  | S n' => RCat r (RRep n' r)
  end.

(** a literal character, a literal string *)
Definition RChr (a : ascii) : regex := RSet false [CChar (N_of_ascii a)].
Fixpoint RLit (s : string) : regex :=
  match s with
  | EmptyString => REps
  | String a EmptyString => RChr a
  | String a s' => RCat (RChr a) (RLit s')
  end.

(** the code points of a range, for case-insensitive membership *)
Definition range_points (lo hi : N) : list N :=
  List.map (fun i => (lo + N.of_nat i)%N) (seq 0 (N.to_nat (hi + 1 - lo))).

Definition item_matches (icase : bool) (it : citem) (c : N) : bool :=
  match it with
  | CChar x => (c =? x)%N || icase && ci_eq c x
  | CRange lo hi =>
      ((lo <=? c) && (c <=? hi))%N || icase && existsb (ci_eq c) (range_points lo hi)
  | CDigit => is_decimal c
  | CWord => is_alnum c || (c =? 95)%N
  | CSpace => is_space c
  end.

Definition set_matches (icase neg : bool) (items : list citem) (c : N) : bool :=
  xorb neg (existsb (fun it => item_matches icase it c) items).

(** the groups of a match, latest binding first *)
Definition groups := list (string * pystr).

Definition group (g : groups) (name : string) : option pystr :=
  snd <$> List.find (fun p => String.eqb (fst p) name) g.

(** [rmatch icase total r s g k]: match [r] at the head of [s], the rest of
    a subject of length [total], then continue with [k]; [None] is failure
    and makes the caller try its next alternative. *)
Fixpoint rmatch {A} (icase : bool) (total : nat) (r : regex)
    (s : pystr) (g : groups) (k : pystr -> groups -> option A) : option A :=
  match r with
  | REps => k s g
  | RSet neg items =>
      match s with
      | c :: s' => if set_matches icase neg items c then k s' g else None
      | [] => None
      end
  | RCat r1 r2 => rmatch icase total r1 s g (fun s' g' => rmatch icase total r2 s' g' k)
  | RAlt r1 r2 =>
      match rmatch icase total r1 s g k with
      | Some a => Some a
      | None => rmatch icase total r2 s g k
      end
  | RStar r' =>
      (fix loop (fuel : nat) (s : pystr) (g : groups) : option A :=
         match fuel with
         | O => k s g
         | S fuel' =>
             match rmatch icase total r' s g
                     (fun s' g' => if (length s' <? length s)%nat
                                   then loop fuel' s' g' else None) with
             | Some a => Some a
             | None => k s g
             end
         end) (length s) s g
  | RGroup name r' =>
      rmatch icase total r' s g
        (fun s' g' => k s' ((name, take (length s - length s') s) :: g'))
  | RBol => if (length s =? total)%nat then k s g else None
  | REol => match s with
            | [] => k s g
            | [c] => if (c =? 10)%N then k s g else None
            | _ => None
            end
  end.

(** [re.compile(r, re.IGNORECASE).match(s)] and [re.search(r, s, re.IGNORECASE)] *)
Definition re_match (r : regex) (s : pystr) : option groups :=
  rmatch true (length s) r s [] (fun _ g => Some g).

Fixpoint re_search_from (total : nat) (r : regex) (s : pystr) : option groups :=
  match rmatch true total r s [] (fun _ g => Some g) with
  | Some g => Some g
  | None => match s with
            | [] => None
            | _ :: s' => re_search_from total r s'
            end
  end.

Definition re_search (r : regex) (s : pystr) : option groups :=
  re_search_from (length s) r s.

(** [m.group(name)], for a group the pattern always binds *)
Definition group_of (g : groups) (name : string) : pystr :=
  default [] (group g name).

(** A declarative reading of the matcher, for proofs about what a match
    binds: [matches icase total r s s' g g'] when [r] can consume the head of
    [s] down to [s'] and take the groups from [g] to [g']. *)
Inductive matches (icase : bool) (total : nat)
  : regex -> pystr -> pystr -> groups -> groups -> Prop :=
| M_eps s g : matches icase total REps s s g g
| M_set neg items c s g :
    set_matches icase neg items c = true ->
    matches icase total (RSet neg items) (c :: s) s g g
| M_cat r1 r2 s s1 s2 g g1 g2 :
    matches icase total r1 s s1 g g1 -> matches icase total r2 s1 s2 g1 g2 ->
    matches icase total (RCat r1 r2) s s2 g g2
| M_alt_l r1 r2 s s' g g' :
    matches icase total r1 s s' g g' -> matches icase total (RAlt r1 r2) s s' g g'
| M_alt_r r1 r2 s s' g g' :
    matches icase total r2 s s' g g' -> matches icase total (RAlt r1 r2) s s' g g'
| M_star_stop r s g : matches icase total (RStar r) s s g g
| M_star_step r s s1 s2 g g1 g2 :
    matches icase total r s s1 g g1 -> matches icase total (RStar r) s1 s2 g1 g2 ->
    matches icase total (RStar r) s s2 g g2
| M_group name r s s' g g' :
    matches icase total r s s' g g' ->
    matches icase total (RGroup name r) s s' g ((name, take (length s - length s') s) :: g')
| M_bol s g : length s = total -> matches icase total RBol s s g g
| M_eol_end g : matches icase total REol [] [] g g
| M_eol_nl g : matches icase total REol [10%N] [10%N] g g.

(** a pattern without groups *)
Fixpoint no_groups (r : regex) : bool :=
  match r with
  | RGroup _ _ => false
  | RCat r1 r2 | RAlt r1 r2 => no_groups r1 && no_groups r2
  | RStar r' => no_groups r'
  | _ => true
  end.

(** a string of the shape [\d{2}:\d{2}:\d{2}] *)
Definition hhmmss (t : pystr) : Prop :=
  exists d1 d2 d3 d4 d5 d6,
    t = [d1; d2; 58%N; d3; d4; 58%N; d5; d6]
    /\ Forall (fun c => is_decimal c = true) [d1; d2; d3; d4; d5; d6].

Definition Space : regex := RSet false [CSpace].
Definition Digit : regex := RSet false [CDigit].
Definition Word : regex := RSet false [CWord].

(** [[A-Z0-9\-\_]+(?:-OTC)?] *)
Definition PAIR : regex :=
  (RPlus (RSet false [CRange 65 90; CRange 48 57; CChar 45; CChar 95]) ⋅ ROpt (RLit "-OTC"))%re.

(** [\d{2}:\d{2}:\d{2}] *)
Definition TIME : regex :=
  (RRep 2 Digit ⋅ RChr ":" ⋅ RRep 2 Digit ⋅ RChr ":" ⋅ RRep 2 Digit)%re.

(** [\s*-\s*] *)
Definition DASH : regex := (RStar Space ⋅ RChr "-" ⋅ RStar Space)%re.

(** The resolved-line pattern shared by all modules,
    [^(?P<check>[✅❌🃏])(?P<sup>[¹²³\d]?)\s*(?P<pair>...)\s*-\s*(?P<time>...)\s*-\s*(?P<tf>\w+)\s*-\s*(?P<dir>\w+)\s*-\s*(?P<r>...)$],
    up to the name [rname] of its last group and that group's alternatives
    [outcome]. *)
Definition RESOLVED (rname : string) (outcome : regex) : regex :=
  (RBol
   ⋅ RGroup "check" (RSet false [CChar 9989; CChar 10060; CChar 127183])
   ⋅ RGroup "sup" (ROpt (RSet false [CChar 185; CChar 178; CChar 179; CDigit]))
   ⋅ RStar Space
   ⋅ RGroup "pair" PAIR ⋅ DASH
   ⋅ RGroup "time" TIME ⋅ DASH
   ⋅ RGroup "tf" (RPlus Word) ⋅ DASH
   ⋅ RGroup "dir" (RPlus Word) ⋅ DASH
   ⋅ RGroup rname outcome
   ⋅ REol)%re.

(** [WIN|LOSS|DOJI] *)
Definition OUTCOME : regex := RAlt (RLit "WIN") (RAlt (RLit "LOSS") (RLit "DOJI")).

(** [SUPERSCRIPT_MAP] and [sup_to_level] ([_sup_to_level] in the page
    modules, each of which has this copy) *)
Definition SUPERSCRIPT_MAP : gmap pystr Z :=
  <[ [185%N] := 1%Z ]> (<[ [178%N] := 2%Z ]> (<[ [179%N] := 3%Z ]>
  (<[ py "1" := 1%Z ]> (<[ py "2" := 2%Z ]> (<[ py "3" := 3%Z ]> ∅))))).

Definition sup_to_level (s : pystr) : Z :=
  match s with
  | [] => 0
  | _ => default 0%Z (SUPERSCRIPT_MAP !! s)
  end.

(** [int(s)] on a string of decimal digits (those of category Nd, which is
    all its callers pass); [None] is [ValueError]. CPython 3.11 and later
    also refuses more than 4300 digits; the only caller that can pass so
    many, [try_parse_iso_date], hands the number to [fromtimestamp] under the
    same handler. *)
Fixpoint int_digits (acc : Z) (s : pystr) : option Z :=
  match s with
  | [] => Some acc
  | c :: s' =>
      match decimal_value c with
      | Some d => int_digits (10 * acc + Z.of_N d) s'
      | None => None
      end
  end.

Definition py_int (s : pystr) : option Z :=
  match s with
  | [] => None
  | _ => int_digits 0 s
  end.

(** [float(s)] on a string of digits and dots ([[\d\.]+]): at most one dot
    and at least one digit, else [ValueError] ([None]). *)
Fixpoint split_dot (s : pystr) : pystr * option pystr :=
  match s with
  | [] => ([], None)
  | c :: s' =>
      if (c =? 46)%N then ([], Some s')
      else let '(a, b) := split_dot s' in (c :: a, b)
  end.

Definition py_float (s : pystr) : option Q :=
  let '(ip, rest) := split_dot s in
  let fp := default [] rest in
  match ip ++ fp with
  | [] => None
  | ds =>
      match int_digits 0 ds with
      | Some n => Some (inject_Z n / inject_Z (10 ^ Z.of_nat (length fp)))%Q
      | None => None
      end
  end.

(** [_get_text_from_msg], the same function in every page module *)
Definition probe (msg : message) (k : string) : option pystr :=
  match get msg k with
  | VStr v => if truthy (VStr (strip v)) then Some v else None
  | _ => None
  end.

Definition _get_text_from_msg (msg : message) : pystr :=
  match probe msg "text" with Some v => v | None =>
  match probe msg "message.text" with Some v => v | None =>
  match probe msg "message" with Some v => v | None =>
  match probe msg "message_text" with Some v => v | None =>
    match py_or (get msg "text") (get msg "message") with
    | VStr v => v
    | _ => []
    end
  end end end end.

(** The three sub-patterns of the open-signal block:
    [Ativo:\s*([A-Z0-9\-\_]+(?:-OTC)?)], [Hor[aá]rio:\s*(\d{2}:\d{2}:\d{2})]
    and [Payout:\s*([\d\.]+)\s*%]. *)
Definition ATIVO : regex := (RLit "Ativo:" ⋅ RStar Space ⋅ RGroup "1" PAIR)%re.
Definition HORARIO : regex :=
  (RLit "Hor" ⋅ RSet false [CChar 97; CChar 225] ⋅ RLit "rio:" ⋅ RStar Space ⋅ RGroup "1" TIME)%re.
Definition PAYOUT : regex :=
  (RLit "Payout:" ⋅ RStar Space ⋅ RGroup "1" (RPlus (RSet false [CDigit; CChar 46]))
   ⋅ RStar Space ⋅ RChr "%")%re.

(** [float(m.group(1)) / 100.0] under its [try]: [None] when it raises *)
Definition payout_of (m_pay : groups) : option Q :=
  (fun x => x / 100)%Q <$> py_float (group_of m_pay "1").

(** The first loop of [_extract_records] in [validacao_horarios],
    [qualidade_sala] and [performance_paridades] (the same code in the
    three): the payout of every open signal, by instrument and time. *)
Definition signal_step (signals : gmap (pystr * pystr) (option Q)) (msg : message)
    : gmap (pystr * pystr) (option Q) :=
  let text := _get_text_from_msg msg in
  if contains (py "Ativo:") text || contains (py "Payout:") text then
    let m_pair := re_search ATIVO text in
    let m_time := re_search HORARIO text in
    let m_pay := re_search PAYOUT text in
    match m_pair, m_time with
    | Some mp, Some mt =>
        let p := strip (group_of mp "1") in
        let t := strip (group_of mt "1") in
        let payout := m ← m_pay; payout_of m in
        <[(p, t) := payout]> signals
    | _, _ => signals
    end
  else signals.

Definition collect_signals (messages : list message) : gmap (pystr * pystr) (option Q) :=
  fold_left signal_step messages ∅.

(** [signals.get((pair, time))] on that table: a key stored with [None]
    and a missing key both give [None] *)
Definition signal_payout (signals : gmap (pystr * pystr) (option Q)) (pair time : pystr)
    : option Q :=
  mjoin (signals !! (pair, time)).

(** [result] as the page modules normalise it *)
Definition normalise_result (result_raw : pystr) : pystr :=
  if pystr_eqb result_raw (py "DOJI") then py "DOJI"
  else if pystr_eqb result_raw (py "WIN") then py "WIN"
  else py "LOSS".

End Runtime.

(** ** The [datetime] library *)

Class DateLib := {
  (** [datetime.fromtimestamp(x).date()] in the local time zone; [None] when
      it raises (a year outside 1..9999, a value the platform refuses) *)
  fromtimestamp : Q -> option date;
  (** [datetime.strptime(s, fmt).date()]; [None] when it raises *)
  strptime : pystr -> string -> option date;
  (** [datetime.fromisoformat(s).date()]; [None] when it raises *)
  fromisoformat : pystr -> option date;
}.

(** * app.py *)
Module app.
Section App.
Context {R : PyRuntime} {D : DateLib}.

(** [s2.endswith("Z")] and [s2[:-1]] *)
Definition strip_Z (s2 : pystr) : pystr :=
  match rev s2 with
  | c :: r => if (c =? 90)%N then rev r else s2
  | [] => s2
  end.

(** the loop over the four format patterns, first success wins *)
Fixpoint try_formats (s2 : pystr) (fmts : list string) : option date :=
  match fmts with
  | [] => None
  | fmt :: rest =>
      match strptime s2 fmt with
      | Some d => Some d
      | None => try_formats s2 rest
      end
  end.

Definition FORMATS : list string :=
  ["%Y-%m-%dT%H:%M:%S"; "%Y-%m-%d %H:%M:%S"; "%Y-%m-%d"; "%d/%m/%Y"]%string.

(** the stages after the epoch stage: the format patterns, then
    [fromisoformat] *)
Definition parse_formats (s2 : pystr) : option date :=
  let s2 := strip_Z s2 in
  match try_formats s2 FORMATS with
  | Some d => Some d
  | None => fromisoformat s2
  end.

(** the epoch stage on a string already known to be all digits: the body
    of the [try]; [None] is the handler's [pass] *)
Definition parse_epoch (s2 : pystr) : option date :=
  n ← py_int s2;
  if (1000000000000 <? n)%Z
  then fromtimestamp (inject_Z n / 1000)
  else fromtimestamp (inject_Z n).

(** [try_parse_iso_date] *)
Definition try_parse_iso_date (s : value) : option date :=
  if negb (truthy s) then None else
  match s with
  | VDate d => Some d
  | VDatetime d _ => Some d
  | _ =>
      let s2 := strip (py_str s) in
      let digits := List.filter is_decimal s2 in    (* re.sub(r"\D", "", s2) *)
      let epoch :=
        if negb (pystr_eqb digits []) && pystr_eqb digits s2
        then parse_epoch s2 else None in
      match epoch with
      | Some d => Some d
      | None => parse_formats s2
      end
  end.

(** [parse_signal_block]: the returned dict has at most the keys "pair",
    "time" and "payout" *)
Record block := mkblock {
  blk_pair : option pystr;
  blk_time : option pystr;
  blk_payout : option Q
}.

Definition parse_signal_block (text : pystr) : block :=
  {| blk_pair := (fun m => strip (group_of m "1")) <$> re_search ATIVO text;
     blk_time := (fun m => group_of m "1") <$> re_search HORARIO text;
     blk_payout := m ← re_search PAYOUT text; payout_of m |}.

(** [RESOLVED_RE], whose last group is [(?P<result>WIN|LOSS|DOJI|Doji|Doji)] *)
Definition RESOLVED_RE : regex :=
  RESOLVED "result"
    (RAlt (RLit "WIN") (RAlt (RLit "LOSS") (RAlt (RLit "DOJI") (RAlt (RLit "Doji") (RLit "Doji"))))).

Record rec := mkrec {
  pair : pystr;
  time : pystr;
  hour : option Z;
  tf : pystr;
  direction : pystr;
  result : pystr;
  gale_level : Z;
  payout : option Q;
  msg_date : option date
}.

(** the message's "text" made a string: the list comprehension and
    ["".join]; an element that is a dict contributes its "text", which
    [join] requires to be a [str] *)
Definition fragment (t : value) : pyres pystr :=
  match t with
  | VDict d =>
      match default (VStr []) (d !! py "text") with
      | VStr s => Ok s
      | _ => Raise TypeError
      end
  | _ => Ok (py_str t)
  end.

Definition flatten_text (text : value) : pyres value :=
  match text with
  | VList l => do parts <- mapM_pyres fragment l; Ok (VStr (List.concat parts))
  | _ => Ok text
  end.

(** ["Ativo:" in text or "Payout:" in text]: substring test on a string,
    key test on a dict, [TypeError] on anything else *)
Definition has_trigger (text : value) : pyres bool :=
  match text with
  | VStr s => Ok (contains (py "Ativo:") s || contains (py "Payout:") s)
  | VDict d => Ok (bool_decide (is_Some (d !! py "Ativo:"))
                   || bool_decide (is_Some (d !! py "Payout:")))
  | _ => Raise TypeError
  end.

(** the loop over the candidate date keys: the first key present with a
    value other than [None] decides *)
Fixpoint date_from_keys (msg : message) (keys : list string) : option date :=
  match keys with
  | [] => None
  | key :: rest =>
      match msg !! py key with
      | Some VNone | None => date_from_keys msg rest
      | Some v => try_parse_iso_date v
      end
  end.

Definition DATE_KEYS : list string :=
  ["date"; "message.date"; "message.date_unixtime"; "message.date_unixtime_str"]%string.

Definition message_date (msg : message) : option date :=
  match date_from_keys msg DATE_KEYS with
  | Some d => Some d
  | None => try_parse_iso_date (py_or (py_or (get msg "text") (get msg "message")) (VStr []))
  end.

Abbreviation signal_table := (gmap (pystr * pystr) Q).

(** [int(time.split(":")[0]) if time else None] *)
Definition hour_of (time : pystr) : pyres (option Z) :=
  match time with
  | [] => Ok None
  | _ => match py_int (before_colon time) with
         | Some h => Ok (Some h)
         | None => Raise ValueError
         end
  end.

(** the body of [if "Ativo:" in text or "Payout:" in text]; [re.search]
    raises on an object that is no string *)
Definition store_signal (signals : signal_table) (text : value) : pyres signal_table :=
  match text with
  | VStr t =>
      let blk := parse_signal_block t in
      match blk_pair blk, blk_time blk, blk_payout blk with
      | Some p, Some t, Some pay => Ok (<[(p, t) := pay]> signals)
      | _, _, _ => Ok signals
      end
  | _ => Raise TypeError
  end.

(** one iteration of the loop of [extract_records] *)
Definition step (st : list rec * signal_table) (msg : message)
    : pyres (list rec * signal_table) :=
  let '(resolved, signals) := st in
  do text <- flatten_text (default (VStr []) (msg !! py "text"));
  do trig <- has_trigger text;
  do signals <- (if trig then store_signal signals text else Ok signals);
  match re_match RESOLVED_RE (one_line (py_str text)) with
  | Some m =>
      let sup := group_of m "sup" in
      let gale_level := sup_to_level sup in
      let pair := strip (group_of m "pair") in
      let time := strip (group_of m "time") in
      let tf := strip (group_of m "tf") in
      let direction := strip (group_of m "dir") in
      let result_raw := py_upper (strip (group_of m "result")) in
      let result :=
        if pystr_eqb result_raw (py "DOJI") then py "DOJI"
        else if pystr_eqb result_raw (py "WIN") then py "WIN"
        else if pystr_eqb result_raw (py "LOSS") then py "LOSS"
        else result_raw in
      let payout := signals !! (pair, time) in
      let msg_date := message_date msg in
      do hour <- hour_of time;
      Ok (resolved ++ [mkrec pair time hour tf direction result gale_level payout msg_date],
          signals)
  | None => Ok (resolved, signals)
  end.

(** [extract_records] *)
Fixpoint run (st : list rec * signal_table) (messages : list message)
    : pyres (list rec * signal_table) :=
  match messages with
  | [] => Ok st
  | msg :: rest => do st' <- step st msg; run st' rest
  end.

Definition extract_records (messages : list message) : pyres (list rec * signal_table) :=
  run ([], ∅) messages.

(** [compute_profit_for_record] *)
Definition compute_profit_for_record (r : rec) (stakes : list Q) (default_payout : Q)
    : pyres Q :=
  let payout :=                      (* rec.get("payout") or default_payout *)
    match payout r with
    | Some p => if Qeq_bool p 0 then default_payout else p
    | None => default_payout
    end in
  let level := gale_level r in
  let result := py_upper (result r) in
  let level := Z.min level (Z.of_nat (length stakes) - 1) in
  if pystr_eqb result (py "DOJI") then Ok 0%Q
  else if pystr_eqb result (py "WIN") then
    if (level =? 0)%Z then
      do s0 <- py_index stakes 0; Ok (s0 * payout)%Q
    else
      let lost := py_sum (py_slice_to stakes level) in
      do sl <- py_index stakes level;
      let win_amount := (sl * payout)%Q in
      Ok (- lost + win_amount)%Q
  else if pystr_eqb result (py "LOSS") then
    let lost := py_sum (py_slice_to stakes (level + 1)) in
    Ok (- lost)%Q
  else Ok 0%Q.

Record hourly_row := mkhourly {
  h_total : Z;
  h_wins : Z;
  h_win_rate : Q
}.

(** [df.groupby("hour").agg(total=size, wins=...)] with the column
    [win_rate = 100.0 * wins / total] *)
Definition hourly_of (group : list rec) : hourly_row :=
  let total := Z.of_nat (length group) in
  let wins := count (fun r => pystr_eqb (result r) (py "WIN")) group in
  mkhourly total wins (100 * inject_Z wins / inject_Z total)%Q.

(** The part of the summary of [summarize_resolved] that is counts and
    rates. Left out: the display lists [top_pairs], [horarios] and
    [pair_counts], and [total_profit] (a sum over a data frame in which
    pandas has turned every missing payout into NaN). *)
Record summary := mksummary {
  total_ops : Z;
  wins : Z;
  losses : Z;
  dojis : Z;
  win_rate : Q;
  g0 : Z;
  g1 : Z;
  g2 : Z;
  hourly_table : gmap Z hourly_row
}.

(** [summarize_resolved]: [None] is the empty dict of an empty frame *)
Definition summarize_resolved (resolved : list rec) : option summary :=
  match resolved with
  | [] => None
  | _ =>
      let total_ops := Z.of_nat (length resolved) in
      let counts (x : string) := count (fun r => pystr_eqb (result r) (py x)) resolved in
      let wins := counts "WIN"%string in
      let losses := counts "LOSS"%string in
      let dojis :=
        if negb (counts "DOJI"%string =? 0)%Z then counts "DOJI"%string
        else if negb (counts "Doji"%string =? 0)%Z then counts "Doji"%string
        else 0%Z in
      let resolved_count := (total_ops - dojis)%Z in
      let win_rate :=
        if (0 <? resolved_count)%Z
        then (100 * inject_Z wins / inject_Z resolved_count)%Q else 0%Q in
      let g_counts (l : Z) := count (fun r => (gale_level r =? l)%Z) resolved in
      Some {|
        total_ops := total_ops; wins := wins; losses := losses; dojis := dojis;
        win_rate := round2 win_rate;
        g0 := g_counts 0%Z; g1 := g_counts 1%Z; g2 := g_counts 2%Z;
        hourly_table := hourly_of <$> groupby hour resolved
      |}
  end.

End App.
End app.

(** * gestao_risco.py *)
Module gestao_risco.
Section GestaoRisco.
Context {R : PyRuntime}.

(** [RESOLVED_RE], whose last group is [(?P<r>WIN|LOSS|DOJI)] *)
Definition RESOLVED_RE : regex := RESOLVED "r" OUTCOME.

Record rec := mkrec {
  result : pystr;
  gale_level : Z
}.

(** the body of [if m:]; the pattern has a group "r", so the first branch
    of [if "r" in m.groupdict()] is taken and nothing in the [try] raises *)
Definition record_of (m : groups) : rec :=
  let sup := group_of m "sup" in
  let gale_level := sup_to_level sup in
  let result_raw := py_upper (strip (group_of m "r")) in
  let result := normalise_result result_raw in
  mkrec result gale_level.

(** one iteration of the loop of [_extract_records] *)
Definition step (records : list rec) (msg : message) : list rec :=
  let text := _get_text_from_msg msg in
  if pystr_eqb text [] then records
  else
    match re_match RESOLVED_RE (one_line text) with
    | Some m => records ++ [record_of m]
    | None => records
    end.

Definition _extract_records (messages : list message) : list rec :=
  fold_left step messages [].

(** [calculate_profit] *)
Definition calculate_profit (result : pystr) (gale_level : Z) (stakes : list Q) (payout : Q)
    : pyres Q :=
  if pystr_eqb result (py "DOJI") then Ok 0%Q
  else
    let level := Z.min gale_level (Z.of_nat (length stakes) - 1) in
    if pystr_eqb result (py "WIN") then
      if (level =? 0)%Z then
        do s0 <- py_index stakes 0; Ok (s0 * payout)%Q
      else
        let lost := py_sum (py_slice_to stakes level) in
        do sl <- py_index stakes level;
        let win_amount := (sl * payout)%Q in
        Ok (- lost + win_amount)%Q
    else Ok (- py_sum (py_slice_to stakes (level + 1)))%Q.

(** [simulate_equity_curve]: the loop carries [equity] and [current] *)
Fixpoint simulate_from (equity : list Q) (current : Q) (records : list rec)
    (stakes : list Q) (payout : Q) : pyres (list Q) :=
  match records with
  | [] => Ok equity
  | r :: rest =>
      do profit <- calculate_profit (result r) (gale_level r) stakes payout;
      let current := (current + profit)%Q in
      simulate_from (equity ++ [current]) current rest stakes payout
  end.

Definition simulate_equity_curve (records : list rec) (capital : Q) (stakes : list Q)
    (payout : Q) : pyres (list Q) :=
  simulate_from [capital] capital records stakes payout.

(** The drawdown loop of [render_from_json], over its inputs
    [capital_inicial] and [equity_curve]. *)
Record drawdown_state := mkdd {
  peak : Q;
  max_dd : Q;
  max_dd_pct : Q;
  min_balance : Q
}.

Definition drawdown_step (st : drawdown_state) (balance : Q) : drawdown_state :=
  let peak := if Qltb (peak st) balance then balance else peak st in
  let dd := (peak - balance)%Q in
  let dd_pct := if Qltb 0 peak then (dd / peak * 100)%Q else 0%Q in
  let '(max_dd, max_dd_pct) :=
    if Qltb (max_dd st) dd then (dd, dd_pct) else (max_dd st, max_dd_pct st) in
  let min_balance := if Qltb balance (min_balance st) then balance else min_balance st in
  mkdd peak max_dd max_dd_pct min_balance.

Definition drawdown (capital_inicial : Q) (equity_curve : list Q) : drawdown_state :=
  fold_left drawdown_step equity_curve (mkdd capital_inicial 0 0 capital_inicial).

Inductive capital_status := ADEQUADO | ACEITAVEL | INSUFICIENTE.

(** What [render_from_json] computes before it renders. *)
Record metrics := mkmetrics {
  total_ops : Z;
  wins : Z;
  losses : Z;
  win_rate : Q;
  loss_rate : Q;
  equity_curve : list Q;
  dd : drawdown_state;
  final_balance : Q;
  prob_2_loss : Q;
  prob_3_loss : Q;
  prob_4_loss : Q;
  prob_5_loss : Q;
  capital_min_recomendado : Q;
  status_capital : capital_status;
  lucro_medio : Q;
  ops_por_dia : Q;
  proj_otimista : Q;
  proj_realista : Q;
  proj_pessimista : Q
}.

Definition capital_inicial : Q := 500.
Definition payout_minimo : Q := 85 # 100.
Definition stakes_c1 : list Q := [2; 43 # 10; 924 # 100]%Q.

(** [render_from_json] on the extracted records: [None] is the early
    return on an empty frame *)
Definition render_records (records : list rec) : pyres (option metrics) :=
  match records with
  | [] => Ok None
  | _ =>
      let total_ops := Z.of_nat (length records) in
      let wins := count (fun r => pystr_eqb (result r) (py "WIN")) records in
      let losses := count (fun r => pystr_eqb (result r) (py "LOSS")) records in
      let win_rate :=
        if (0 <? wins + losses)%Z then (inject_Z wins / inject_Z (wins + losses))%Q else 0%Q in
      let loss_rate := (1 - win_rate)%Q in
      do equity_curve <- simulate_equity_curve records capital_inicial stakes_c1 payout_minimo;
      let dd := drawdown capital_inicial equity_curve in
      let final_balance := List.last equity_curve 0%Q in
      let max_loss_c1 := py_sum stakes_c1 in
      let capital_min_recomendado := (max_loss_c1 * 5)%Q in
      let status_capital :=
        if Qleb capital_min_recomendado capital_inicial then ADEQUADO
        else if Qleb (capital_min_recomendado * (7 # 10)) capital_inicial then ACEITAVEL
        else INSUFICIENTE in
      do profits <- mapM_pyres
                      (fun r => calculate_profit (result r) (gale_level r) stakes_c1 payout_minimo)
                      records;
      let lucro_medio := (py_sum profits / inject_Z (Z.of_nat (length profits)))%Q in
      let lucro_diario_atual := (py_sum profits / 30)%Q in
      Ok (Some {|
        total_ops := total_ops; wins := wins; losses := losses;
        win_rate := win_rate; loss_rate := loss_rate;
        equity_curve := equity_curve; dd := dd; final_balance := final_balance;
        prob_2_loss := loss_rate ^ 2 * 100;
        prob_3_loss := loss_rate ^ 3 * 100;
        prob_4_loss := loss_rate ^ 4 * 100;
        prob_5_loss := loss_rate ^ 5 * 100;
        capital_min_recomendado := capital_min_recomendado;
        status_capital := status_capital;
        lucro_medio := lucro_medio;
        ops_por_dia := if (0 <? total_ops)%Z then inject_Z total_ops / 30 else 10;
        proj_otimista := lucro_diario_atual * 22 * (15 # 10);
        proj_realista := lucro_diario_atual * 22;
        proj_pessimista := lucro_diario_atual * 22 * (7 # 10)
      |})
  end.

Definition render_from_json (messages : list message) : pyres (option metrics) :=
  render_records (_extract_records messages).

End GestaoRisco.
End gestao_risco.

(** * analise_gales.py *)
Module analise_gales.
Section AnaliseGales.
Context {R : PyRuntime}.

Definition RESOLVED_RE : regex := RESOLVED "r" OUTCOME.

Record rec := mkrec {
  pair : pystr;
  time : pystr;
  tf : pystr;
  direction : pystr;
  result : pystr;
  gale_level : Z
}.

Definition record_of (m : groups) : rec :=
  let sup := group_of m "sup" in
  let gale_level := sup_to_level sup in
  let pair := strip (group_of m "pair") in
  let time := strip (group_of m "time") in
  let tf := strip (group_of m "tf") in
  let direction := strip (group_of m "dir") in
  let result_raw := py_upper (strip (group_of m "r")) in
  mkrec pair time tf direction (normalise_result result_raw) gale_level.

Definition step (records : list rec) (msg : message) : list rec :=
  let text := _get_text_from_msg msg in
  if pystr_eqb text [] then records
  else
    match re_match RESOLVED_RE (one_line text) with
    | Some m => records ++ [record_of m]
    | None => records
    end.

Definition _extract_records (messages : list message) : list rec :=
  fold_left step messages [].

(** [a / b * 100 if b > 0 else 0] *)
Definition rate (a b : Z) : Q :=
  if (0 <? b)%Z then (inject_Z a / inject_Z b * 100)%Q else 0%Q.

Definition is_result (x : string) (r : rec) : bool := pystr_eqb (result r) (py x).

(** What [render_from_json] computes before it renders. *)
Record metrics := mkmetrics {
  total_ops : Z;
  total_g0 : Z; total_g1 : Z; total_g2 : Z;
  pct_g0 : Q; pct_g1 : Q; pct_g2 : Q;
  wins_g0 : Z; wins_g1 : Z; wins_g2 : Z;
  losses_g0 : Z; losses_g1 : Z; losses_g2 : Z;
  wr_g0 : Q; wr_g1 : Q; wr_g2 : Q;
  wr_com_g1 : Q;
  wr_com_g1_g2 : Q;
  taxa_recup_g1 : Q;
  taxa_recup_g2 : Q
}.

Definition render_records (df : list rec) : option metrics :=
  match df with
  | [] => None
  | _ =>
      let total_ops := Z.of_nat (length df) in
      let g0_ops := List.filter (fun r => (gale_level r =? 0)%Z) df in
      let g1_ops := List.filter (fun r => (gale_level r =? 1)%Z) df in
      let g2_ops := List.filter (fun r => (gale_level r =? 2)%Z) df in
      let total_g0 := Z.of_nat (length g0_ops) in
      let total_g1 := Z.of_nat (length g1_ops) in
      let total_g2 := Z.of_nat (length g2_ops) in
      let wins_g0 := count (is_result "WIN") g0_ops in
      let wins_g1 := count (is_result "WIN") g1_ops in
      let wins_g2 := count (is_result "WIN") g2_ops in
      let losses_g0 := count (is_result "LOSS") g0_ops in
      let losses_g1 := count (is_result "LOSS") g1_ops in
      let losses_g2 := count (is_result "LOSS") g2_ops in
      let ops_ate_g1 := List.filter (fun r => (gale_level r <=? 1)%Z) df in
      let wins_ate_g1 := count (is_result "WIN") ops_ate_g1 in
      let losses_ate_g1 := count (is_result "LOSS") ops_ate_g1 in
      let wins_total := count (is_result "WIN") df in
      let losses_total := count (is_result "LOSS") df in
      Some {|
        total_ops := total_ops;
        total_g0 := total_g0; total_g1 := total_g1; total_g2 := total_g2;
        pct_g0 := rate total_g0 total_ops;
        pct_g1 := rate total_g1 total_ops;
        pct_g2 := rate total_g2 total_ops;
        wins_g0 := wins_g0; wins_g1 := wins_g1; wins_g2 := wins_g2;
        losses_g0 := losses_g0; losses_g1 := losses_g1; losses_g2 := losses_g2;
        wr_g0 := rate wins_g0 (wins_g0 + losses_g0);
        wr_g1 := rate wins_g1 (wins_g1 + losses_g1);
        wr_g2 := rate wins_g2 (wins_g2 + losses_g2);
        wr_com_g1 := rate wins_ate_g1 (wins_ate_g1 + losses_ate_g1);
        wr_com_g1_g2 := rate wins_total (wins_total + losses_total);
        taxa_recup_g1 := rate wins_g1 total_g1;
        taxa_recup_g2 := rate wins_g2 total_g2
      |}
  end.

Definition render_from_json (messages : list message) : option metrics :=
  render_records (_extract_records messages).

End AnaliseGales.
End analise_gales.

(** * performance_paridades.py *)
Module performance_paridades.
Section PerformanceParidades.
Context {R : PyRuntime}.

Definition RESOLVED_RE : regex := RESOLVED "result" OUTCOME.

Record rec := mkrec {
  pair : pystr;
  time : pystr;
  tf : pystr;
  direction : pystr;
  result : pystr;
  gale_level : Z;
  payout : option Q
}.

(** the body of [if m:]; the pattern has no group "r" and has a group
    "result", so the second branch is taken and nothing in the [try] raises *)
Definition record_of (signals : gmap (pystr * pystr) (option Q)) (m : groups) : rec :=
  let sup := group_of m "sup" in
  let gale_level := sup_to_level sup in
  let pair := strip (group_of m "pair") in
  let time := strip (group_of m "time") in
  let tf := strip (group_of m "tf") in
  let direction := strip (group_of m "dir") in
  let result_raw := py_upper (strip (group_of m "result")) in
  let result := normalise_result result_raw in
  let payout := signal_payout signals pair time in
  mkrec pair time tf direction result gale_level payout.

Definition step (signals : gmap (pystr * pystr) (option Q)) (records : list rec)
    (msg : message) : list rec :=
  let text := _get_text_from_msg msg in
  if pystr_eqb text [] then records
  else
    match re_match RESOLVED_RE (one_line text) with
    | Some m => records ++ [record_of signals m]
    | None => records
    end.

Definition _extract_records (messages : list message) : list rec :=
  let signals := collect_signals messages in
  fold_left (step signals) messages [].

(** [_calculate_volatility] *)
Definition _calculate_volatility (wins losses : Z) : Q :=
  let total := (wins + losses)%Z in
  if (total =? 0)%Z then 0%Q
  else (inject_Z losses / inject_Z total * 100)%Q.

Inductive classification := SEM_DADOS | EXCELENTE | BOM | OK | REGULAR | PERIGOSO.

(** the colour returned with each label *)
Definition colour (c : classification) : string :=
  match c with
  | SEM_DADOS => "#9aa0a6"
  | EXCELENTE => "#0b8043"
  | BOM => "#1a73e8"
  | OK => "#f9ab00"
  | REGULAR => "#f29900"
  | PERIGOSO => "#d93025"
  end.

(** [_classify_pair], the label of the returned pair *)
Definition _classify_pair (win_rate_pct volatility_pct : Q) (total_ops : Z) : classification :=
  if (total_ops <? 5)%Z then SEM_DADOS
  else if Qleb 90 win_rate_pct && Qleb volatility_pct 15 then EXCELENTE
  else if Qleb 85 win_rate_pct && Qleb volatility_pct 18 then BOM
  else if Qleb 80 win_rate_pct && Qleb volatility_pct 25 then OK
  else if Qleb 75 win_rate_pct then REGULAR
  else PERIGOSO.

Record row := mkrow {
  Total_Operacoes : Z;
  WIN : Z;
  LOSS : Z;
  DOJI : Z;
  G0 : Z;
  G1 : Z;
  G2 : Z;
  Win_Rate_Pct : Q;
  Pct_Gale1 : Q;
  Pct_Gale2 : Q;
  Volatilidade_Pct : Q;
  Classificacao : classification
}.

Definition is_result (x : string) (r : rec) : bool := pystr_eqb (result r) (py x).

(** the row of one instrument in [pair_analysis] *)
Definition row_of (group : list rec) : row :=
  let total := Z.of_nat (length group) in
  let win := count (is_result "WIN") group in
  let loss := count (is_result "LOSS") group in
  let doji := count (is_result "DOJI") group in
  let g0 := count (fun r => (gale_level r =? 0)%Z) group in
  let g1 := count (fun r => (gale_level r =? 1)%Z) group in
  let g2 := count (fun r => (gale_level r =? 2)%Z) group in
  let win_rate_pct := round2 (pct_fillna win (win + loss)) in
  let volatilidade_pct := round2 (_calculate_volatility win loss) in
  {| Total_Operacoes := total; WIN := win; LOSS := loss; DOJI := doji;
     G0 := g0; G1 := g1; G2 := g2;
     Win_Rate_Pct := win_rate_pct;
     Pct_Gale1 := round2 (pct_fillna g1 total);
     Pct_Gale2 := round2 (pct_fillna g2 total);
     Volatilidade_Pct := volatilidade_pct;
     Classificacao := _classify_pair win_rate_pct volatilidade_pct total |}.

(** [pair_analysis] of [render_from_json], a row per instrument *)
Definition pair_analysis (records : list rec) : gmap pystr row :=
  row_of <$> groupby (fun r => Some (pair r)) records.

End PerformanceParidades.
End performance_paridades.

(** * validacao_horarios.py *)
Module validacao_horarios.
Section ValidacaoHorarios.
Context {R : PyRuntime}.

Definition RESOLVED_RE : regex := RESOLVED "result" OUTCOME.

Record rec := mkrec {
  pair : pystr;
  time : pystr;
  hour : option Z;
  tf : pystr;
  direction : pystr;
  result : pystr;
  gale_level : Z;
  payout : option Q
}.

(** [int(time.split(":")[0]) if time else None] *)
Definition hour_of (time : pystr) : pyres (option Z) :=
  match time with
  | [] => Ok None
  | _ => match py_int (before_colon time) with
         | Some h => Ok (Some h)
         | None => Raise ValueError
         end
  end.

Definition record_of (signals : gmap (pystr * pystr) (option Q)) (m : groups) : pyres rec :=
  let sup := group_of m "sup" in
  let gale_level := sup_to_level sup in
  let pair := strip (group_of m "pair") in
  let time := strip (group_of m "time") in
  let tf := strip (group_of m "tf") in
  let direction := strip (group_of m "dir") in
  let result_raw := py_upper (strip (group_of m "result")) in
  let result := normalise_result result_raw in
  let payout := signal_payout signals pair time in
  do hour <- hour_of time;
  Ok (mkrec pair time hour tf direction result gale_level payout).

(** one iteration of the second loop of [_extract_records] *)
Definition step (signals : gmap (pystr * pystr) (option Q)) (records : list rec)
    (msg : message) : pyres (list rec) :=
  let text := _get_text_from_msg msg in
  if pystr_eqb text [] then Ok records
  else
    match re_match RESOLVED_RE (one_line text) with
    | Some m => do r <- record_of signals m; Ok (records ++ [r])
    | None => Ok records
    end.

Fixpoint second_pass (signals : gmap (pystr * pystr) (option Q)) (records : list rec)
    (messages : list message) : pyres (list rec) :=
  match messages with
  | [] => Ok records
  | msg :: rest => do records' <- step signals records msg; second_pass signals records' rest
  end.

(** [_extract_records]: first the payouts, then the resolved lines *)
Definition _extract_records (messages : list message) : pyres (list rec) :=
  let signals := collect_signals messages in
  second_pass signals [] messages.

(** [_calculate_volatility] *)
Definition _calculate_volatility (wins total_ops : Z) : Q :=
  if (total_ops =? 0)%Z then 0%Q
  else (inject_Z wins / inject_Z total_ops * 100)%Q.

Inductive classification := EXCELENTE | BOM | OK | RUIM.

(** [_classify_hour], the label of the returned pair *)
Definition _classify_hour (win_rate_pct volatility_pct : Q) : classification :=
  if Qleb 88 win_rate_pct && Qleb 78 volatility_pct then EXCELENTE
  else if Qleb 85 win_rate_pct && Qleb 74 volatility_pct then BOM
  else if Qleb 82 win_rate_pct && Qleb 68 volatility_pct then OK
  else RUIM.

Record row := mkrow {
  Total_Operacoes : Z;
  WIN : Z;
  LOSS : Z;
  DOJI : Z;
  Win_Rate_Pct : Q;
  Volatilidade_Pct : Q;
  Classificacao : classification
}.

Definition is_result (x : string) (r : rec) : bool := pystr_eqb (result r) (py x).

(** the row of one hour in [hourly_analysis] *)
Definition row_of (group : list rec) : row :=
  let total := Z.of_nat (length group) in
  let win := count (is_result "WIN") group in
  let loss := count (is_result "LOSS") group in
  let doji := count (is_result "DOJI") group in
  let win_rate_pct := round2 (pct_fillna win (win + loss)) in
  let volatilidade_pct := round2 (_calculate_volatility win total) in
  {| Total_Operacoes := total; WIN := win; LOSS := loss; DOJI := doji;
     Win_Rate_Pct := win_rate_pct;
     Volatilidade_Pct := volatilidade_pct;
     Classificacao := _classify_hour win_rate_pct volatilidade_pct |}.

(** [hourly_analysis] of [render_from_json], a row per hour *)
Definition hourly_analysis (records : list rec) : gmap Z row :=
  row_of <$> groupby hour records.

End ValidacaoHorarios.
End validacao_horarios.

(** * qualidade_sala.py *)
Module qualidade_sala.
Section QualidadeSala.
Context {R : PyRuntime}.

(** the keys of a record that the metrics of [render_from_json] read *)
Record rec := mkrec {
  result : pystr;
  gale_level : Z
}.

(** [_safe_div] *)
Definition _safe_div (a b : Z) : Q :=
  if negb (b =? 0)%Z then (inject_Z a / inject_Z b)%Q else 0%Q.

Inductive tendencia_t := EXCELENTE | BOM | REGULAR | ALERTA.

(** What [render_from_json] computes from the records before it renders. *)
Record metrics := mkmetrics {
  total_operations : Z;
  wins : Z; losses : Z; dojis : Z;
  total_g0 : Z; total_g1 : Z; total_g2 : Z;
  wins_g0 : Z; wins_g1 : Z; wins_g2 : Z;
  win_rate_bruto_pct : Q;
  win_rate_g0_pct : Q; win_rate_g1_pct : Q; win_rate_g2_pct : Q;
  ops_resolved_at_entry_pct : Q; ops_needed_g1_pct : Q; ops_needed_g2_pct : Q;
  tendencia : tendencia_t
}.

Definition is_result (x : string) (r : rec) : bool := pystr_eqb (result r) (py x).

(** [round(_safe_div(a, b) * 100.0, 2) if b > 0 else 0.0] *)
Definition pct (a b : Z) : Q :=
  if (0 <? b)%Z then round2 (_safe_div a b * 100) else 0%Q.

Definition render_records (df : list rec) : metrics :=
  let total_operations := Z.of_nat (length df) in
  let wins := count (is_result "WIN") df in
  let losses := count (is_result "LOSS") df in
  let dojis := count (is_result "DOJI") df in
  let at_level (l : Z) (r : rec) := (gale_level r =? l)%Z in
  let total_g0 := count (at_level 0%Z) df in
  let total_g1 := count (at_level 1%Z) df in
  let total_g2 := count (at_level 2%Z) df in
  let wins_g0 := count (fun r => at_level 0%Z r && is_result "WIN" r) df in
  let wins_g1 := count (fun r => at_level 1%Z r && is_result "WIN" r) df in
  let wins_g2 := count (fun r => at_level 2%Z r && is_result "WIN" r) df in
  let resolved_ops := (wins + losses)%Z in
  let win_rate_bruto_pct := pct wins resolved_ops in
  {| total_operations := total_operations;
     wins := wins; losses := losses; dojis := dojis;
     total_g0 := total_g0; total_g1 := total_g1; total_g2 := total_g2;
     wins_g0 := wins_g0; wins_g1 := wins_g1; wins_g2 := wins_g2;
     win_rate_bruto_pct := win_rate_bruto_pct;
     win_rate_g0_pct := pct wins_g0 total_g0;
     win_rate_g1_pct := pct wins_g1 total_g1;
     win_rate_g2_pct := pct wins_g2 total_g2;
     ops_resolved_at_entry_pct := pct total_g0 total_operations;
     ops_needed_g1_pct := pct total_g1 total_operations;
     ops_needed_g2_pct := pct total_g2 total_operations;
     tendencia :=
       if Qleb 85 win_rate_bruto_pct then EXCELENTE
       else if Qleb 75 win_rate_bruto_pct then BOM
       else if Qleb 65 win_rate_bruto_pct then REGULAR
       else ALERTA |}.

End QualidadeSala.
End qualidade_sala.

(** * padroes_tendencias.py *)
Module padroes_tendencias.
Section PadroesTendencias.
Context {R : PyRuntime} {D : DateLib}.

(** [RESOLVED_RE], whose last group is [(?P<r>WIN|LOSS|DOJI)] *)
Definition RESOLVED_RE : regex := RESOLVED "r" OUTCOME.

(** [_get_date_from_msg], of whose [datetime] the calendar date is kept
    (the page reads nothing else of it): the first of the keys "date" and
    "message.date" whose value is a string that [fromisoformat] reads once
    every "Z" is removed from it *)
Fixpoint date_from_keys (msg : message) (keys : list string) : option date :=
  match keys with
  | [] => None
  | key :: rest =>
      match msg !! py key with
      | Some (VStr val) =>
          match fromisoformat (List.filter (fun c => negb (c =? 90)%N) val) with
          | Some d => Some d
          | None => date_from_keys msg rest
          end
      | _ => date_from_keys msg rest
      end
  end.

Definition _get_date_from_msg (msg : message) : option date :=
  date_from_keys msg ["date"; "message.date"]%string.

Record rec := mkrec {
  pair : pystr;
  time : pystr;
  tf : pystr;
  direction : pystr;
  result : pystr;
  gale_level : Z;
  msg_date : option date
}.

(** the body of [if m:]; the pattern has a group "r", so the first branch
    of [if "r" in m.groupdict()] is taken and nothing in the [try] raises *)
Definition record_of (msg : message) (m : groups) : rec :=
  let sup := group_of m "sup" in
  let gale_level := sup_to_level sup in
  let pair := strip (group_of m "pair") in
  let time := strip (group_of m "time") in
  let tf := strip (group_of m "tf") in
  let direction := strip (group_of m "dir") in
  let result_raw := py_upper (strip (group_of m "r")) in
  let result := normalise_result result_raw in
  let msg_date := _get_date_from_msg msg in
  mkrec pair time tf direction result gale_level msg_date.

(** one iteration of the loop of [_extract_records] *)
Definition step (records : list rec) (msg : message) : list rec :=
  let text := _get_text_from_msg msg in
  if pystr_eqb text [] then records
  else
    match re_match RESOLVED_RE (one_line text) with
    | Some m => records ++ [record_of msg m]
    | None => records
    end.

Definition _extract_records (messages : list message) : list rec :=
  fold_left step messages [].

End PadroesTendencias.
End padroes_tendencias.

(** ** A concrete runtime for the examples

    CPython's tables restricted to Basic Latin and Latin-1 Supplement, the
    code points of the example texts; the three check glyphs and every other
    code point above U+00FF are taken as caseless symbols. [str()] is given
    on [None], booleans and integers, and prints a placeholder for the other
    objects, which no example converts. *)
Module Latin1.

Definition in_range (lo hi c : N) : bool := ((lo <=? c) && (c <=? hi))%N.

Definition digit_value (c : N) : option N :=
  if in_range 48 57 c then Some (c - 48)%N else None.

Definition alnum (c : N) : bool :=
  in_range 48 57 c || in_range 65 90 c || in_range 97 122 c || (c =? 170)%N
  || in_range 178 179 c || (c =? 181)%N || in_range 185 186 c || in_range 188 190 c
  || in_range 192 214 c || in_range 216 246 c || in_range 248 255 c.

Definition lower (c : N) : N :=
  if in_range 65 90 c || in_range 192 214 c || in_range 216 222 c then (c + 32)%N else c.

Definition same_letter (c x : N) : bool := (lower c =? lower x)%N.

Definition upper (c : N) : pystr :=
  if in_range 97 122 c || in_range 224 246 c || in_range 248 254 c then [(c - 32)%N]
  else if (c =? 181)%N then [924%N]
  else if (c =? 223)%N then [83%N; 83%N]
  else if (c =? 255)%N then [376%N]
  else [c].

Definition upper_all (s : pystr) : pystr := List.concat (List.map upper s).

Fixpoint digits_of (fuel : nat) (n : N) (acc : pystr) : pystr :=
  match fuel with
  | O => acc
  | S fuel' =>
      let acc' := (48 + n mod 10)%N :: acc in
      if (n <? 10)%N then acc' else digits_of fuel' (n / 10)%N acc'
  end.

Definition repr_int (n : Z) : pystr :=
  let d := digits_of (S (N.to_nat (N.log2 (Z.abs_N n)))) (Z.abs_N n) [] in
  if (n <? 0)%Z then 45%N :: d else d.

Definition repr (v : value) : pystr :=
  match v with
  | VNone => py "None"
  | VBool true => py "True"
  | VBool false => py "False"
  | VInt n => repr_int n
  | VStr s => s
  | _ => py "<object>"
  end.

Lemma digit_not_space c d : digit_value c = Some d -> is_space c = false.
Proof.
  unfold digit_value, in_range.
  destruct (48 <=? c)%N eqn:H1; [|discriminate].
  destruct (c <=? 57)%N eqn:H2; [|discriminate].
  intros _. apply N.leb_le in H1, H2.
  assert (E : (c = 48 \/ c = 49 \/ c = 50 \/ c = 51 \/ c = 52 \/ c = 53 \/ c = 54
               \/ c = 55 \/ c = 56 \/ c = 57)%N) by lia.
  repeat destruct E as [->|E]; try subst c; reflexivity.
Qed.

Lemma colon_alone c : same_letter c 58 = true -> c = 58%N.
Proof.
  unfold same_letter. change (lower 58) with 58%N. intros E. apply N.eqb_eq in E.
  revert E. unfold lower.
  destruct (in_range 65 90 c || in_range 192 214 c || in_range 216 222 c) eqn:Hc; [|auto].
  intros E. assert (c = 26%N) by lia. subst c. discriminate.
Qed.

#[global] Instance runtime : PyRuntime := {|
  decimal_value := digit_value;
  is_alnum := alnum;
  ci_eq := same_letter;
  py_upper := upper_all;
  py_repr := repr;
  decimal_not_space := digit_not_space;
  decimal_not_colon := eq_refl;
  colon_caseless := colon_alone
|}.

End Latin1.

(** [datetime.fromtimestamp(x).date()] of CPython on a host whose local
    time is UTC: the civil date of the day [floor(x / 86400)] after
    1970-01-01, and [ValueError] unless that day and the day before it (which
    CPython probes for a repeated hour) lie in the years 1..9999. *)
Module Utc.

Definition civil_from_days (z : Z) : date :=
  let z := (z + 719468)%Z in
  let era := (z / 146097)%Z in
  let doe := (z - era * 146097)%Z in
  let yoe := ((doe - doe / 1460 + doe / 36524 - doe / 146096) / 365)%Z in
  let y := (yoe + era * 400)%Z in
  let doy := (doe - (365 * yoe + yoe / 4 - yoe / 100))%Z in
  let mp := ((5 * doy + 2) / 153)%Z in
  let d := (doy - (153 * mp + 2) / 5 + 1)%Z in
  let m := if (mp <? 10)%Z then (mp + 3)%Z else (mp - 9)%Z in
  mkdate (if (m <=? 2)%Z then y + 1 else y)%Z m d.

Definition fromtimestamp (x : Q) : option date :=
  let days := Qfloor (x / 86400) in
  let d := civil_from_days days in
  if ((1 <=? year (civil_from_days (days - 1))) && (year d <=? 9999))%Z
  then Some d else None.

End Utc.

(** ** What one message contributes, and the rows of one key *)

Section Contributions.
Context {R : PyRuntime}.

(** the records one message adds in [gestao_risco._extract_records] *)
Definition gestao_one (msg : message) : list gestao_risco.rec :=
  match re_match gestao_risco.RESOLVED_RE (one_line (_get_text_from_msg msg)) with
  | Some m => [gestao_risco.record_of m]
  | None => []
  end.

(** the records one message adds in [analise_gales._extract_records] *)
Definition gales_one (msg : message) : list analise_gales.rec :=
  match re_match analise_gales.RESOLVED_RE (one_line (_get_text_from_msg msg)) with
  | Some m => [analise_gales.record_of m]
  | None => []
  end.

(** a message that the first pass of the two-pass extractors stores *)
Definition is_open_signal (msg : message) : bool :=
  let text := _get_text_from_msg msg in
  (contains (py "Ativo:") text || contains (py "Payout:") text)
  && bool_decide (is_Some (re_search ATIVO text))
  && bool_decide (is_Some (re_search HORARIO text)).

End Contributions.

(** the rows of a frame whose key is [k] *)
Definition rows_of {A K} `{EqDecision K} (key : A -> option K) (k : K) (l : list A) : list A :=
  List.filter (fun a => bool_decide (key a = Some k)) l.

(** ** Vocabulary of the further properties *)

(** the keys [_get_text_from_msg] probes *)
Definition TEXT_KEYS : list string := ["text"; "message.text"; "message"; "message_text"]%string.

(** a message whose text, as [_get_text_from_msg] returns it, has a
    character that is not whitespace *)
Definition has_text (msg : message) : bool :=
  negb (pystr_eqb (strip (_get_text_from_msg msg)) []).

(** a pattern with its groups renamed, and the groups of a match renamed *)
Fixpoint rename_re (f : string -> string) (r : regex) : regex :=
  match r with
  | RCat r1 r2 => RCat (rename_re f r1) (rename_re f r2)
  | RAlt r1 r2 => RAlt (rename_re f r1) (rename_re f r2)
  | RStar r' => RStar (rename_re f r')
  | RGroup name r' => RGroup (f name) (rename_re f r')
  | _ => r
  end.

Definition rename_groups (f : string -> string) (g : groups) : groups :=
  List.map (fun p => (f (fst p), snd p)) g.

(** the name of the last group in [gestao_risco], [analise_gales] and
    [padroes_tendencias] ("r"), as the other modules have it ("result") *)
Definition r_to_result (name : string) : string :=
  if String.eqb name "r" then "result"%string else name.

(** the keys of a record of [validacao_horarios] that a record of each
    other page module has *)
Definition paridades_of (r : validacao_horarios.rec) : performance_paridades.rec :=
  performance_paridades.mkrec (validacao_horarios.pair r) (validacao_horarios.time r)
    (validacao_horarios.tf r) (validacao_horarios.direction r) (validacao_horarios.result r)
    (validacao_horarios.gale_level r) (validacao_horarios.payout r).

Definition gales_of (r : validacao_horarios.rec) : analise_gales.rec :=
  analise_gales.mkrec (validacao_horarios.pair r) (validacao_horarios.time r)
    (validacao_horarios.tf r) (validacao_horarios.direction r) (validacao_horarios.result r)
    (validacao_horarios.gale_level r).

Definition gestao_of (r : validacao_horarios.rec) : gestao_risco.rec :=
  gestao_risco.mkrec (validacao_horarios.result r) (validacao_horarios.gale_level r).

(** a record of [padroes_tendencias] without its date *)
Definition gales_of_padroes (r : padroes_tendencias.rec) : analise_gales.rec :=
  analise_gales.mkrec (padroes_tendencias.pair r) (padroes_tendencias.time r)
    (padroes_tendencias.tf r) (padroes_tendencias.direction r) (padroes_tendencias.result r)
    (padroes_tendencias.gale_level r).

Section Vocabulary.
Context {R : PyRuntime}.

(** the records one message adds in the second pass of
    [validacao_horarios._extract_records], in
    [performance_paridades._extract_records] and in
    [padroes_tendencias._extract_records] *)
Definition horarios_one (signals : gmap (pystr * pystr) (option Q)) (msg : message)
    : list validacao_horarios.rec :=
  match re_match validacao_horarios.RESOLVED_RE (one_line (_get_text_from_msg msg)) with
  | Some m => match validacao_horarios.record_of signals m with
              | Ok r => [r]
              | Raise _ => []
              end
  | None => []
  end.

Definition paridades_one (signals : gmap (pystr * pystr) (option Q)) (msg : message)
    : list performance_paridades.rec :=
  match re_match performance_paridades.RESOLVED_RE (one_line (_get_text_from_msg msg)) with
  | Some m => [performance_paridades.record_of signals m]
  | None => []
  end.

Definition padroes_one {D : DateLib} (msg : message) : list padroes_tendencias.rec :=
  match re_match padroes_tendencias.RESOLVED_RE (one_line (_get_text_from_msg msg)) with
  | Some m => [padroes_tendencias.record_of msg m]
  | None => []
  end.

(** a message whose text, collapsed to one line, is a resolved line *)
Definition is_resolved_line (msg : message) : bool :=
  match re_match (RESOLVED "result" OUTCOME) (one_line (_get_text_from_msg msg)) with
  | Some _ => true
  | None => false
  end.

(** a table of the first pass none of whose payouts is negative *)
Definition nonneg_table (signals : gmap (pystr * pystr) (option Q)) : Prop :=
  forall k q, signals !! k = Some (Some q) -> (0 <= q)%Q.

(** what holds of every record of [validacao_horarios._extract_records],
    given the table of its first pass: the result is one of the three
    outcomes, the gale level is between 0 and 3, the time has the shape
    HH:MM:SS, the hour is the number its first two digits spell, the payout is
    the entry of the table for the instrument and the time, and is not negative
    when it is known *)
Definition horarios_well_formed (signals : gmap (pystr * pystr) (option Q))
    (r : validacao_horarios.rec) : Prop :=
  (validacao_horarios.result r = py "WIN" \/ validacao_horarios.result r = py "LOSS"
   \/ validacao_horarios.result r = py "DOJI")
  /\ (0 <= validacao_horarios.gale_level r <= 3)%Z
  /\ hhmmss (validacao_horarios.time r)
  /\ (exists h, validacao_horarios.hour r = Some h
        /\ py_int (take 2 (validacao_horarios.time r)) = Some h /\ (0 <= h)%Z)
  /\ validacao_horarios.payout r
     = signal_payout signals (validacao_horarios.pair r) (validacao_horarios.time r)
  /\ (forall q, validacao_horarios.payout r = Some q -> (0 <= q)%Q).

(** what holds of every record of [app.extract_records]: the gale level is
    between 0 and 3, the time has the shape HH:MM:SS, the hour is the number
    its first two digits spell, and the payout is not negative when it is
    known *)
Definition app_well_formed (r : app.rec) : Prop :=
  (0 <= app.gale_level r <= 3)%Z
  /\ hhmmss (app.time r)
  /\ (exists h, app.hour r = Some h /\ py_int (take 2 (app.time r)) = Some h /\ (0 <= h)%Z)
  /\ (forall q, app.payout r = Some q -> (0 <= q)%Q).

(** two characters that [re.IGNORECASE] matches against the same
    characters, as a letter and its other case *)
Definition same_case_class (x y : N) : Prop :=
  forall c, ((c =? x)%N || ci_eq c x) = ((c =? y)%N || ci_eq c y).

End Vocabulary.

(** a table of [app.extract_records] none of whose payouts is negative *)
Definition app_nonneg_table (signals : gmap (pystr * pystr) Q) : Prop :=
  forall k q, signals !! k = Some q -> (0 <= q)%Q.

(** a fragment of a "text" list that ["".join] refuses: a dict whose own
    "text" is no string *)
Definition bad_fragment (t : value) : bool :=
  match t with
  | VDict d => match default (VStr []) (d !! py "text") with
               | VStr _ => false
               | _ => true
               end
  | _ => false
  end.

(** a message whose "text" [app.extract_records] cannot process: a value
    that is neither a string, a list nor a dict; a list with a fragment that
    [join] refuses; a dict that has one of the trigger strings as a key *)
Definition bad_text (msg : message) : bool :=
  match msg !! py "text" with
  | None | Some (VStr _) => false
  | Some (VList l) => existsb bad_fragment l
  | Some (VDict d) => bool_decide (is_Some (d !! py "Ativo:"))
                      || bool_decide (is_Some (d !! py "Payout:"))
  | Some _ => true
  end.

(** the balances after each profit, from a starting balance *)
Fixpoint running (current : Q) (profits : list Q) : list Q :=
  match profits with
  | [] => []
  | p :: rest => (current + p)%Q :: running (current + p)%Q rest
  end.

(** [calculate_profit(rec["result"], rec["gale_level"], stakes, payout)] *)
Definition profit_of (stakes : list Q) (payout : Q) (r : gestao_risco.rec) : pyres Q :=
  gestao_risco.calculate_profit (gestao_risco.result r) (gestao_risco.gale_level r) stakes payout.

(** what the drawdown pass keeps true of the balances seen so far *)
Definition drawdown_invariant (c : Q) (seen : list Q) (st : gestao_risco.drawdown_state) : Prop :=
  (c <= gestao_risco.peak st)%Q
  /\ (gestao_risco.min_balance st <= c)%Q
  /\ Forall (fun b => (gestao_risco.min_balance st <= b <= gestao_risco.peak st)%Q) seen
  /\ (0 <= gestao_risco.max_dd st <= gestao_risco.peak st - gestao_risco.min_balance st)%Q
  /\ (0 <= gestao_risco.max_dd_pct st)%Q
  /\ (Forall (fun b => (0 <= b)%Q) seen -> (gestao_risco.max_dd_pct st <= 100)%Q).

(** the tier the win rate alone gives to an instrument *)
Definition tier_of_win_rate (wr : Q) : performance_paridades.classification :=
  if Qleb 90 wr then performance_paridades.EXCELENTE
  else if Qleb 85 wr then performance_paridades.BOM
  else if Qleb 80 wr then performance_paridades.OK
  else if Qleb 75 wr then performance_paridades.REGULAR
  else performance_paridades.PERIGOSO.

(** the tiers in their order, worst first *)
Definition pair_rank (c : performance_paridades.classification) : Z :=
  match c with
  | performance_paridades.SEM_DADOS | performance_paridades.PERIGOSO => 0
  | performance_paridades.REGULAR => 1
  | performance_paridades.OK => 2
  | performance_paridades.BOM => 3
  | performance_paridades.EXCELENTE => 4
  end.

Definition hour_rank (c : validacao_horarios.classification) : Z :=
  match c with
  | validacao_horarios.RUIM => 0
  | validacao_horarios.OK => 1
  | validacao_horarios.BOM => 2
  | validacao_horarios.EXCELENTE => 3
  end.

(** ** Example inputs *)

Definition text_message (text : pystr) : message := {[ py "text" := VStr text ]}.

(** "Ativo: EURUSD-OTC\nHorário: 14:05:00\nPayout: 87%" *)
Definition open_signal : message :=
  text_message (py "Ativo: EURUSD-OTC" ++ [10%N] ++ py "Hor" ++ [225%N] ++ py "rio: 14:05:00"
                ++ [10%N] ++ py "Payout: 87%").

(** the same open signal without its payout line *)
Definition open_signal_no_payout : message :=
  text_message (py "Ativo: EURUSD-OTC" ++ [10%N] ++ py "Hor" ++ [225%N] ++ py "rio: 14:05:00").

(** "✅¹ EURUSD-OTC - 14:05:00 - M1 - call - WIN" *)
Definition resolved_win_g1 : message :=
  text_message ([9989%N; 185%N] ++ py " EURUSD-OTC - 14:05:00 - M1 - call - WIN").

(** "✅ EURUSD-OTC - 14:05:00 - M1 - call - WIN" *)
Definition resolved_win : message :=
  text_message ([9989%N] ++ py " EURUSD-OTC - 14:05:00 - M1 - call - WIN").

(** "❌ EURUSD-OTC - 14:07:00 - M1 - put - LOSS" *)
Definition resolved_loss : message :=
  text_message ([10060%N] ++ py " EURUSD-OTC - 14:07:00 - M1 - put - LOSS").

(** "🃏 EURUSD-OTC - 14:10:00 - M1 - put - DOJI" *)
Definition resolved_doji : message :=
  text_message ([127183%N] ++ py " EURUSD-OTC - 14:10:00 - M1 - put - DOJI").

(** "❌¹ EURUSD-OTC - 14:20:00 - M1 - call - LOSS" *)
Definition resolved_loss_g1 : message :=
  text_message ([10060%N; 185%N] ++ py " EURUSD-OTC - 14:20:00 - M1 - call - LOSS").

(** "bom dia, pessoal" *)
Definition chatter : message := text_message (py "bom dia, pessoal").

(** a message whose "text" is null *)
Definition null_text : message := {[ py "text" := VNone ]}.

(** the payouts of the records of [app.extract_records] *)
Definition app_payouts {D : DateLib} (messages : list message) : pyres (list (option Q)) :=
  match app.extract_records messages with
  | Ok (resolved, _) => Ok (List.map app.payout resolved)
  | Raise e => Raise e
  end.

(** the payouts of the records of [validacao_horarios._extract_records] *)
Definition horarios_payouts (messages : list message) : pyres (list (option Q)) :=
  match validacao_horarios._extract_records messages with
  | Ok records => Ok (List.map validacao_horarios.payout records)
  | Raise e => Raise e
  end.

(** a WIN at level 0 whose own payout is 0, and a WIN at level 1 whose own
    payout is 0.87 *)
Definition win0_payout0 : app.rec :=
  app.mkrec (py "EURUSD-OTC") (py "14:05:00") (Some 14%Z) (py "M1") (py "call") (py "WIN") 0
    (Some 0%Q) None.

Definition win1_payout87 : app.rec :=
  app.mkrec (py "EURUSD-OTC") (py "14:05:00") (Some 14%Z) (py "M1") (py "call") (py "WIN") 1
    (Some (87 # 100)) None.


(** * Properties *)

(** ** Booleans, counts and rates *)

Lemma pystr_eqb_eq (a b : pystr) : pystr_eqb a b = true <-> a = b.
Proof. unfold pystr_eqb. apply bool_decide_eq_true. Qed.

Lemma pystr_eqb_refl (a : pystr) : pystr_eqb a a = true.
Proof. apply pystr_eqb_eq. reflexivity. Qed.

Lemma Qltb_lt a b : Qltb a b = true <-> (a < b)%Q.
Proof. unfold Qltb. rewrite Qlt_alt. destruct (a ?= b)%Q; split; congruence. Qed.

Lemma Qleb_le a b : Qleb a b = true <-> (a <= b)%Q.
Proof. unfold Qleb. rewrite Qle_alt. destruct (a ?= b)%Q; split; congruence. Qed.


Lemma inject_Z_pos (b : Z) : (0 < b)%Z -> (0 < inject_Z b)%Q.
Proof. intros Hb. unfold Qlt. simpl. lia. Qed.

Lemma inject_Z_nonneg (a : Z) : (0 <= a)%Z -> (0 <= inject_Z a)%Q.
Proof. intros Ha. unfold Qle. simpl. lia. Qed.

Lemma count_nonneg {A} (P : A -> bool) (l : list A) : (0 <= count P l)%Z.
Proof. unfold count. lia. Qed.

Lemma count_le_length {A} (P : A -> bool) (l : list A) : (count P l <= Z.of_nat (length l))%Z.
Proof. unfold count. pose proof (List.filter_length_le P l). lia. Qed.

Lemma count_cons {A} (P : A -> bool) (a : A) (l : list A) :
  count P (a :: l) = ((if P a then 1 else 0) + count P l)%Z.
Proof. unfold count. simpl. destruct (P a); simpl; lia. Qed.


Lemma count_none {A} (P : A -> bool) (l : list A) :
  Forall (fun a => P a = false) l -> count P l = 0%Z.
Proof.
  unfold count. induction 1 as [|a l Ha _ IH]; [reflexivity|].
  simpl. rewrite Ha. exact IH.
Qed.

Lemma count_partition {A} (P Q : A -> bool) (l : list A) :
  count P l = (count P (List.filter Q l) + count P (List.filter (fun a => negb (Q a)) l))%Z.
Proof.
  induction l as [|a l IH]; [reflexivity|].
  simpl. destruct (Q a); simpl; rewrite !count_cons, IH; lia.
Qed.

(** a filter that is the disjoint union of two others *)
Lemma count_filter_split {A} (P Q1 Q2 Q : A -> bool) (l : list A) :
  (forall a, In a l -> Q a = true ->
     (Q1 a = true /\ Q2 a = false) \/ (Q1 a = false /\ Q2 a = true)) ->
  (forall a, In a l -> Q a = false -> Q1 a = false /\ Q2 a = false) ->
  count P (List.filter Q l)
  = (count P (List.filter Q1 l) + count P (List.filter Q2 l))%Z.
Proof.
  induction l as [|a l IH]; intros H1 H2; [reflexivity|].
  simpl. specialize (IH (fun a Ha => H1 a (or_intror Ha)) (fun a Ha => H2 a (or_intror Ha))).
  destruct (Q a) eqn:E.
  - destruct (H1 a (or_introl eq_refl) E) as [[-> ->]|[-> ->]];
      rewrite !count_cons, IH; lia.
  - destruct (H2 a (or_introl eq_refl) E) as [-> ->]. exact IH.
Qed.

(** a loop that appends what each element contributes *)
Lemma fold_left_append {A B} (one : A -> list B) (step : list B -> A -> list B) :
  (forall acc a, step acc a = acc ++ one a) ->
  forall l acc, fold_left step l acc = acc ++ flat_map one l.
Proof.
  intros Hstep. induction l as [|a l IH]; intros acc; simpl.
  - symmetry. apply app_nil_r.
  - rewrite IH, Hstep. symmetry. apply app_assoc.
Qed.

(** comparing two quotients of counts by cross multiplication *)
Lemma inject_Z_div_le (a b c d : Z) :
  (0 < b)%Z -> (0 < d)%Z ->
  (inject_Z a / inject_Z b * 100 <= inject_Z c / inject_Z d * 100)%Q <-> (a * d <= c * b)%Z.
Proof.
  intros Hb Hd.
  assert (Hb' : (0 < inject_Z b)%Q) by (apply inject_Z_pos; exact Hb).
  assert (Hd' : (0 < inject_Z d)%Q) by (apply inject_Z_pos; exact Hd).
  assert (E1 : (inject_Z a / inject_Z b * (inject_Z b * inject_Z d) == inject_Z a * inject_Z d)%Q)
    by (field; lra).
  assert (E2 : (inject_Z c / inject_Z d * (inject_Z b * inject_Z d) == inject_Z c * inject_Z b)%Q)
    by (field; lra).
  rewrite Zle_Qle, !inject_Z_mult.
  split; intros Hle.
  - assert (E : (inject_Z a / inject_Z b <= inject_Z c / inject_Z d)%Q) by lra.
    apply (Qmult_le_r _ _ (inject_Z b * inject_Z d)) in E; [|nra].
    rewrite E1, E2 in E. exact E.
  - assert (E : (inject_Z a / inject_Z b <= inject_Z c / inject_Z d)%Q).
    { apply (Qmult_le_r _ _ (inject_Z b * inject_Z d)); [nra|].
      rewrite E1, E2. exact Hle. }
    lra.
Qed.

(** a part of a whole, as a percentage, lies between 0 and 100 *)
Lemma percentage_bounds (a b : Z) :
  (0 <= a <= b)%Z -> (0 < b)%Z ->
  (0 <= inject_Z a / inject_Z b * 100 <= 100)%Q.
Proof.
  intros Ha Hb. pose proof (inject_Z_pos b Hb) as Hb'.
  assert (E : (0 <= inject_Z a / inject_Z b <= 1)%Q); [|lra].
  split.
  - apply Qle_shift_div_l; [exact Hb'|]. rewrite Qmult_0_l. apply inject_Z_nonneg. lia.
  - apply Qle_shift_div_r; [exact Hb'|]. rewrite Qmult_1_l. rewrite <- Zle_Qle. lia.
Qed.

Lemma pct_fillna_bounds (a b : Z) :
  (0 <= a <= b)%Z -> (0 <= pct_fillna a b <= 100)%Q.
Proof.
  intros Ha. unfold pct_fillna. destruct (Z.eqb_spec b 0); [lra|].
  apply percentage_bounds; lia.
Qed.

(** rounding keeps a value between two integers *)
Lemma round_half_even_bounds (q : Q) (a b : Z) :
  (inject_Z a <= q <= inject_Z b)%Q -> (a <= round_half_even q <= b)%Z.
Proof.
  intros [Ha Hb]. unfold round_half_even.
  pose proof (Qfloor_le q) as Hf. pose proof (Qlt_floor q) as Hf'.
  assert (Hlo : (a <= Qfloor q)%Z).
  { apply Z.lt_succ_r. rewrite Zlt_Qlt. eapply Qle_lt_trans; [exact Ha|].
    replace (Z.succ (Qfloor q)) with (Qfloor q + 1)%Z by lia. exact Hf'. }
  assert (Hhi : (Qfloor q <= b)%Z).
  { rewrite Zle_Qle. eapply Qle_trans; [exact Hf|exact Hb]. }
  assert (Hstep : (inject_Z (Qfloor q) < q)%Q -> (Qfloor q + 1 <= b)%Z).
  { intros Hlt. apply Z.lt_succ_r. replace (Z.succ b) with (b + 1)%Z by lia.
    assert (Qfloor q < b)%Z; [|lia]. rewrite Zlt_Qlt. eapply Qlt_le_trans; [exact Hlt|exact Hb]. }
  destruct (q - inject_Z (Qfloor q) ?= 1 # 2)%Q eqn:E.
  - apply Qeq_alt in E. destruct (Z.even (Qfloor q)); [lia|].
    split; [lia|]. apply Hstep. lra.
  - lia.
  - apply Qgt_alt in E. split; [lia|]. apply Hstep. lra.
Qed.

Lemma round2_bounds (q : Q) : (0 <= q <= 100)%Q -> (0 <= round2 q <= 100)%Q.
Proof.
  intros Hq. unfold round2.
  destruct (round_half_even_bounds (q * 100) 0 10000) as [Hlo Hhi].
  { change (inject_Z 0) with 0%Q. change (inject_Z 10000) with 10000%Q. lra. }
  apply inject_Z_nonneg in Hlo. rewrite Zle_Qle in Hhi.
  change (inject_Z 10000) with 10000%Q in Hhi.
  set (r := inject_Z (round_half_even (q * 100))) in *.
  split.
  - apply Qle_shift_div_l; [reflexivity|]. lra.
  - apply Qle_shift_div_r; [reflexivity|]. lra.
Qed.

(** ** Grouping *)

Lemma rows_of_app {A K} `{EqDecision K} (key : A -> option K) (k : K) (l1 l2 : list A) :
  rows_of key k (l1 ++ l2) = rows_of key k l1 ++ rows_of key k l2.
Proof. unfold rows_of. apply List.filter_app. Qed.

(** [groupby] holds, under each key that occurs, the rows of that key *)
Lemma groupby_lookup {A K} `{Countable K} (key : A -> option K) (l : list A) (k : K) :
  groupby key l !! k
  = match rows_of key k l with
    | [] => None
    | g => Some g
    end.
Proof.
  unfold groupby. induction l as [|a l IH] using rev_ind; [apply lookup_empty|].
  rewrite fold_left_app, rows_of_app. simpl fold_left.
  assert (E1 : rows_of key k [a] = if bool_decide (key a = Some k) then [a] else [])
    by reflexivity.
  rewrite E1. clear E1.
  destruct (key a) as [k'|] eqn:Ek.
  - destruct (decide (k' = k)) as [->|Hne].
    + rewrite lookup_insert_eq, IH.
      rewrite bool_decide_eq_true_2 by reflexivity.
      destruct (rows_of key k l); reflexivity.
    + rewrite lookup_insert_ne by exact Hne. rewrite IH.
      rewrite bool_decide_eq_false_2 by congruence. rewrite app_nil_r. reflexivity.
  - rewrite IH.
    rewrite bool_decide_eq_false_2 by congruence. rewrite app_nil_r. reflexivity.
Qed.


(** ** Python lists *)

Lemma py_index_in_range {A} (l : list A) (i : Z) :
  (0 <= i < Z.of_nat (length l))%Z ->
  exists a, py_index l i = Ok a /\ l !! Z.to_nat i = Some a.
Proof.
  intros Hi. unfold py_index.
  destruct (Z.ltb_spec i 0); [lia|].
  destruct (Z.leb_spec 0 i); [|lia]. destruct (Z.ltb_spec i (Z.of_nat (length l))); [|lia].
  simpl. destruct (l !! Z.to_nat i) as [a|] eqn:E; [eauto|].
  apply lookup_ge_None in E. lia.
Qed.

Lemma py_slice_to_take {A} (l : list A) (i : Z) :
  (0 <= i <= Z.of_nat (length l))%Z -> py_slice_to l i = take (Z.to_nat i) l.
Proof.
  intros Hi. unfold py_slice_to. destruct (Z.ltb_spec i 0); [lia|].
  rewrite Z.min_l by lia. reflexivity.
Qed.

(** ** The matcher and the resolved-line pattern *)

Section Matcher.
Context {R : PyRuntime}.

(** whatever the matcher accepts, the declarative reading accepts *)
Lemma rmatch_sound {A} icase total r :
  forall s g (k : pystr -> groups -> option A) a,
  rmatch icase total r s g k = Some a ->
  exists s' g', matches icase total r s s' g g' /\ k s' g' = Some a.
Proof.
  induction r as [|neg items|r1 IH1 r2 IH2|r1 IH1 r2 IH2|r IH|name r IH| |];
    intros s g k a Hm; simpl in Hm.
  - exists s, g. split; [constructor|exact Hm].
  - destruct s as [|c s]; [discriminate|].
    destruct (set_matches icase neg items c) eqn:E; [|discriminate].
    exists s, g. split; [constructor; exact E|exact Hm].
  - apply IH1 in Hm as (s1 & g1 & M1 & Hm). apply IH2 in Hm as (s2 & g2 & M2 & Hm).
    exists s2, g2. split; [econstructor; eassumption|exact Hm].
  - destruct (rmatch icase total r1 s g k) as [a'|] eqn:E.
    + injection Hm as ->. apply IH1 in E as (s' & g' & M & Hk).
      exists s', g'. split; [apply M_alt_l; exact M|exact Hk].
    + apply IH2 in Hm as (s' & g' & M & Hk).
      exists s', g'. split; [apply M_alt_r; exact M|exact Hk].
  - revert Hm. generalize (length s) at 1. intros fuel. revert s g.
    induction fuel as [|fuel IHf]; intros s g Hm.
    + exists s, g. split; [constructor|exact Hm].
    + match type of Hm with
      | match ?x with _ => _ end = _ => destruct x as [a'|] eqn:E
      end.
      * injection Hm as ->. apply IH in E as (s1 & g1 & M1 & Hk).
        destruct (length s1 <? length s)%nat; [|discriminate].
        apply IHf in Hk as (s2 & g2 & M2 & Hk).
        exists s2, g2. split; [econstructor; eassumption|exact Hk].
      * exists s, g. split; [constructor|exact Hm].
  - apply IH in Hm as (s' & g' & M & Hk).
    exists s', ((name, take (length s - length s') s) :: g').
    split; [constructor; exact M|exact Hk].
  - destruct (Nat.eqb_spec (length s) total); [|discriminate].
    exists s, g. split; [constructor; assumption|exact Hm].
  - destruct s as [|c [|c' s]]; [| |discriminate].
    + exists [], g. split; [constructor|exact Hm].
    + destruct (N.eqb_spec c 10) as [->|]; [|discriminate].
      exists [10%N], g. split; [constructor|exact Hm].
Qed.

Lemma matches_no_groups icase total r s s' g g' :
  matches icase total r s s' g g' -> no_groups r = true -> g' = g.
Proof.
  induction 1; simpl; intros Hn; try reflexivity;
    try (apply andb_true_iff in Hn as [Hn1 Hn2]); auto; try discriminate.
  - rewrite IHmatches2, IHmatches1; auto.
  - rewrite IHmatches2, IHmatches1; auto.
Qed.

Ltac inv_matches :=
  repeat match goal with
  | M : matches _ _ (RCat _ _) _ _ _ _ |- _ => inversion M; subst; clear M
  | M : matches _ _ (RGroup _ _) _ _ _ _ |- _ => inversion M; subst; clear M
  | M : matches _ _ (RSet _ _) _ _ _ _ |- _ => inversion M; subst; clear M
  | M : matches _ _ REps _ _ _ _ |- _ => inversion M; subst; clear M
  end.

Lemma set_digit c : set_matches true false [CDigit] c = true -> is_decimal c = true.
Proof. unfold set_matches. simpl. rewrite orb_false_r. auto. Qed.

Lemma set_colon c : set_matches true false [CChar 58] c = true -> c = 58%N.
Proof.
  unfold set_matches. simpl. rewrite orb_false_r.
  destruct (N.eqb_spec c 58); [auto|]. simpl. apply colon_caseless.
Qed.

Lemma time_shape total s s' g g' :
  matches true total TIME s s' g g' ->
  g' = g /\ exists t, hhmmss t /\ s = t ++ s'.
Proof.
  unfold TIME, RRep, RChr, Digit. change (N_of_ascii ":") with 58%N.
  intros M. inv_matches.
  repeat match goal with
  | E : set_matches true false [CDigit] _ = true |- _ => apply set_digit in E
  | E : set_matches true false [CChar _] _ = true |- _ => apply set_colon in E; subst
  end.
  split; [reflexivity|].
  match goal with
  | |- exists t, _ /\ ?a :: ?b :: ?c :: ?d :: ?e :: ?f :: ?g :: ?h :: _ = _ =>
      exists [a; b; c; d; e; f; g; h]
  end.
  split; [|reflexivity].
  do 6 eexists. split; [reflexivity|]. repeat constructor; assumption.
Qed.

Lemma take_app_length_diff {A} (t s' : list A) :
  take (length (t ++ s') - length s') (t ++ s') = t.
Proof.
  rewrite length_app. replace (length t + length s' - length s')%nat with (length t) by lia.
  apply take_app_length.
Qed.

(** A match of the resolved-line pattern binds its seven groups, and the
    time it captures has the shape HH:MM:SS. *)
Lemma resolved_shape rname outcome s m :
  no_groups outcome = true ->
  re_match (RESOLVED rname outcome) s = Some m ->
  exists check sup pair time tf dir res,
    m = [(rname, res); ("dir"%string, dir); ("tf"%string, tf); ("time"%string, time);
         ("pair"%string, pair); ("sup"%string, sup); ("check"%string, check)]
    /\ hhmmss time.
Proof.
  unfold re_match. intros Hout Hm. apply rmatch_sound in Hm as (s' & g' & M & Hm).
  injection Hm as ->. unfold RESOLVED in M.
  repeat match goal with
  | M : matches _ _ (RCat _ _) _ _ _ _ |- _ => inversion M; subst; clear M
  | M : matches _ _ (RGroup _ _) _ _ _ _ |- _ => inversion M; subst; clear M
  end.
  match goal with
  | M : matches _ _ TIME _ _ _ _ |- _ => apply time_shape in M as (-> & t & Ht & ->)
  end.
  repeat match goal with
  | M : matches _ _ outcome _ _ _ _ |- _ =>
      apply matches_no_groups in M; [subst|exact Hout]
  | M : matches _ _ _ _ _ _ _ |- _ =>
      apply matches_no_groups in M; [subst|reflexivity]
  end.
  rewrite take_app_length_diff.
  do 7 eexists. split; [reflexivity|exact Ht].
Qed.

Lemma resolved_no_match_empty rname outcome : re_match (RESOLVED rname outcome) [] = None.
Proof. reflexivity. Qed.

Lemma is_decimal_not_space c : is_decimal c = true -> is_space c = false.
Proof.
  unfold is_decimal. destruct (decimal_value c) as [d|] eqn:E; [|discriminate].
  intros _. exact (decimal_not_space c d E).
Qed.

Lemma is_decimal_not_colon c : is_decimal c = true -> (c =? 58)%N = false.
Proof.
  unfold is_decimal. destruct (N.eqb_spec c 58) as [->|]; [|reflexivity].
  rewrite decimal_not_colon. discriminate.
Qed.

(** a captured time is left alone by [strip], and its hour converts *)
Lemma hhmmss_hour t :
  hhmmss t -> strip t = t /\ t <> [] /\ exists h, py_int (before_colon t) = Some h.
Proof.
  intros (d1 & d2 & d3 & d4 & d5 & d6 & -> & Hd).
  repeat match goal with
  | H : Forall _ (_ :: _) |- _ => apply Forall_cons in H as [? H]
  end.
  split; [|split; [discriminate|]].
  - unfold strip. simpl. rewrite (is_decimal_not_space d1) by assumption.
    simpl. rewrite (is_decimal_not_space d6) by assumption. reflexivity.
  - simpl. rewrite (is_decimal_not_colon d1), (is_decimal_not_colon d2) by assumption.
    unfold py_int. simpl. unfold is_decimal in *.
    destruct (decimal_value d1); [|discriminate]. destruct (decimal_value d2); [|discriminate].
    eauto.
Qed.

(** ** The superscript table *)

Lemma sup_to_level_range (s : pystr) : (0 <= sup_to_level s <= 3)%Z.
Proof.
  unfold sup_to_level. destruct s as [|c s]; [lia|].
  destruct (_ !! _) as [z|] eqn:E; simpl; [|lia].
  unfold SUPERSCRIPT_MAP in E.
  repeat (apply lookup_insert_Some in E as [[_ <-]|[_ E]]; [lia|]).
  rewrite lookup_empty in E. discriminate.
Qed.


Lemma normalise_result_cases (raw : pystr) :
  normalise_result raw = py "WIN" \/ normalise_result raw = py "LOSS"
  \/ normalise_result raw = py "DOJI".
Proof.
  unfold normalise_result.
  destruct (pystr_eqb raw (py "DOJI")); [auto|].
  destruct (pystr_eqb raw (py "WIN")); auto.
Qed.

(** ** gestao_risco: extraction *)

Lemma gestao_step_app records msg :
  gestao_risco.step records msg = records ++ gestao_one msg.
Proof.
  unfold gestao_risco.step, gestao_one.
  destruct (pystr_eqb (_get_text_from_msg msg) []) eqn:E.
  - apply pystr_eqb_eq in E. rewrite E. change (one_line []) with (@nil N).
    unfold gestao_risco.RESOLVED_RE. rewrite resolved_no_match_empty.
    symmetry. apply app_nil_r.
  - destruct (re_match _ _); [reflexivity|]. symmetry. apply app_nil_r.
Qed.

Lemma gestao_extract_flat_map messages :
  gestao_risco._extract_records messages = flat_map gestao_one messages.
Proof.
  unfold gestao_risco._extract_records.
  apply (fold_left_append gestao_one _ gestao_step_app).
Qed.


Lemma gestao_extracted messages r :
  r ∈ gestao_risco._extract_records messages ->
  exists msg m, msg ∈ messages
    /\ re_match gestao_risco.RESOLVED_RE (one_line (_get_text_from_msg msg)) = Some m
    /\ r = gestao_risco.record_of m.
Proof.
  rewrite gestao_extract_flat_map. rewrite list_elem_of_In, in_flat_map.
  intros (msg & Hin & Hr). exists msg. unfold gestao_one in Hr.
  destruct (re_match _ _) as [m|] eqn:E; [|destruct Hr].
  exists m. destruct Hr as [<-|[]]. rewrite list_elem_of_In. auto.
Qed.

Lemma gestao_levels messages :
  Forall (fun r => (0 <= gestao_risco.gale_level r <= 3)%Z)
    (gestao_risco._extract_records messages).
Proof.
  apply Forall_forall. intros r Hr.
  destruct (gestao_extracted _ _ Hr) as (msg & m & _ & _ & ->). apply sup_to_level_range.
Qed.


(** ** The two-pass extractors *)

Lemma horarios_record_ok signals m text :
  re_match validacao_horarios.RESOLVED_RE text = Some m ->
  exists r, validacao_horarios.record_of signals m = Ok r
    /\ validacao_horarios.payout r
       = signal_payout signals (validacao_horarios.pair r) (validacao_horarios.time r).
Proof.
  intros Hm. unfold validacao_horarios.RESOLVED_RE in Hm.
  apply resolved_shape in Hm as (check & sup & pair & time & tf & dir & res & -> & Ht);
    [|reflexivity].
  unfold validacao_horarios.record_of.
  change (group_of _ "time") with time.
  destruct (hhmmss_hour time Ht) as (Hs & Hne & h & Hh). rewrite Hs.
  unfold validacao_horarios.hour_of. rewrite Hh.
  destruct time; [contradiction|]. simpl. eauto.
Qed.

Lemma horarios_second_pass signals messages :
  forall records,
  exists added,
    validacao_horarios.second_pass signals records messages = Ok (records ++ added)
    /\ Forall (fun r => validacao_horarios.payout r
                        = signal_payout signals (validacao_horarios.pair r)
                            (validacao_horarios.time r)) added
    /\ (length added <= length messages)%nat.
Proof.
  induction messages as [|msg messages IH]; intros records; simpl.
  - exists []. rewrite app_nil_r. split; [reflexivity|]. split; [apply Forall_nil_2|simpl; lia].
  - unfold validacao_horarios.step.
    destruct (pystr_eqb (_get_text_from_msg msg) []).
    { simpl. destruct (IH records) as (added & -> & Hp & Hl). exists added.
      split; [reflexivity|]. split; [exact Hp|simpl; lia]. }
    destruct (re_match _ _) as [m|] eqn:Hm.
    + destruct (horarios_record_ok signals m _ Hm) as (r & -> & Hr). simpl.
      destruct (IH (records ++ [r])) as (added & -> & Hp & Hl).
      exists (r :: added). rewrite <- app_assoc. simpl.
      split; [reflexivity|]. split; [apply Forall_cons_2; assumption|simpl; lia].
    + simpl. destruct (IH records) as (added & -> & Hp & Hl). exists added.
      split; [reflexivity|]. split; [exact Hp|simpl; lia].
Qed.

(** [validacao_horarios._extract_records] never raises, yields at most one
    record per message, and gives every record the entry that the table of
    all open signals of the collection holds for its instrument and time. *)
Lemma horarios_extract_two_pass messages :
  exists records,
    validacao_horarios._extract_records messages = Ok records
    /\ Forall (fun r => validacao_horarios.payout r
                        = signal_payout (collect_signals messages)
                            (validacao_horarios.pair r) (validacao_horarios.time r)) records
    /\ (length records <= length messages)%nat.
Proof.
  unfold validacao_horarios._extract_records.
  destruct (horarios_second_pass (collect_signals messages) messages [])
    as (added & -> & Hp & Hl).
  exists added. auto.
Qed.

Lemma signal_step_skips signals msg :
  is_open_signal msg = false -> signal_step signals msg = signals.
Proof.
  unfold is_open_signal, signal_step.
  destruct (contains (py "Ativo:") _ || contains (py "Payout:") _); [|reflexivity].
  destruct (re_search ATIVO _) as [mp|]; [|reflexivity].
  destruct (re_search HORARIO _) as [mt|]; [|reflexivity].
  intros E. vm_compute in E. discriminate.
Qed.

(** The table of the first pass depends on the open-signal messages and
    their order only: moving a resolved line, or any other message, before or
    after an open signal leaves it unchanged. *)
Lemma collect_signals_open_only messages :
  collect_signals messages = collect_signals (List.filter is_open_signal messages).
Proof.
  unfold collect_signals. generalize (∅ : gmap (pystr * pystr) (option Q)).
  induction messages as [|msg messages IH]; intros signals; [reflexivity|].
  simpl. destruct (is_open_signal msg) eqn:E; simpl.
  - apply IH.
  - rewrite (signal_step_skips signals msg E). apply IH.
Qed.

End Matcher.

(** ** gestao_risco: profit, equity curve and drawdown *)

Lemma calculate_profit_ok result g stakes payout :
  stakes <> [] -> (0 <= g)%Z ->
  exists q, gestao_risco.calculate_profit result g stakes payout = Ok q.
Proof.
  intros Hs Hg. unfold gestao_risco.calculate_profit.
  assert (0 < Z.of_nat (length stakes))%Z by (destruct stakes; [contradiction|simpl; lia]).
  destruct (pystr_eqb result (py "DOJI")); [eauto|].
  destruct (pystr_eqb result (py "WIN")); [|eauto].
  set (level := Z.min g (Z.of_nat (length stakes) - 1)).
  assert (0 <= level < Z.of_nat (length stakes))%Z by (unfold level; lia).
  destruct (Z.eqb_spec level 0).
  - destruct (py_index_in_range stakes 0) as (a & -> & _); [lia|]. simpl. eauto.
  - destruct (py_index_in_range stakes level) as (a & -> & _); [lia|]. simpl. eauto.
Qed.

Lemma simulate_from_spec records stakes payout :
  stakes <> [] -> Forall (fun r => (0 <= gestao_risco.gale_level r)%Z) records ->
  forall equity current,
  exists tl,
    gestao_risco.simulate_from equity current records stakes payout = Ok (equity ++ tl)
    /\ length tl = length records.
Proof.
  intros Hs Hl. induction Hl as [|r records Hr Hl IH]; intros equity current; simpl.
  - exists []. rewrite app_nil_r. auto.
  - destruct (calculate_profit_ok (gestao_risco.result r) _ stakes payout Hs Hr) as [q ->].
    simpl. destruct (IH (equity ++ [(current + q)%Q]) (current + q)%Q) as (tl & -> & Hlen).
    exists ((current + q)%Q :: tl). rewrite <- app_assoc. simpl. auto.
Qed.

(** the forward pass keeps the maximum drawdown non-negative and the
    minimum balance at or below the capital it started from *)
Lemma drawdown_fold_invariant c equity st :
  (0 <= gestao_risco.max_dd st)%Q -> (gestao_risco.min_balance st <= c)%Q ->
  (0 <= gestao_risco.max_dd (fold_left gestao_risco.drawdown_step equity st))%Q
  /\ (gestao_risco.min_balance (fold_left gestao_risco.drawdown_step equity st) <= c)%Q.
Proof.
  revert st. induction equity as [|b equity IH]; intros st Hdd Hmin; simpl; [auto|].
  apply IH; unfold gestao_risco.drawdown_step.
  - destruct (Qltb (gestao_risco.max_dd st) _) eqn:E; simpl; [|exact Hdd].
    apply Qltb_lt in E. lra.
  - simpl. destruct (Qltb (gestao_risco.max_dd st) _); simpl;
    destruct (Qltb b (gestao_risco.min_balance st)) eqn:E; try exact Hmin;
    apply Qltb_lt in E; lra.
Qed.

(** C5. For a ladder with at least one stake and records whose gale level
    is not negative, [simulate_equity_curve] returns a curve with one point
    per record after the initial capital, whose first element is the capital
    itself; the forward pass of [render_from_json] over that curve (running
    peak, drawdown = peak - balance) ends with a maximum drawdown that is not
    negative and a minimum balance that is at most the capital. *)
Theorem C5_equity_curve (records : list gestao_risco.rec) (c : Q) (stakes : list Q)
    (payout : Q) :
  stakes <> [] ->
  Forall (fun r => (0 <= gestao_risco.gale_level r)%Z) records ->
  exists equity,
    gestao_risco.simulate_equity_curve records c stakes payout = Ok equity
    /\ length equity = S (length records)
    /\ head equity = Some c
    /\ (0 <= gestao_risco.max_dd (gestao_risco.drawdown c equity))%Q
    /\ (gestao_risco.min_balance (gestao_risco.drawdown c equity) <= c)%Q.
Proof.
  intros Hs Hl. unfold gestao_risco.simulate_equity_curve.
  destruct (simulate_from_spec records stakes payout Hs Hl [c] c) as (tl & -> & Hlen).
  exists ([c] ++ tl). split; [reflexivity|]. split; [simpl; lia|]. split; [reflexivity|].
  apply drawdown_fold_invariant; simpl; lra.
Qed.

(** C5 on a WIN at gale 1 followed by a LOSS at gale 2, with the default
    capital, ladder and payout *)
Lemma C5_witness :
  exists equity,
    gestao_risco.simulate_equity_curve
      [gestao_risco.mkrec (py "WIN") 1; gestao_risco.mkrec (py "LOSS") 2] 500
      gestao_risco.stakes_c1 gestao_risco.payout_minimo = Ok equity
    /\ length equity = 3%nat
    /\ head equity = Some 500%Q
    /\ (0 <= gestao_risco.max_dd (gestao_risco.drawdown 500 equity))%Q
    /\ (gestao_risco.min_balance (gestao_risco.drawdown 500 equity) <= 500)%Q.
Proof.
  apply (C5_equity_curve [gestao_risco.mkrec (py "WIN") 1; gestao_risco.mkrec (py "LOSS") 2]
           500 gestao_risco.stakes_c1 gestao_risco.payout_minimo).
  - discriminate.
  - repeat constructor; simpl; lia.
Defined.

Section Risk.
Context {R : PyRuntime}.

Lemma simulate_all_doji records stakes payout :
  Forall (fun r => gestao_risco.result r = py "DOJI") records ->
  forall equity current,
  exists tl, gestao_risco.simulate_from equity current records stakes payout = Ok (equity ++ tl).
Proof.
  induction 1 as [|r records Hr _ IH]; intros equity current; simpl.
  - exists []. rewrite app_nil_r. reflexivity.
  - unfold gestao_risco.calculate_profit. rewrite Hr. simpl.
    destruct (IH (equity ++ [(current + 0)%Q]) (current + 0)%Q) as (tl & ->).
    exists ((current + 0)%Q :: tl). rewrite <- app_assoc. reflexivity.
Qed.

Lemma profits_all_doji records stakes payout :
  Forall (fun r => gestao_risco.result r = py "DOJI") records ->
  exists profits,
    mapM_pyres (fun r => gestao_risco.calculate_profit (gestao_risco.result r)
                           (gestao_risco.gale_level r) stakes payout) records = Ok profits.
Proof.
  induction 1 as [|r records Hr _ [profits IH]]; simpl; [eauto|].
  unfold gestao_risco.calculate_profit at 1. rewrite Hr. simpl. rewrite IH. simpl. eauto.
Qed.

(** C10. When the records extracted from the messages are not empty and
    all DOJI, [render_from_json] of [gestao_risco] does not take its early
    return: it reports win rate 0 and loss rate 1, hence a probability of 100%
    for every loss streak of length 2, 3, 4 and 5. *)
Theorem C10_all_doji (messages : list message) :
  gestao_risco._extract_records messages <> [] ->
  Forall (fun r => gestao_risco.result r = py "DOJI") (gestao_risco._extract_records messages) ->
  exists m,
    gestao_risco.render_from_json messages = Ok (Some m)
    /\ gestao_risco.win_rate m = 0%Q
    /\ (gestao_risco.loss_rate m == 1)%Q
    /\ (gestao_risco.prob_2_loss m == 100)%Q
    /\ (gestao_risco.prob_3_loss m == 100)%Q
    /\ (gestao_risco.prob_4_loss m == 100)%Q
    /\ (gestao_risco.prob_5_loss m == 100)%Q.
Proof.
  unfold gestao_risco.render_from_json.
  generalize (gestao_risco._extract_records messages). intros records Hne Hall.
  unfold gestao_risco.render_records.
  destruct records as [|r0 records0] eqn:Hrec; [contradiction|]. rewrite <- Hrec in *.
  assert (Hw : count (fun r => pystr_eqb (gestao_risco.result r) (py "WIN")) records = 0%Z).
  { apply count_none. eapply Forall_impl; [exact Hall|]. intros r ->. reflexivity. }
  assert (Hl : count (fun r => pystr_eqb (gestao_risco.result r) (py "LOSS")) records = 0%Z).
  { apply count_none. eapply Forall_impl; [exact Hall|]. intros r ->. reflexivity. }
  rewrite Hw, Hl. unfold gestao_risco.simulate_equity_curve.
  destruct (simulate_all_doji records gestao_risco.stakes_c1 gestao_risco.payout_minimo Hall
              [gestao_risco.capital_inicial] gestao_risco.capital_inicial) as (tl & ->).
  destruct (profits_all_doji records gestao_risco.stakes_c1 gestao_risco.payout_minimo Hall)
    as (profits & ->).
  simpl. eexists. split; [reflexivity|]. simpl. repeat split; reflexivity.
Qed.

(** ** app: the profit of one record *)

(** C4 (amended). For a ladder with at least one stake and a record whose
    gale level is not negative, with L the gale level clamped to the last
    ladder index and the payout being the record's own when it is known and
    not zero, else the caller's default: [compute_profit_for_record] yields 0
    for DOJI, stakes[0] * payout for WIN at L = 0,
    -(stakes[0] + ... + stakes[L-1]) + stakes[L] * payout for WIN at L > 0, and
    -(stakes[0] + ... + stakes[L]) for LOSS. With capital 500, the ladder
    [2.0, 4.3, 9.24], payout 0.85 and a single LOSS at gale level 2,
    [simulate_equity_curve] ends at the balance 484.46. *)
Theorem C4_profit_per_record (r : app.rec) (stakes : list Q) (default_payout : Q) :
  stakes <> [] ->
  (0 <= app.gale_level r)%Z ->
  let L := Z.to_nat (Z.min (app.gale_level r) (Z.of_nat (length stakes) - 1)) in
  let payout :=
    match app.payout r with
    | Some p => if Qeq_bool p 0 then default_payout else p
    | None => default_payout
    end in
  (py_upper (app.result r) = py "DOJI" ->
     app.compute_profit_for_record r stakes default_payout = Ok 0%Q)
  /\ (py_upper (app.result r) = py "WIN" -> L = 0%nat ->
      exists s0, stakes !! 0%nat = Some s0
        /\ app.compute_profit_for_record r stakes default_payout = Ok (s0 * payout)%Q)
  /\ (py_upper (app.result r) = py "WIN" -> (0 < L)%nat ->
      exists sL, stakes !! L = Some sL
        /\ app.compute_profit_for_record r stakes default_payout
           = Ok (- py_sum (take L stakes) + sL * payout)%Q)
  /\ (py_upper (app.result r) = py "LOSS" ->
      app.compute_profit_for_record r stakes default_payout
      = Ok (- py_sum (take (S L) stakes))%Q)
  /\ exists balance,
       gestao_risco.simulate_equity_curve [gestao_risco.mkrec (py "LOSS") 2] 500
         [2; 43 # 10; 924 # 100]%Q (85 # 100) = Ok [500%Q; balance]
       /\ (balance == 48446 # 100)%Q.
Proof.
  intros Hs Hg L payout.
  assert (Hlen : (0 < Z.of_nat (length stakes))%Z)
    by (destruct stakes; [contradiction|simpl; lia]).
  set (level := Z.min (app.gale_level r) (Z.of_nat (length stakes) - 1)) in *.
  assert (Hlevel : (0 <= level < Z.of_nat (length stakes))%Z) by (unfold level; lia).
  unfold app.compute_profit_for_record. fold level. fold payout.
  repeat split.
  - intros ->. reflexivity.
  - intros -> HL. simpl. assert (level = 0%Z) as -> by (unfold L in HL; lia). simpl.
    destruct (py_index_in_range stakes 0) as (s0 & -> & Hs0); [lia|]. eauto.
  - intros -> HL. simpl. destruct (Z.eqb_spec level 0) as [E|_]; [unfold L in HL; lia|].
    destruct (py_index_in_range stakes level Hlevel) as (sL & -> & HsL).
    exists sL. split; [exact HsL|]. simpl. rewrite py_slice_to_take by lia. reflexivity.
  - intros ->. simpl. rewrite py_slice_to_take by lia.
    replace (Z.to_nat (level + 1)) with (S L) by (unfold L; lia). reflexivity.
  - eexists. split; [reflexivity|]. reflexivity.
Qed.

End Risk.

(** The balance of that example in binary64 arithmetic, as CPython computes
    it ([sum] starts from the integer 0): the rational idealisation and the
    floating-point computation agree on it. *)
Lemma balance_binary64 : (500 + - (0 + 2 + 4.3 + 9.24))%float = 484.46%float.
Proof. vm_compute. reflexivity. Qed.

(** C10 on a line of chatter followed by one DOJI line *)
Lemma C10_witness :
  exists m,
    gestao_risco.render_from_json [chatter; resolved_doji] = Ok (Some m)
    /\ gestao_risco.win_rate m = 0%Q
    /\ (gestao_risco.loss_rate m == 1)%Q
    /\ (gestao_risco.prob_2_loss m == 100)%Q
    /\ (gestao_risco.prob_3_loss m == 100)%Q
    /\ (gestao_risco.prob_4_loss m == 100)%Q
    /\ (gestao_risco.prob_5_loss m == 100)%Q.
Proof.
  apply (C10_all_doji [chatter; resolved_doji]).
  - vm_compute. discriminate.
  - vm_compute. repeat constructor.
Defined.

(** C4, the claim as stated fails: a record whose own payout is known to be
    0 does not yield stakes[0] * 0 on a WIN at level 0, but stakes[0] times
    the caller's default. *)
Lemma C4_counterexample :
  app.compute_profit_for_record win0_payout0 [2%Q] (85 # 100) = Ok (2 * (85 # 100))%Q
  /\ ~ (2 * (85 # 100) == 2 * 0)%Q.
Proof. split; [reflexivity|]. intros E. vm_compute in E. discriminate. Qed.

(** C4 on a WIN at gale 1 whose own payout is 0.87: -2 + 4.3 * 0.87 *)
Lemma C4_witness :
  exists q,
    app.compute_profit_for_record win1_payout87 [2; 43 # 10; 924 # 100]%Q (85 # 100) = Ok q
    /\ (q == 1741 # 1000)%Q.
Proof.
  destruct (C4_profit_per_record win1_payout87 [2; 43 # 10; 924 # 100]%Q (85 # 100))
    as (_ & _ & Hwin & _); [discriminate|simpl; lia|].
  destruct Hwin as (sL & HsL & E); [reflexivity|simpl; lia|].
  eexists. split; [exact E|]. injection HsL as <-. reflexivity.
Defined.

(** ** analise_gales: the pooled win rates *)

Lemma rate_nonneg a b : (0 <= a)%Z -> (0 <= analise_gales.rate a b)%Q.
Proof.
  intros Ha. unfold analise_gales.rate. destruct (Z.ltb_spec 0 b); [|lra].
  assert (0 <= inject_Z a / inject_Z b)%Q; [|lra].
  apply Qle_shift_div_l; [apply inject_Z_pos; assumption|].
  rewrite Qmult_0_l. apply inject_Z_nonneg. exact Ha.
Qed.

Lemma rate_bounds a b : (0 <= a <= b)%Z -> (0 <= analise_gales.rate a b <= 100)%Q.
Proof.
  intros Ha. unfold analise_gales.rate. destruct (Z.ltb_spec 0 b); [|lra].
  apply percentage_bounds; lia.
Qed.

(** the mediant inequality behind the pooled rates: pooling a second group
    does not lower the rate of the first when the second has no resolved trade
    or a rate at least as high *)
Lemma rate_pooled (w0 l0 w1 l1 : Z) :
  (0 <= w0)%Z -> (0 <= l0)%Z -> (0 <= w1)%Z -> (0 <= l1)%Z ->
  ((w1 + l1 = 0)%Z \/ (analise_gales.rate w0 (w0 + l0) <= analise_gales.rate w1 (w1 + l1))%Q) ->
  (analise_gales.rate w0 (w0 + l0)
   <= analise_gales.rate (w0 + w1) (w0 + w1 + (l0 + l1)))%Q.
Proof.
  intros Hw0 Hl0 Hw1 Hl1 Hcond.
  destruct (Z.eq_dec (w0 + l0)%Z 0%Z) as [E0|E0].
  { unfold analise_gales.rate at 1. rewrite E0. simpl. apply rate_nonneg. lia. }
  destruct (Z.eq_dec (w1 + l1)%Z 0%Z) as [E1|E1].
  { assert (w1 = 0 /\ l1 = 0)%Z as [-> ->] by lia. rewrite !Z.add_0_r. apply Qle_refl. }
  destruct Hcond as [?|Hle]; [contradiction|].
  unfold analise_gales.rate in *.
  destruct (Z.ltb_spec 0 (w0 + l0)); [|lia]. destruct (Z.ltb_spec 0 (w1 + l1)); [|lia].
  destruct (Z.ltb_spec 0 (w0 + w1 + (l0 + l1))); [|lia].
  apply (proj1 (inject_Z_div_le _ _ _ _ H H0)) in Hle.
  apply (proj2 (inject_Z_div_le _ _ _ _ H H1)).
  replace (w0 * (w0 + w1 + (l0 + l1)))%Z with (w0 * (w0 + l0) + w0 * (w1 + l1))%Z by ring.
  replace ((w0 + w1) * (w0 + l0))%Z with (w0 * (w0 + l0) + w1 * (w0 + l0))%Z by ring.
  lia.
Qed.

Section Gales.
Context {R : PyRuntime}.

Lemma gales_step_app records msg :
  analise_gales.step records msg = records ++ gales_one msg.
Proof.
  unfold analise_gales.step, gales_one.
  destruct (pystr_eqb (_get_text_from_msg msg) []) eqn:E.
  - apply pystr_eqb_eq in E. rewrite E. change (one_line []) with (@nil N).
    unfold analise_gales.RESOLVED_RE. rewrite resolved_no_match_empty.
    symmetry. apply app_nil_r.
  - destruct (re_match _ _); [reflexivity|]. symmetry. apply app_nil_r.
Qed.

Lemma gales_levels messages :
  Forall (fun r => (0 <= analise_gales.gale_level r <= 3)%Z)
    (analise_gales._extract_records messages).
Proof.
  unfold analise_gales._extract_records.
  rewrite (fold_left_append gales_one _ gales_step_app). simpl.
  apply Forall_forall. intros r Hr.
  apply list_elem_of_In, in_flat_map in Hr as (msg & _ & Hr).
  unfold gales_one in Hr. destruct (re_match _ _) as [m|]; [|destruct Hr].
  destruct Hr as [<-|[]]. apply sup_to_level_range.
Qed.

(** C6 (amended). In [analise_gales.render_from_json], each step of the
    combined win rate is non-decreasing under a condition on what the step
    adds: the rate through gale 1 is at least the rate at level 0 whenever
    level 1 has no WIN and no LOSS or its own win rate is at least the rate at
    level 0; the rate through gale 2, which pools every record, is at least
    the rate through gale 1 whenever the records above level 1 have no WIN and
    no LOSS or their own win rate is at least the rate through gale 1. *)
Theorem C6_pooled_rate_steps (messages : list message) (m : analise_gales.metrics) :
  analise_gales.render_from_json messages = Some m ->
  let df := analise_gales._extract_records messages in
  let above := List.filter (fun r => (1 <? analise_gales.gale_level r)%Z) df in
  let wins_above := count (analise_gales.is_result "WIN") above in
  let losses_above := count (analise_gales.is_result "LOSS") above in
  (((analise_gales.wins_g1 m + analise_gales.losses_g1 m = 0)%Z
    \/ (analise_gales.wr_g0 m <= analise_gales.wr_g1 m)%Q) ->
   (analise_gales.wr_g0 m <= analise_gales.wr_com_g1 m)%Q)
  /\ (((wins_above + losses_above = 0)%Z
       \/ (analise_gales.wr_com_g1 m
           <= analise_gales.rate wins_above (wins_above + losses_above))%Q) ->
      (analise_gales.wr_com_g1 m <= analise_gales.wr_com_g1_g2 m)%Q).
Proof.
  intros Hm df above wins_above losses_above.
  pose proof (gales_levels messages) as Hlev. fold df in Hlev.
  unfold analise_gales.render_from_json, analise_gales.render_records in Hm. fold df in Hm.
  assert (Hsplit : forall P,
    count P (List.filter (fun r => (analise_gales.gale_level r <=? 1)%Z) df)
    = (count P (List.filter (fun r => (analise_gales.gale_level r =? 0)%Z) df)
       + count P (List.filter (fun r => (analise_gales.gale_level r =? 1)%Z) df))%Z).
  { intros P. apply count_filter_split.
    - intros r Hr Hle. rewrite Forall_forall in Hlev.
      specialize (Hlev r (proj2 (list_elem_of_In _ _) Hr)).
      apply Z.leb_le in Hle.
      destruct (Z.eqb_spec (analise_gales.gale_level r) 0);
      destruct (Z.eqb_spec (analise_gales.gale_level r) 1); try lia; auto.
    - intros r Hr Hle. apply Z.leb_gt in Hle.
      destruct (Z.eqb_spec (analise_gales.gale_level r) 0);
      destruct (Z.eqb_spec (analise_gales.gale_level r) 1); try lia; auto. }
  assert (Hall : forall P,
    count P df
    = (count P (List.filter (fun r => (analise_gales.gale_level r <=? 1)%Z) df)
       + count P above)%Z).
  { intros P. rewrite (count_partition P (fun r => (analise_gales.gale_level r <=? 1)%Z) df).
    f_equal. unfold above. f_equal. apply filter_ext. intros r.
    destruct (Z.leb_spec (analise_gales.gale_level r) 1);
    destruct (Z.ltb_spec 1 (analise_gales.gale_level r)); try lia; reflexivity. }
  destruct df as [|r0 df0] eqn:Hdf; [discriminate|]. rewrite <- Hdf in *.
  injection Hm as <-. simpl. split.
  - intros Hc. rewrite !Hsplit. apply rate_pooled; auto using count_nonneg.
  - intros Hc.
    rewrite (Hall (analise_gales.is_result "WIN")), (Hall (analise_gales.is_result "LOSS")).
    apply rate_pooled; auto using count_nonneg.
Qed.

End Gales.

(** C6, the claim as stated fails: after a WIN at level 0 and a LOSS at
    level 1 the win rate at each level beyond 0 is 0, which is >= 0%, and the
    combined rate falls from 100 at level 0 to 50 through gale 1. *)
Lemma C6_counterexample :
  exists m,
    analise_gales.render_from_json [resolved_win; resolved_loss_g1] = Some m
    /\ (0 <= analise_gales.wr_g1 m)%Q /\ (0 <= analise_gales.wr_g2 m)%Q
    /\ (analise_gales.wr_g0 m == 100)%Q
    /\ (analise_gales.wr_com_g1 m == 50)%Q
    /\ ~ (analise_gales.wr_g0 m <= analise_gales.wr_com_g1 m)%Q.
Proof.
  eexists. split; [vm_compute; reflexivity|].
  repeat split; try (vm_compute; congruence).
Qed.

(** C6 on a WIN and a LOSS at level 0 followed by a WIN at gale 1: 50 at
    level 0, 100 at level 1, hence at least 50 through gale 1 *)
Lemma C6_witness :
  exists m,
    analise_gales.render_from_json [resolved_win; resolved_loss; resolved_win_g1] = Some m
    /\ (analise_gales.wr_g0 m <= analise_gales.wr_g1 m)%Q
    /\ (analise_gales.wr_g0 m <= analise_gales.wr_com_g1 m)%Q.
Proof.
  destruct (analise_gales.render_from_json [resolved_win; resolved_loss; resolved_win_g1])
    as [m|] eqn:E; [|vm_compute in E; discriminate].
  exists m. split; [reflexivity|].
  pose proof (C6_pooled_rate_steps _ m E) as [H1 _].
  assert (Hle : (analise_gales.wr_g0 m <= analise_gales.wr_g1 m)%Q).
  { vm_compute in E. injection E as <-. vm_compute. congruence. }
  split; [exact Hle|]. apply H1. right. exact Hle.
Defined.

(** ** performance_paridades: volatility and classification *)

Section Paridades.
Context {R : PyRuntime}.
Import performance_paridades.


End Paridades.


(** ** app: the date normaliser *)

Section Dates.
Context {R : PyRuntime} {D : DateLib}.

Lemma lstrip_digits s : Forall (fun c => is_decimal c = true) s -> lstrip s = s.
Proof.
  destruct 1 as [|c s Hc _]; [reflexivity|].
  simpl. rewrite (is_decimal_not_space c Hc). reflexivity.
Qed.

Lemma strip_digits s : Forall (fun c => is_decimal c = true) s -> strip s = s.
Proof.
  intros Hs. unfold strip. rewrite (lstrip_digits s Hs).
  rewrite lstrip_digits by (apply Forall_rev; exact Hs). apply rev_involutive.
Qed.

Lemma filter_digits s : Forall (fun c => is_decimal c = true) s -> List.filter is_decimal s = s.
Proof.
  induction 1 as [|c s Hc _ IH]; [reflexivity|]. simpl. rewrite Hc, IH. reflexivity.
Qed.

Lemma int_digits_some s acc :
  Forall (fun c => is_decimal c = true) s -> exists n, int_digits acc s = Some n.
Proof.
  intros Hs. revert acc. induction Hs as [|c s Hc _ IH]; intros acc; simpl; [eauto|].
  unfold is_decimal in Hc. destruct (decimal_value c); [apply IH|discriminate].
Qed.

Lemma py_int_digits s :
  s <> [] -> Forall (fun c => is_decimal c = true) s -> exists n, py_int s = Some n.
Proof.
  intros Hne Hs. unfold py_int. destruct s; [contradiction|]. apply int_digits_some, Hs.
Qed.

(** on a string of digits the normaliser is the epoch stage, then the rest *)
Lemma try_parse_digits s :
  s <> [] -> Forall (fun c => is_decimal c = true) s ->
  app.try_parse_iso_date (VStr s)
  = match app.parse_epoch s with
    | Some d => Some d
    | None => app.parse_formats s
    end.
Proof.
  intros Hne Hs. unfold app.try_parse_iso_date.
  assert (Ht : truthy (VStr s) = true).
  { simpl. destruct (pystr_eqb s []) eqn:E; [|reflexivity].
    apply pystr_eqb_eq in E. contradiction. }
  rewrite Ht. simpl. rewrite (strip_digits s Hs), (filter_digits s Hs), pystr_eqb_refl.
  destruct (pystr_eqb s []) eqn:E; [apply pystr_eqb_eq in E; contradiction|].
  reflexivity.
Qed.

End Dates.

(** C8 (amended). A string of digits only is read as a Unix epoch, in
    milliseconds when the integer exceeds 10^12 and in seconds otherwise:
    when [fromtimestamp] converts that epoch, [try_parse_iso_date] returns
    its date whatever the later stages would do; when [fromtimestamp] raises,
    the string falls through to the format patterns and [fromisoformat], and
    the result is theirs. On a host whose local time is UTC, "1700000000" and
    "1700000000000" both parse as 2023-11-14. An input that is no date
    object and that no stage parses yields [None]; no input raises. *)
Theorem C8_epoch_strings :
  (forall (R : PyRuntime) (D : DateLib) (s : pystr),
     s <> [] -> Forall (fun c => is_decimal c = true) s ->
     exists n, py_int s = Some n
       /\ let x := if (1000000000000 <? n)%Z then (inject_Z n / 1000)%Q else inject_Z n in
          (forall d, fromtimestamp x = Some d -> app.try_parse_iso_date (VStr s) = Some d)
          /\ (fromtimestamp x = None ->
              app.try_parse_iso_date (VStr s) = app.parse_formats s))
  /\ (forall strp iso,
        app.try_parse_iso_date (R := Latin1.runtime)
          (D := Build_DateLib Utc.fromtimestamp strp iso) (VStr (py "1700000000"))
        = Some (mkdate 2023 11 14)
        /\ app.try_parse_iso_date (R := Latin1.runtime)
             (D := Build_DateLib Utc.fromtimestamp strp iso) (VStr (py "1700000000000"))
           = Some (mkdate 2023 11 14))
  /\ (forall (R : PyRuntime) (D : DateLib) (v : value),
        (forall d, v <> VDate d) -> (forall d t, v <> VDatetime d t) ->
        let s2 := strip (py_str v) in
        app.parse_epoch s2 = None ->
        (forall fmt, In fmt app.FORMATS -> strptime (app.strip_Z s2) fmt = None) ->
        fromisoformat (app.strip_Z s2) = None ->
        app.try_parse_iso_date v = None).
Proof.
  split; [|split].
  - intros R D s Hne Hs. destruct (py_int_digits s Hne Hs) as [n Hn].
    exists n. split; [exact Hn|]. intros x.
    rewrite (try_parse_digits s Hne Hs). unfold app.parse_epoch. rewrite Hn. simpl.
    subst x. destruct (1000000000000 <? n)%Z.
    + split; [intros d Hd|intros Hd]; rewrite Hd; reflexivity.
    + split; [intros d Hd|intros Hd]; rewrite Hd; reflexivity.
  - intros strp iso. split; reflexivity.
  - intros R D v Hdate Hdatetime s2 Hep Hfmt Hiso. unfold app.try_parse_iso_date.
    destruct (truthy v); [|reflexivity]. simpl.
    assert (Hgoal : (let s2 := strip (py_str v) in
                     let digits := List.filter is_decimal s2 in
                     let epoch :=
                       if negb (pystr_eqb digits []) && pystr_eqb digits s2
                       then app.parse_epoch s2 else None in
                     match epoch with
                     | Some d => Some d
                     | None => app.parse_formats s2
                     end) = None); [|destruct v; try exact Hgoal;
                                     [exfalso; eapply Hdate; reflexivity
                                     |exfalso; eapply Hdatetime; reflexivity]].
    cbv zeta. fold s2.
    assert (He : (if negb (pystr_eqb (List.filter is_decimal s2) [])
                     && pystr_eqb (List.filter is_decimal s2) s2
                  then app.parse_epoch s2 else None) = None).
    { destruct (_ && _); [exact Hep|reflexivity]. }
    rewrite He. unfold app.parse_formats.
    assert (Hf : app.try_formats (app.strip_Z s2) app.FORMATS = None).
    { revert Hfmt. generalize app.FORMATS.
      induction l as [|fmt l IH]; intros Hfmt; [reflexivity|].
      simpl. rewrite (Hfmt fmt (or_introl eq_refl)). apply IH.
      intros f Hf. apply Hfmt. right. exact Hf. }
    rewrite Hf. exact Hiso.
Qed.

(** C8, the claim as stated fails: a string of twenty digits is not read as
    an epoch date. [fromtimestamp] raises on it (the year is out of range),
    the handler passes, and the string falls through to the format patterns
    and [fromisoformat], whose result is returned. *)
Lemma C8_counterexample :
  Forall (fun c => is_decimal c = true) (py "99999999999999999999")
  /\ Utc.fromtimestamp (inject_Z 99999999999999999999 / 1000) = None
  /\ forall strp iso,
       app.try_parse_iso_date (D := Build_DateLib Utc.fromtimestamp strp iso)
         (VStr (py "99999999999999999999"))
       = app.parse_formats (D := Build_DateLib Utc.fromtimestamp strp iso)
           (py "99999999999999999999").
Proof.
  split; [repeat constructor|]. split; [reflexivity|]. intros strp iso. reflexivity.
Qed.

(** C8 on "1700000000", on a host whose local time is UTC *)
Lemma C8_witness :
  py_int (py "1700000000") = Some 1700000000%Z
  /\ forall strp iso,
       app.try_parse_iso_date (D := Build_DateLib Utc.fromtimestamp strp iso)
         (VStr (py "1700000000"))
       = Some (mkdate 2023 11 14).
Proof.
  split; [reflexivity|]. intros strp iso.
  destruct (proj1 C8_epoch_strings Latin1.runtime
              (Build_DateLib Utc.fromtimestamp strp iso) (py "1700000000"))
    as (n & Hn & Hd & _); [discriminate|repeat constructor|].
  apply Hd. injection Hn as <-. reflexivity.
Defined.

(** ** app: extraction *)

Section AppExtraction.
Context {R : PyRuntime} {D : DateLib}.

Lemma app_hour_ok time : hhmmss time -> exists h, app.hour_of (strip time) = Ok (Some h).
Proof.
  intros Ht. destruct (hhmmss_hour time Ht) as (Hs & Hne & h & Hh).
  rewrite Hs. unfold app.hour_of. rewrite Hh. destruct time; [contradiction|]. eauto.
Qed.

(** a message whose "text" is a string, or is missing, never makes
    [extract_records] raise *)
Lemma app_step_ok st msg :
  (msg !! py "text" = None \/ exists s, msg !! py "text" = Some (VStr s)) ->
  exists st', app.step st msg = Ok st'.
Proof.
  intros Htext. destruct st as [resolved signals]. unfold app.step.
  assert (exists s, default (VStr []) (msg !! py "text") = VStr s) as [s ->].
  { destruct Htext as [->|[s ->]]; simpl; eauto. }
  cbn [app.flatten_text app.has_trigger bind].
  assert (Hsig : exists signals',
    (if contains (py "Ativo:") s || contains (py "Payout:") s
     then app.store_signal signals (VStr s) else Ok signals) = Ok signals').
  { destruct (_ || _); [|eauto]. unfold app.store_signal. cbv zeta.
    generalize (app.parse_signal_block s). intros blk.
    destruct (app.blk_pair blk), (app.blk_time blk), (app.blk_payout blk); eauto. }
  destruct Hsig as [signals' ->]. cbn [bind py_str].
  destruct (re_match app.RESOLVED_RE (one_line s)) as [m|] eqn:Hm; [|eauto].
  unfold app.RESOLVED_RE in Hm.
  apply resolved_shape in Hm as (check & sup & pair & time & tf & dir & res & -> & Ht);
    [|reflexivity].
  change (group_of _ "time") with time.
  destruct (app_hour_ok time Ht) as [h ->]. cbn [bind]. eauto.
Qed.

Lemma app_extract_total messages :
  Forall (fun msg => msg !! py "text" = None \/ exists s, msg !! py "text" = Some (VStr s))
    messages ->
  exists resolved signals, app.extract_records messages = Ok (resolved, signals).
Proof.
  unfold app.extract_records. generalize (([], ∅) : list app.rec * gmap (pystr * pystr) Q).
  intros st Hall. revert st. induction Hall as [|msg messages Hmsg _ IH]; intros st; simpl.
  - destruct st as [resolved signals]. eauto.
  - destruct (app_step_ok st msg Hmsg) as [st' ->]. simpl. apply IH.
Qed.

End AppExtraction.

(** C1, the code at the failing input. [app.extract_records] makes a single
    pass: the resolved line that comes before its open signal gets no payout,
    the one that comes after gets 0.87, while [validacao_horarios] gives 0.87
    in both orders. And [app.extract_records] stores an open signal only when
    its payout parsed: a later open signal of the same instrument and time
    without a payout does not overwrite the entry, while in
    [validacao_horarios] it does. *)
Theorem C1_single_pass_order (D : DateLib) :
  app_payouts [open_signal; resolved_win_g1] = Ok [Some (87 # 100)]
  /\ app_payouts [resolved_win_g1; open_signal] = Ok [None]
  /\ horarios_payouts [open_signal; resolved_win_g1] = Ok [Some (87 # 100)]
  /\ horarios_payouts [resolved_win_g1; open_signal] = Ok [Some (87 # 100)]
  /\ app_payouts [open_signal; open_signal_no_payout; resolved_win_g1] = Ok [Some (87 # 100)]
  /\ horarios_payouts [open_signal; open_signal_no_payout; resolved_win_g1] = Ok [None].
Proof. repeat split; vm_compute; reflexivity. Qed.

(** C2, the code at the failing input. On a message whose "text" is null,
    [app.extract_records] raises [TypeError] (the test ["Ativo:" in text] on
    [None]); [gestao_risco._extract_records], which reads the text through
    [_get_text_from_msg], skips the message. *)
Theorem C2_null_text_raises (R : PyRuntime) (D : DateLib) :
  app.extract_records [null_text] = Raise TypeError
  /\ gestao_risco._extract_records [null_text] = [].
Proof. split; reflexivity. Qed.

(** ** Win rates *)

Section WinRates.
Context {R : PyRuntime}.



End WinRates.

(** The hourly win rate of [validacao_horarios] is wins / (wins + losses)
    * 100 over the records of the hour, 0 without wins and losses, rounded,
    and between 0 and 100. *)
Lemma horarios_hourly_rate (records : list validacao_horarios.rec) (h : Z)
    (row : validacao_horarios.row) :
  validacao_horarios.hourly_analysis records !! h = Some row ->
  let group := rows_of validacao_horarios.hour h records in
  validacao_horarios.WIN row = count (validacao_horarios.is_result "WIN") group
  /\ validacao_horarios.LOSS row = count (validacao_horarios.is_result "LOSS") group
  /\ validacao_horarios.Win_Rate_Pct row
     = round2 (pct_fillna (validacao_horarios.WIN row)
                 (validacao_horarios.WIN row + validacao_horarios.LOSS row))
  /\ (0 <= validacao_horarios.Win_Rate_Pct row <= 100)%Q.
Proof.
  intros Hrow. unfold validacao_horarios.hourly_analysis in Hrow.
  rewrite lookup_fmap, groupby_lookup in Hrow. cbv zeta.
  set (group := rows_of validacao_horarios.hour h records) in *.
  destruct group as [|r g] eqn:E; [discriminate|]. rewrite <- E in *.
  injection Hrow as <-. simpl. repeat split; try reflexivity;
    apply round2_bounds, pct_fillna_bounds;
    pose proof (count_nonneg (validacao_horarios.is_result "WIN") group);
    pose proof (count_nonneg (validacao_horarios.is_result "LOSS") group); lia.
Qed.


(** C3, the code at the failing input. After a WIN and a DOJI in the same
    hour, [summarize_resolved] reports the global win rate 100 (the draw is
    left out) and, for that hour, 100 * wins / total = 50 (the draw is
    counted); wins / (wins + losses) * 100 is 100. On a WIN and a DOJI at
    level 0, [qualidade_sala] reports the global rate 100 and the rate of
    level 0 as wins / total = 50. *)
Theorem C3_hourly_rate_counts_doji (D : DateLib) :
  (exists resolved signals s row,
     app.extract_records [resolved_win; resolved_doji] = Ok (resolved, signals)
     /\ app.summarize_resolved resolved = Some s
     /\ app.wins s = 1%Z /\ app.losses s = 0%Z /\ app.dojis s = 1%Z
     /\ (app.win_rate s == 100)%Q
     /\ app.hourly_table s !! 14%Z = Some row
     /\ app.h_total row = 2%Z /\ app.h_wins row = 1%Z
     /\ (app.h_win_rate row == 50)%Q)
  /\ (let m := qualidade_sala.render_records
                 [qualidade_sala.mkrec (py "WIN") 0; qualidade_sala.mkrec (py "DOJI") 0] in
      (qualidade_sala.win_rate_bruto_pct m == 100)%Q
      /\ qualidade_sala.wins_g0 m = 1%Z /\ qualidade_sala.total_g0 m = 2%Z
      /\ (qualidade_sala.win_rate_g0_pct m == 50)%Q).
Proof.
  split.
  - do 4 eexists. split; [vm_compute; reflexivity|].
    split; [vm_compute; reflexivity|]. repeat split; vm_compute; reflexivity.
  - repeat split; vm_compute; reflexivity.
Qed.

(** ** The examples of the specification *)


(** * Further properties *)

(** ** Whitespace and lines *)

Lemma lstrip_nil_iff s : lstrip s = [] <-> Forall (fun c => is_space c = true) s.
Proof.
  induction s as [|c s IH]; simpl.
  - split; [constructor|reflexivity].
  - destruct (is_space c) eqn:E.
    + rewrite IH. split; [intros H; constructor; assumption|intros H; inversion H; assumption].
    + split; [discriminate|]. intros H. inversion H. congruence.
Qed.

Lemma lstrip_head s c s' : lstrip s = c :: s' -> is_space c = false.
Proof.
  induction s as [|a s IH]; simpl; [discriminate|].
  destruct (is_space a) eqn:E; [exact IH|]. intros H. injection H as <- _. exact E.
Qed.

Lemma lstrip_id s : (forall c s', s = c :: s' -> is_space c = false) -> lstrip s = s.
Proof. destruct s as [|c s']; [reflexivity|]. intros H. simpl. rewrite (H c s' eq_refl). reflexivity. Qed.

Lemma strip_nil_iff s : strip s = [] <-> Forall (fun c => is_space c = true) s.
Proof.
  unfold strip. split.
  - intros H. apply (f_equal (@rev N)) in H. rewrite rev_involutive in H. simpl in H.
    apply lstrip_nil_iff in H. apply Forall_rev in H. rewrite rev_involutive in H.
    destruct (lstrip s) as [|c s'] eqn:E; [apply lstrip_nil_iff; exact E|].
    apply lstrip_head in E. inversion H. congruence.
  - intros H. apply lstrip_nil_iff in H. rewrite H. reflexivity.
Qed.

Lemma lstrip_app_nonspace w a :
  is_space a = false -> exists u, lstrip (w ++ [a]) = u ++ [a].
Proof.
  intros Ha. induction w as [|c w [u IH]]; simpl.
  - rewrite Ha. exists []. reflexivity.
  - destruct (is_space c); [eauto|]. exists (c :: w). reflexivity.
Qed.

(** a stripped string neither starts nor ends with whitespace *)
Lemma strip_ends s :
  (forall c s', strip s = c :: s' -> is_space c = false)
  /\ (forall c s', rev (strip s) = c :: s' -> is_space c = false).
Proof.
  unfold strip. split.
  - intros c s' H.
    destruct (lstrip s) as [|a t] eqn:E; [discriminate|].
    pose proof (lstrip_head _ _ _ E) as Ha.
    simpl in H. destruct (lstrip_app_nonspace (rev t) a Ha) as [u Hu].
    rewrite Hu, rev_app_distr in H. simpl in H. injection H as <- _. exact Ha.
  - intros c s' H. rewrite rev_involutive in H. exact (lstrip_head _ _ _ H).
Qed.

Lemma strip_id s :
  (forall c s', s = c :: s' -> is_space c = false) ->
  (forall c s', rev s = c :: s' -> is_space c = false) ->
  strip s = s.
Proof.
  intros H1 H2. unfold strip. rewrite (lstrip_id s H1), (lstrip_id (rev s) H2).
  apply rev_involutive.
Qed.

Lemma strip_idempotent s : strip (strip s) = strip s.
Proof. destruct (strip_ends s) as [H1 H2]. apply strip_id; assumption. Qed.

(** ** Lines *)

(** the characters of the lines are characters of the text that are no
    line boundaries *)
Lemma splitlines_from_lines (P Q : N -> Prop) :
  (forall c, P c -> is_linebreak c = false -> Q c) ->
  forall s cur, Forall Q cur -> Forall P s ->
  Forall (Forall Q) (splitlines_from cur s).
Proof.
  intros HPQ s. remember (length s) as n eqn:Hn. revert s Hn.
  induction n as [n IH] using lt_wf_ind. intros s Hn cur Hcur Hs.
  destruct s as [|c s]; simpl.
  - destruct cur; constructor; [apply Forall_rev; exact Hcur|constructor].
  - inversion Hs as [|? ? Hc Hs1]; subst.
    destruct (is_linebreak c) eqn:Eb.
    + destruct s as [|c1 s1].
      * constructor; [apply Forall_rev; exact Hcur|constructor].
      * inversion Hs1 as [|? ? Hc1 Hs2]; subst.
        destruct ((c =? 13)%N && (c1 =? 10)%N).
        -- constructor; [apply Forall_rev; exact Hcur|].
           eapply IH; [|reflexivity|constructor|exact Hs2]. simpl. lia.
        -- constructor; [apply Forall_rev; exact Hcur|].
           eapply IH; [|reflexivity|constructor|exact Hs1]. simpl. lia.
    + eapply IH; [|reflexivity|constructor; auto|exact Hs1]. simpl. lia.
Qed.

Lemma join_Forall (Q : N -> Prop) sep parts :
  Forall Q sep -> Forall (Forall Q) parts -> Forall Q (join sep parts).
Proof.
  intros Hsep. induction 1 as [|p parts Hp Hparts IH]; simpl; [constructor|].
  destruct parts as [|p1 parts1]; [exact Hp|].
  apply Forall_app. split; [exact Hp|]. apply Forall_app. split; [exact Hsep|exact IH].
Qed.

Lemma lstrip_Forall (Q : N -> Prop) s : Forall Q s -> Forall Q (lstrip s).
Proof.
  induction 1 as [|c s Hc Hs IH]; simpl; [constructor|].
  destruct (is_space c); [exact IH|constructor; assumption].
Qed.

Lemma strip_Forall (Q : N -> Prop) s : Forall Q s -> Forall Q (strip s).
Proof.
  intros H. unfold strip. apply Forall_rev, lstrip_Forall, Forall_rev, lstrip_Forall, H.
Qed.

Lemma one_line_no_break text : Forall (fun c => is_linebreak c = false) (one_line text).
Proof.
  unfold one_line, splitlines. apply strip_Forall, join_Forall; [repeat constructor|].
  apply (splitlines_from_lines (fun _ => True)); [auto|constructor|].
  apply Forall_forall. auto.
Qed.

(** a text of whitespace only collapses to the empty line *)
Lemma one_line_blank text : strip text = [] -> one_line text = [].
Proof.
  intros H. apply strip_nil_iff in H. unfold one_line, splitlines.
  apply strip_nil_iff, join_Forall; [repeat constructor|].
  apply (splitlines_from_lines (fun c => is_space c = true)); [auto|constructor|exact H].
Qed.

Lemma splitlines_from_single s :
  Forall (fun c => is_linebreak c = false) s ->
  forall cur, splitlines_from cur s = match rev cur ++ s with [] => [] | l => [l] end.
Proof.
  induction 1 as [|c s Hc Hs IH]; intros cur; simpl.
  - rewrite app_nil_r. destruct cur as [|a cur]; [reflexivity|].
    simpl. destruct (rev cur ++ [a]) eqn:E; [destruct (rev cur); discriminate|reflexivity].
  - rewrite Hc, IH. simpl. rewrite <- app_assoc. reflexivity.
Qed.

Lemma one_line_idempotent text : one_line (one_line text) = one_line text.
Proof.
  pose proof (one_line_no_break text) as Hb.
  unfold one_line at 1. unfold splitlines. rewrite (splitlines_from_single _ Hb). simpl.
  destruct (one_line text) as [|c s] eqn:E; [reflexivity|].
  simpl. rewrite <- E. unfold one_line. apply strip_idempotent.
Qed.

Lemma starts_with_blank a needle s :
  is_space a = false -> Forall (fun c => is_space c = true) s ->
  starts_with (a :: needle) s = false.
Proof.
  intros Ha Hs. destruct Hs as [|b s Hb _]; simpl; [reflexivity|].
  destruct (N.eqb_spec a b) as [->|]; [congruence|reflexivity].
Qed.

Lemma contains_blank a needle s :
  is_space a = false -> Forall (fun c => is_space c = true) s ->
  contains (a :: needle) s = false.
Proof.
  intros Ha. induction 1 as [|b s Hb Hs IH].
  - reflexivity.
  - change (contains (a :: needle) (b :: s))
      with (starts_with (a :: needle) (b :: s) || contains (a :: needle) s).
    rewrite IH, (starts_with_blank a needle (b :: s) Ha) by (constructor; assumption).
    reflexivity.
Qed.

(** ** Messages without text *)

Lemma flat_map_filter {A B} (P : A -> bool) (f : A -> list B) (l : list A) :
  (forall a, P a = false -> f a = []) -> flat_map f (List.filter P l) = flat_map f l.
Proof.
  intros H. induction l as [|a l IH]; [reflexivity|].
  simpl. destruct (P a) eqn:E; simpl; [rewrite IH; reflexivity|].
  rewrite (H a E). exact IH.
Qed.

Lemma filter_filter_implied {A} (P Q : A -> bool) (l : list A) :
  (forall a, P a = true -> Q a = true) ->
  List.filter P (List.filter Q l) = List.filter P l.
Proof.
  intros H. induction l as [|a l IH]; [reflexivity|].
  simpl. destruct (Q a) eqn:E; simpl.
  - rewrite IH. reflexivity.
  - destruct (P a) eqn:E'; [rewrite (H a E') in E; discriminate|exact IH].
Qed.

Lemma has_text_false msg : has_text msg = false -> strip (_get_text_from_msg msg) = [].
Proof.
  unfold has_text. intros H. apply negb_false_iff, pystr_eqb_eq in H. exact H.
Qed.

Lemma probe_blank msg k :
  (forall s, get msg k = VStr s -> strip s = []) -> probe msg k = None.
Proof.
  intros H. unfold probe. destruct (get msg k) as [| | | |s| | | |] eqn:E; try reflexivity.
  rewrite (H s eq_refl). reflexivity.
Qed.

Lemma no_text_key msg :
  (forall k, In k TEXT_KEYS -> forall s, get msg k = VStr s -> strip s = []) ->
  has_text msg = false.
Proof.
  intros H. unfold has_text, _get_text_from_msg.
  rewrite !probe_blank by (apply H; simpl; auto).
  assert (Ht := H "text"%string (or_introl eq_refl)).
  assert (Hm := H "message"%string (or_intror (or_intror (or_introl eq_refl)))).
  unfold py_or. destruct (truthy (get msg "text")).
  - destruct (get msg "text") as [| | | |s| | | |]; try reflexivity.
    rewrite (Ht s eq_refl). reflexivity.
  - destruct (get msg "message") as [| | | |s| | | |]; try reflexivity.
    rewrite (Hm s eq_refl). reflexivity.
Qed.

Section Blank.
Context {R : PyRuntime}.

Lemma blank_no_match msg rname outcome :
  has_text msg = false ->
  re_match (RESOLVED rname outcome) (one_line (_get_text_from_msg msg)) = None.
Proof.
  intros H. rewrite (one_line_blank _ (has_text_false msg H)). apply resolved_no_match_empty.
Qed.

Lemma blank_not_open msg : is_open_signal msg = true -> has_text msg = true.
Proof.
  intros H. destruct (has_text msg) eqn:E; [reflexivity|].
  apply has_text_false, strip_nil_iff in E.
  unfold is_open_signal in H.
  change (py "Ativo:") with (65%N :: py "tivo:") in H.
  change (py "Payout:") with (80%N :: py "ayout:") in H.
  rewrite (contains_blank 65 _ _ eq_refl E), (contains_blank 80 _ _ eq_refl E) in H.
  discriminate.
Qed.

Lemma paridades_step_app signals records msg :
  performance_paridades.step signals records msg
  = records ++ match re_match performance_paridades.RESOLVED_RE
                       (one_line (_get_text_from_msg msg)) with
               | Some m => [performance_paridades.record_of signals m]
               | None => []
               end.
Proof.
  unfold performance_paridades.step.
  destruct (pystr_eqb (_get_text_from_msg msg) []) eqn:E.
  - apply pystr_eqb_eq in E. rewrite E. change (one_line []) with (@nil N).
    unfold performance_paridades.RESOLVED_RE. rewrite resolved_no_match_empty.
    symmetry. apply app_nil_r.
  - destruct (re_match _ _); [reflexivity|]. symmetry. apply app_nil_r.
Qed.

Lemma horarios_step_blank signals records msg :
  has_text msg = false -> validacao_horarios.step signals records msg = Ok records.
Proof.
  intros H. unfold validacao_horarios.step.
  destruct (pystr_eqb (_get_text_from_msg msg) []); [reflexivity|].
  unfold validacao_horarios.RESOLVED_RE. rewrite (blank_no_match msg _ _ H). reflexivity.
Qed.

Lemma collect_signals_has_text messages :
  collect_signals (List.filter has_text messages) = collect_signals messages.
Proof.
  rewrite (collect_signals_open_only messages),
          (collect_signals_open_only (List.filter has_text messages)).
  rewrite (filter_filter_implied is_open_signal has_text messages blank_not_open).
  reflexivity.
Qed.

(** X1. A message without text is skipped by every page extractor. Taking
    out of a collection every message whose text, as [_get_text_from_msg]
    returns it, is empty or whitespace only changes the result of none of
    [gestao_risco], [analise_gales], [performance_paridades] and
    [validacao_horarios]; and a message has no such text when none of the keys
    "text", "message.text", "message" and "message_text" holds a string with a
    character that is not whitespace (a missing key, a null, a number, a list,
    an empty or blank string). *)
Theorem X1_blank_messages_skipped (messages : list message) :
  let kept := List.filter has_text messages in
  gestao_risco._extract_records kept = gestao_risco._extract_records messages
  /\ analise_gales._extract_records kept = analise_gales._extract_records messages
  /\ performance_paridades._extract_records kept
     = performance_paridades._extract_records messages
  /\ validacao_horarios._extract_records kept = validacao_horarios._extract_records messages
  /\ (forall msg,
        (forall k, In k TEXT_KEYS -> forall s, get msg k = VStr s -> strip s = []) ->
        has_text msg = false).
Proof.
  intros kept. subst kept. repeat split.
  - rewrite !gestao_extract_flat_map. apply flat_map_filter.
    intros msg H. unfold gestao_one, gestao_risco.RESOLVED_RE.
    rewrite (blank_no_match msg _ _ H). reflexivity.
  - unfold analise_gales._extract_records.
    rewrite !(fold_left_append gales_one _ gales_step_app). simpl.
    apply flat_map_filter. intros msg H. unfold gales_one, analise_gales.RESOLVED_RE.
    rewrite (blank_no_match msg _ _ H). reflexivity.
  - unfold performance_paridades._extract_records. rewrite collect_signals_has_text.
    rewrite !(fold_left_append _ _ (paridades_step_app (collect_signals messages))). simpl.
    apply flat_map_filter. intros msg H. unfold performance_paridades.RESOLVED_RE.
    rewrite (blank_no_match msg _ _ H). reflexivity.
  - unfold validacao_horarios._extract_records. rewrite collect_signals_has_text.
    generalize (collect_signals messages). intros signals.
    generalize (@nil validacao_horarios.rec).
    induction messages as [|msg messages IH]; intros records; [reflexivity|].
    simpl. destruct (has_text msg) eqn:E; simpl.
    + destruct (validacao_horarios.step signals records msg); simpl; [apply IH|reflexivity].
    + rewrite (horarios_step_blank signals records msg E). simpl. apply IH.
  - apply no_text_key.
Qed.

End Blank.

(** ** The page extractors read the same records *)

Section Rename.
Context {R : PyRuntime}.

Lemma rmatch_natural {A B} (f : string -> string) (h : A -> B) icase total r :
  forall s g (k1 : pystr -> groups -> option A) (k2 : pystr -> groups -> option B),
  (forall s' g', k2 s' (rename_groups f g') = h <$> k1 s' g') ->
  rmatch icase total (rename_re f r) s (rename_groups f g) k2
  = h <$> rmatch icase total r s g k1.
Proof.
  induction r as [|neg items|r1 IH1 r2 IH2|r1 IH1 r2 IH2|r IH|name r IH| |];
    intros s g k1 k2 Hk; simpl.
  - apply Hk.
  - destruct s as [|c s]; [reflexivity|].
    destruct (set_matches icase neg items c); [apply Hk|reflexivity].
  - apply IH1. intros s' g'. apply IH2. exact Hk.
  - rewrite (IH1 s g k1 k2 Hk), (IH2 s g k1 k2 Hk).
    destruct (rmatch icase total r1 s g k1); reflexivity.
  - generalize (length s) at 1 2. intros fuel. revert s g.
    induction fuel as [|fuel IHf]; intros s g; [apply Hk|].
    match goal with
    | |- _ = h <$> match rmatch _ _ _ _ _ ?k with _ => _ end => rewrite (IH s g k)
    end.
    + rewrite Hk. destruct (rmatch icase total r s g _); reflexivity.
    + intros s' g'. destruct (length s' <? length s)%nat; [apply IHf|reflexivity].
  - apply IH. intros s' g'. apply (Hk s' ((name, take (length s - length s') s) :: g')).
  - destruct (length s =? total)%nat; [apply Hk|reflexivity].
  - destruct s as [|c [|c' s]]; [apply Hk| |reflexivity].
    destruct (c =? 10)%N; [apply Hk|reflexivity].
Qed.

Lemma re_match_rename f r s :
  re_match (rename_re f r) s = rename_groups f <$> re_match r s.
Proof.
  unfold re_match.
  apply (rmatch_natural f (rename_groups f) true (length s) r s []
           (fun _ g => Some g) (fun _ g => Some g)).
  reflexivity.
Qed.

End Rename.

Section Agreement.
Context {R : PyRuntime}.

Lemma resolved_result_renamed :
  RESOLVED "result" OUTCOME = rename_re r_to_result (RESOLVED "r" OUTCOME).
Proof. reflexivity. Qed.

Lemma horarios_step_one signals records msg :
  validacao_horarios.step signals records msg = Ok (records ++ horarios_one signals msg).
Proof.
  unfold validacao_horarios.step, horarios_one.
  destruct (pystr_eqb (_get_text_from_msg msg) []) eqn:E.
  - apply pystr_eqb_eq in E. rewrite E. change (one_line []) with (@nil N).
    unfold validacao_horarios.RESOLVED_RE. rewrite resolved_no_match_empty.
    rewrite app_nil_r. reflexivity.
  - destruct (re_match _ _) as [m|] eqn:Hm; [|rewrite app_nil_r; reflexivity].
    destruct (horarios_record_ok signals m _ Hm) as (r & -> & _). reflexivity.
Qed.

Lemma horarios_second_pass_flat signals messages :
  forall records,
  validacao_horarios.second_pass signals records messages
  = Ok (records ++ flat_map (horarios_one signals) messages).
Proof.
  induction messages as [|msg messages IH]; intros records; simpl.
  - rewrite app_nil_r. reflexivity.
  - rewrite horarios_step_one. simpl. rewrite IH, <- app_assoc. reflexivity.
Qed.

Lemma padroes_step_app {D : DateLib} records msg :
  padroes_tendencias.step records msg = records ++ padroes_one msg.
Proof.
  unfold padroes_tendencias.step, padroes_one.
  destruct (pystr_eqb (_get_text_from_msg msg) []) eqn:E.
  - apply pystr_eqb_eq in E. rewrite E. change (one_line []) with (@nil N).
    unfold padroes_tendencias.RESOLVED_RE. rewrite resolved_no_match_empty.
    symmetry. apply app_nil_r.
  - destruct (re_match _ _); [reflexivity|]. symmetry. apply app_nil_r.
Qed.

Lemma map_flat_map {A B C} (f : B -> C) (g : A -> list B) (h : A -> list C) (l : list A) :
  (forall a, h a = List.map f (g a)) -> flat_map h l = List.map f (flat_map g l).
Proof.
  intros H. induction l as [|a l IH]; [reflexivity|].
  simpl. rewrite List.map_app, H, IH. reflexivity.
Qed.

(** on one message, the five extractors read the same record *)
Lemma ones_agree signals msg :
  paridades_one signals msg = List.map paridades_of (horarios_one signals msg)
  /\ gales_one msg = List.map gales_of (horarios_one signals msg)
  /\ gestao_one msg = List.map gestao_of (horarios_one signals msg)
  /\ (forall D : DateLib,
        List.map gales_of_padroes (padroes_one msg)
        = List.map gales_of (horarios_one signals msg)).
Proof.
  unfold paridades_one, gales_one, gestao_one, padroes_one, horarios_one.
  unfold performance_paridades.RESOLVED_RE, validacao_horarios.RESOLVED_RE,
    analise_gales.RESOLVED_RE, gestao_risco.RESOLVED_RE, padroes_tendencias.RESOLVED_RE.
  rewrite resolved_result_renamed, re_match_rename.
  destruct (re_match (RESOLVED "r" OUTCOME) _) as [m|] eqn:Hm; [|simpl; auto].
  apply resolved_shape in Hm as (check & sup & pair & time & tf & dir & res & -> & Ht);
    [|reflexivity].
  destruct (hhmmss_hour time Ht) as (Hs & Hne & h & Hh).
  cbn [fmap option_fmap option_map rename_groups List.map fst snd].
  unfold validacao_horarios.record_of, performance_paridades.record_of,
    analise_gales.record_of, gestao_risco.record_of, padroes_tendencias.record_of.
  repeat match goal with
  | |- context [group_of ?g ?n] =>
      let v := eval vm_compute in (group_of g n) in change (group_of g n) with v
  end.
  rewrite Hs. unfold validacao_horarios.hour_of. rewrite Hh.
  destruct time as [|t0 time']; [contradiction|].
  split; [reflexivity|]. split; [reflexivity|]. split; [reflexivity|].
  intros D. reflexivity.
Qed.

End Agreement.

(** X2. The page extractors read the same records. From the same messages,
    [validacao_horarios._extract_records] returns without raising, and
    [performance_paridades], [analise_gales], [gestao_risco] and
    [padroes_tendencias] return the same records in the same order, each
    restricted to the keys its module keeps: the name of the pattern's last
    group ("r" in three modules, "result" in two) makes no difference. *)
Theorem X2_extractors_agree {R : PyRuntime} (messages : list message) :
  exists records,
    validacao_horarios._extract_records messages = Ok records
    /\ performance_paridades._extract_records messages = List.map paridades_of records
    /\ analise_gales._extract_records messages = List.map gales_of records
    /\ gestao_risco._extract_records messages = List.map gestao_of records
    /\ (forall D : DateLib,
          List.map gales_of_padroes (padroes_tendencias._extract_records messages)
          = List.map gales_of records).
Proof.
  set (signals := collect_signals messages).
  exists (flat_map (horarios_one signals) messages).
  split; [apply (horarios_second_pass_flat signals messages [])|].
  split.
  { unfold performance_paridades._extract_records. fold signals.
    rewrite (fold_left_append _ _ (paridades_step_app signals)). simpl.
    apply map_flat_map. intros msg. apply (ones_agree signals msg). }
  split.
  { unfold analise_gales._extract_records.
    rewrite (fold_left_append gales_one _ gales_step_app). simpl.
    apply map_flat_map. intros msg. apply (ones_agree signals msg). }
  split.
  { rewrite gestao_extract_flat_map.
    apply map_flat_map. intros msg. apply (ones_agree signals msg). }
  intros D. unfold padroes_tendencias._extract_records.
  rewrite (fold_left_append padroes_one _ padroes_step_app). simpl.
  rewrite <- (map_flat_map gales_of (horarios_one signals)
                (fun msg => List.map gales_of_padroes (padroes_one msg))).
  - symmetry. apply map_flat_map. reflexivity.
  - intros msg. apply (ones_agree signals msg).
Qed.

(** ** validacao_horarios: the records *)

Section Payouts.
Context {R : PyRuntime}.

Lemma int_digits_nonneg s : forall acc n, (0 <= acc)%Z -> int_digits acc s = Some n -> (0 <= n)%Z.
Proof.
  induction s as [|c s IH]; intros acc n Hacc; simpl.
  - intros [= <-]. exact Hacc.
  - destruct (decimal_value c) as [d|]; [|discriminate]. apply IH. lia.
Qed.

Lemma py_float_nonneg s q : py_float s = Some q -> (0 <= q)%Q.
Proof.
  unfold py_float. destruct (split_dot s) as [ip rest].
  destruct (ip ++ default [] rest) as [|c ds] eqn:E; [discriminate|].
  destruct (int_digits 0 (c :: ds)) as [n|] eqn:En; [|discriminate].
  intros [= <-]. apply int_digits_nonneg in En; [|lia].
  apply Qle_shift_div_l.
  - apply inject_Z_pos. apply Z.pow_pos_nonneg; lia.
  - rewrite Qmult_0_l. apply inject_Z_nonneg. exact En.
Qed.

Lemma payout_of_nonneg m q : payout_of m = Some q -> (0 <= q)%Q.
Proof.
  unfold payout_of. destruct (py_float _) as [x|] eqn:E; [|discriminate].
  intros [= <-]. apply py_float_nonneg in E. simpl.
  apply Qle_shift_div_l; [reflexivity|]. lra.
Qed.

Lemma signal_step_nonneg signals msg :
  nonneg_table signals -> nonneg_table (signal_step signals msg).
Proof.
  intros H. unfold signal_step.
  destruct (_ || _); [|exact H].
  destruct (re_search ATIVO _) as [mp|]; [|exact H].
  destruct (re_search HORARIO _) as [mt|]; [|exact H].
  intros k q Hk. apply lookup_insert_Some in Hk as [[_ Hk]|[_ Hk]]; [|exact (H k q Hk)].
  destruct (re_search PAYOUT _) as [m|]; [|discriminate]. simpl in Hk.
  apply (payout_of_nonneg m). exact Hk.
Qed.

Lemma collect_signals_nonneg messages : nonneg_table (collect_signals messages).
Proof.
  unfold collect_signals.
  assert (H : nonneg_table (∅ : gmap (pystr * pystr) (option Q))).
  { intros k q Hk. rewrite lookup_empty in Hk. discriminate. }
  revert H. generalize (∅ : gmap (pystr * pystr) (option Q)).
  induction messages as [|msg messages IH]; intros signals H; [exact H|].
  simpl. apply IH, signal_step_nonneg, H.
Qed.

Lemma signal_payout_nonneg signals p t q :
  nonneg_table signals -> signal_payout signals p t = Some q -> (0 <= q)%Q.
Proof.
  unfold signal_payout. intros H Hq.
  destruct (signals !! (p, t)) as [[x|]|] eqn:E; try discriminate.
  simpl in Hq. injection Hq as <-. exact (H _ _ E).
Qed.

Lemma hhmmss_before_colon t : hhmmss t -> before_colon t = take 2 t.
Proof.
  intros (d1 & d2 & d3 & d4 & d5 & d6 & -> & Hd).
  apply Forall_cons in Hd as [H1 Hd]. apply Forall_cons in Hd as [H2 _].
  simpl. rewrite (is_decimal_not_colon d1 H1), (is_decimal_not_colon d2 H2). reflexivity.
Qed.

Lemma horarios_one_well_formed signals msg :
  nonneg_table signals ->
  Forall (horarios_well_formed signals) (horarios_one signals msg)
  /\ (length (horarios_one signals msg) <= 1)%nat.
Proof.
  intros Hn. unfold horarios_one.
  destruct (re_match _ _) as [m|] eqn:Hm; [|split; [constructor|simpl; lia]].
  unfold validacao_horarios.RESOLVED_RE in Hm.
  apply resolved_shape in Hm as (check & sup & pair & time & tf & dir & res & -> & Ht);
    [|reflexivity].
  destruct (hhmmss_hour time Ht) as (Hs & Hne & h & Hh).
  unfold validacao_horarios.record_of.
  repeat match goal with
  | |- context [group_of ?g ?n] =>
      let v := eval vm_compute in (group_of g n) in change (group_of g n) with v
  end.
  rewrite Hs. unfold validacao_horarios.hour_of. rewrite Hh.
  destruct time as [|t0 time'] eqn:Et; [contradiction|]. rewrite <- Et in *.
  cbn [bind]. split; [|simpl; lia]. constructor; [|constructor].
  unfold horarios_well_formed. cbn [validacao_horarios.result validacao_horarios.gale_level
    validacao_horarios.time validacao_horarios.hour validacao_horarios.payout
    validacao_horarios.pair].
  split; [apply normalise_result_cases|]. split; [apply sup_to_level_range|].
  split; [exact Ht|]. split.
  - exists h. split; [reflexivity|]. rewrite <- (hhmmss_before_colon time Ht).
    split; [exact Hh|]. unfold py_int in Hh.
    destruct (before_colon time); [discriminate|].
    apply int_digits_nonneg in Hh; [exact Hh|lia].
  - split; [reflexivity|]. intros q Hq. exact (signal_payout_nonneg _ _ _ _ Hn Hq).
Qed.

End Payouts.

(** X3. [validacao_horarios._extract_records] never raises, returns at most
    one record per message, and every record is well formed against the table
    of the open-signal messages of the collection: a result among WIN, LOSS and
    DOJI, a gale level between 0 and 3, a time of the shape HH:MM:SS, an hour
    that is never [None] and is the number the first two digits spell, and a
    payout that is the table's entry for the instrument and time, never
    negative. *)
Theorem X3_horarios_records {R : PyRuntime} (messages : list message) :
  exists records,
    validacao_horarios._extract_records messages = Ok records
    /\ (length records <= length messages)%nat
    /\ Forall (horarios_well_formed
                 (collect_signals (List.filter is_open_signal messages))) records.
Proof.
  rewrite <- collect_signals_open_only.
  set (signals := collect_signals messages).
  exists (flat_map (horarios_one signals) messages).
  split; [apply (horarios_second_pass_flat signals messages [])|].
  pose proof (collect_signals_nonneg messages) as Hn. fold signals in Hn.
  clearbody signals. induction messages as [|msg messages [IH1 IH2]]; simpl.
  - split; [lia|constructor].
  - destruct (horarios_one_well_formed signals msg Hn) as [Hf Hl].
    rewrite length_app. split; [lia|]. apply Forall_app. auto.
Qed.

(** ** app: what makes the extraction raise *)

Section AppRaises.
Context {R : PyRuntime} {D : DateLib}.

Lemma fragments_ok l :
  existsb bad_fragment l = false -> exists parts, mapM_pyres app.fragment l = Ok parts.
Proof.
  induction l as [|t l IH]; simpl; [eauto|].
  intros H. apply orb_false_iff in H as [Ht Hl]. destruct (IH Hl) as [parts ->].
  destruct t as [| | | | | |d| |]; simpl; eauto.
  simpl in Ht. destruct (default (VStr []) (d !! py "text")); try discriminate. simpl. eauto.
Qed.

Lemma fragments_bad l :
  existsb bad_fragment l = true -> mapM_pyres app.fragment l = Raise TypeError.
Proof.
  induction l as [|t l IH]; simpl; [discriminate|].
  destruct (bad_fragment t) eqn:Ht; simpl.
  - intros _. destruct t as [| | | | | |d| |]; try discriminate.
    simpl in *. destruct (default (VStr []) (d !! py "text")); try discriminate; reflexivity.
  - intros Hl. rewrite (IH Hl).
    destruct t as [| | | | | |d| |]; try reflexivity.
    simpl in *. destruct (default (VStr []) (d !! py "text")); try discriminate; reflexivity.
Qed.

Lemma app_record_well_formed (signals : gmap (pystr * pystr) Q) msg check sup pair time tf
    dir res h :
  app_nonneg_table signals -> hhmmss time -> py_int (before_colon time) = Some h ->
  let m := [("result"%string, res); ("dir"%string, dir); ("tf"%string, tf);
            ("time"%string, time); ("pair"%string, pair); ("sup"%string, sup);
            ("check"%string, check)] in
  let result_raw := py_upper (strip (group_of m "result")) in
  app_well_formed
    (app.mkrec (strip (group_of m "pair")) time (Some h) (strip (group_of m "tf"))
       (strip (group_of m "dir"))
       (if pystr_eqb result_raw (py "DOJI") then py "DOJI"
        else if pystr_eqb result_raw (py "WIN") then py "WIN"
        else if pystr_eqb result_raw (py "LOSS") then py "LOSS"
        else result_raw)
       (sup_to_level (group_of m "sup")) (signals !! (strip (group_of m "pair"), time))
       (app.message_date msg)).
Proof.
  intros Hn Ht Hh m result_raw. unfold app_well_formed.
  cbn [app.gale_level app.time app.hour app.payout].
  split; [apply sup_to_level_range|]. split; [exact Ht|]. split.
  - exists h. split; [reflexivity|]. rewrite <- (hhmmss_before_colon time Ht).
    split; [exact Hh|]. unfold py_int in Hh.
    destruct (before_colon time); [discriminate|].
    apply int_digits_nonneg in Hh; [exact Hh|lia].
  - intros q Hq. exact (Hn _ _ Hq).
Qed.

(** the end of an iteration: the resolved line of a text never raises *)
Ltac resolved_line Hn :=
  match goal with
  | |- context [re_match app.RESOLVED_RE ?s] =>
      let Hm := fresh "Hm" in
      destruct (re_match app.RESOLVED_RE s) as [m|] eqn:Hm;
      [ unfold app.RESOLVED_RE in Hm;
        apply resolved_shape in Hm as (check & sup & pair & time & tf & dir & res & -> & Ht);
        [|reflexivity];
        change (group_of _ "time") with time;
        destruct (hhmmss_hour time Ht) as (Hs & Hne & h & Hh); rewrite Hs;
        unfold app.hour_of; rewrite Hh;
        destruct time as [|t0 time'] eqn:Et; [contradiction|]; rewrite <- Et in *;
        cbn [bind];
        do 2 eexists; split; [reflexivity|];
        split; [simpl; lia|]; intros Hn0; split; [exact (Hn Hn0)|];
        constructor; [|constructor];
        apply app_record_well_formed; [exact (Hn Hn0)|assumption|assumption]
      | exists []; eexists; rewrite app_nil_r; split; [reflexivity|];
        split; [simpl; lia|]; intros Hn0; split; [exact (Hn Hn0)|constructor] ]
  end.

Lemma app_step_good resolved signals msg :
  bad_text msg = false ->
  exists rs signals',
    app.step (resolved, signals) msg = Ok (resolved ++ rs, signals')
    /\ (length rs <= 1)%nat
    /\ (app_nonneg_table signals -> app_nonneg_table signals' /\ Forall app_well_formed rs).
Proof.
  unfold bad_text, app.step. intros Hb.
  assert (Hid : app_nonneg_table signals -> app_nonneg_table signals) by auto.
  assert (Hsig : forall s, exists signals',
    (if contains (py "Ativo:") s || contains (py "Payout:") s
     then app.store_signal signals (VStr s) else Ok signals) = Ok signals'
    /\ (app_nonneg_table signals -> app_nonneg_table signals')).
  { intros s. destruct (_ || _); [|eauto]. unfold app.store_signal, app.parse_signal_block.
    cbn [app.blk_pair app.blk_time app.blk_payout].
    destruct (re_search ATIVO s) as [mp|]; [|eauto].
    destruct (re_search HORARIO s) as [mt|]; [|simpl; eauto].
    destruct (re_search PAYOUT s) as [m|]; [|simpl; eauto].
    cbn [fmap option_fmap option_map mbind option_bind].
    destruct (payout_of m) as [pay|] eqn:Ep; [|simpl; eauto].
    eexists. split; [reflexivity|].
    intros Hn k q Hk. apply lookup_insert_Some in Hk as [[_ <-]|[_ Hk]]; [|exact (Hn k q Hk)].
    exact (payout_of_nonneg m pay Ep). }
  destruct (msg !! py "text") as [[| | | |s|l|d| |]|]; try discriminate;
    cbn [default id app.flatten_text bind].
  - cbn [app.has_trigger bind]. destruct (Hsig s) as (signals' & -> & Hn'). cbn [bind py_str].
    resolved_line Hn'.
  - destruct (fragments_ok l Hb) as [parts ->]. cbn [bind app.has_trigger].
    destruct (Hsig (List.concat parts)) as (signals' & -> & Hn'). cbn [bind py_str].
    resolved_line Hn'.
  - cbn [app.has_trigger bind]. rewrite Hb. cbn [bind]. resolved_line Hid.
  - cbn [app.has_trigger bind]. destruct (Hsig []) as (signals' & -> & Hn'). cbn [bind py_str].
    resolved_line Hn'.
Qed.

Lemma app_step_bad st msg : bad_text msg = true -> app.step st msg = Raise TypeError.
Proof.
  unfold bad_text, app.step. destruct st as [resolved signals]. intros Hb.
  destruct (msg !! py "text") as [[| | | |s|l|d| |]|]; try discriminate;
    cbn [default id app.flatten_text bind]; try reflexivity.
  - rewrite (fragments_bad l Hb). reflexivity.
  - cbn [app.has_trigger bind]. rewrite Hb. reflexivity.
Qed.

Lemma app_run_good messages :
  existsb bad_text messages = false ->
  forall resolved signals,
  exists rs signals',
    app.run (resolved, signals) messages = Ok (resolved ++ rs, signals')
    /\ (length rs <= length messages)%nat
    /\ (app_nonneg_table signals -> app_nonneg_table signals' /\ Forall app_well_formed rs).
Proof.
  induction messages as [|msg messages IH]; cbn [app.run existsb]; intros Hb resolved signals.
  - exists [], signals. rewrite app_nil_r. split; [reflexivity|].
    split; [simpl; lia|]. intros Hn. split; [exact Hn|constructor].
  - apply orb_false_iff in Hb as [Hm Hl].
    destruct (app_step_good resolved signals msg Hm) as (rs & signals' & -> & Hlen & Hinv).
    cbn [bind].
    destruct (IH Hl (resolved ++ rs) signals') as (rs' & signals'' & -> & Hlen' & Hinv').
    exists (rs ++ rs'), signals''. rewrite app_assoc. split; [reflexivity|].
    split; [rewrite length_app; simpl; lia|]. intros Hn.
    destruct (Hinv Hn) as [Hn' Hwf]. destruct (Hinv' Hn') as [Hn'' Hwf'].
    split; [exact Hn''|]. apply Forall_app. auto.
Qed.

Lemma app_empty_nonneg : app_nonneg_table ∅.
Proof. intros k q Hk. rewrite lookup_empty in Hk. discriminate. Qed.

Lemma app_run_bad messages :
  existsb bad_text messages = true ->
  forall st, app.run st messages = Raise TypeError.
Proof.
  induction messages as [|msg messages IH]; cbn [app.run existsb]; [discriminate|].
  intros Hb [resolved signals].
  destruct (bad_text msg) eqn:Hm.
  - rewrite (app_step_bad _ msg Hm). reflexivity.
  - destruct (app_step_good resolved signals msg Hm) as (rs & signals' & -> & _).
    cbn [bind]. apply IH. exact Hb.
Qed.

Lemma app_run_app l1 l2 : forall st,
  app.run st (l1 ++ l2) = do st1 <- app.run st l1; app.run st1 l2.
Proof.
  induction l1 as [|msg l1 IH]; intros st; cbn [app.run List.app]; [reflexivity|].
  destruct (app.step st msg) as [st'|e]; cbn [bind]; [apply IH|reflexivity].
Qed.

Lemma app_run_ok_good messages : forall st st',
  app.run st messages = Ok st' -> existsb bad_text messages = false.
Proof.
  intros st st' H. destruct (existsb bad_text messages) eqn:E; [|reflexivity].
  rewrite (app_run_bad messages E st) in H. discriminate.
Qed.

End AppRaises.

(** X4. [app.extract_records] raises exactly when some message has a "text"
    it cannot process (a value that is no string, list or dict, such as a null
    or a number; a list with a dict fragment whose own "text" is no string; a
    dict having "Ativo:" or "Payout:" as a key), and what it raises is
    [TypeError]; on every other collection it returns, with at most one record
    per message. *)
Theorem X4_app_extract_raises {R : PyRuntime} {D : DateLib} (messages : list message) :
  (existsb bad_text messages = true -> app.extract_records messages = Raise TypeError)
  /\ (existsb bad_text messages = false ->
      exists resolved signals,
        app.extract_records messages = Ok (resolved, signals)
        /\ (length resolved <= length messages)%nat).
Proof.
  unfold app.extract_records. split; intros Hb.
  - apply app_run_bad. exact Hb.
  - destruct (app_run_good messages Hb [] ∅) as (rs & signals' & -> & Hlen & _).
    exists rs, signals'. auto.
Qed.

(** X5. [app.extract_records] is incremental: when it returns on a
    collection, it returns on every prefix of it, and the records of the prefix
    are the first records of the whole, in the same order; the messages after
    the prefix add at most one record each. (The two-pass extractors are not:
    there a later open signal changes the payout of an earlier record.) *)
Theorem X5_app_incremental {R : PyRuntime} {D : DateLib} (l1 l2 : list message)
    (resolved : list app.rec) (signals : gmap (pystr * pystr) Q) :
  app.extract_records (l1 ++ l2) = Ok (resolved, signals) ->
  exists resolved1 signals1 (rs : list app.rec),
    app.extract_records l1 = Ok (resolved1, signals1)
    /\ resolved = resolved1 ++ rs
    /\ (length rs <= length l2)%nat.
Proof.
  unfold app.extract_records. rewrite app_run_app. intros H.
  destruct (app.run ([], ∅) l1) as [[resolved1 signals1]|e] eqn:E1; [|discriminate].
  cbn [bind] in H. exists resolved1, signals1.
  pose proof (app_run_ok_good l2 _ _ H) as Hg.
  destruct (app_run_good l2 Hg resolved1 signals1) as (rs & signals' & E2 & Hlen & _).
  rewrite E2 in H. injection H as <- <-. exists rs. auto.
Qed.

(** X5 on a line of chatter and a WIN, followed by a LOSS *)
Lemma X5_witness :
  exists resolved resolved1 signals1 rs,
    app.extract_records (D := Build_DateLib Utc.fromtimestamp (fun _ _ => None) (fun _ => None))
      [chatter; resolved_win] = Ok (resolved1, signals1)
    /\ resolved = resolved1 ++ rs
    /\ (length rs <= 1)%nat.
Proof.
  assert (E : exists resolved signals,
    app.extract_records (D := Build_DateLib Utc.fromtimestamp (fun _ _ => None) (fun _ => None))
      ([chatter; resolved_win] ++ [resolved_loss]) = Ok (resolved, signals)).
  { vm_compute. do 2 eexists. reflexivity. }
  destruct E as (resolved & signals & E).
  destruct (X5_app_incremental [chatter; resolved_win] [resolved_loss] resolved signals E)
    as (resolved1 & signals1 & rs & E1 & Hres & Hlen).
  exists resolved, resolved1, signals1, rs. auto.
Defined.

(** X6. Whatever [app.extract_records] returns is well formed: every record
    has a gale level between 0 and 3, a time of the shape HH:MM:SS, an hour
    that is never [None] and is the number the first two digits spell, and a
    payout that is not negative when it is known; no payout of the returned
    signal table is negative. When it does not return, it raises
    [TypeError]. *)
Theorem X6_app_records {R : PyRuntime} {D : DateLib} (messages : list message) :
  match app.extract_records messages with
  | Ok (resolved, signals) =>
      Forall app_well_formed resolved
      /\ (forall k q, signals !! k = Some q -> (0 <= q)%Q)
  | Raise e => e = TypeError
  end.
Proof.
  unfold app.extract_records. destruct (existsb bad_text messages) eqn:Hb.
  - rewrite (app_run_bad messages Hb). reflexivity.
  - destruct (app_run_good messages Hb [] ∅) as (rs & signals' & -> & _ & Hinv).
    destruct (Hinv app_empty_nonneg) as [Hn Hwf]. split; [exact Hwf|exact Hn].
Qed.

(** ** gestao_risco: profits and the equity curve *)

Lemma fold_left_Qplus (l : list Q) : forall a, (fold_left Qplus l a == a + fold_left Qplus l 0)%Q.
Proof.
  induction l as [|x l IH]; intros a; simpl; [ring|].
  rewrite (IH (a + x)%Q), (IH (0 + x)%Q). ring.
Qed.

Lemma py_sum_cons x l : (py_sum (x :: l) == x + py_sum l)%Q.
Proof. unfold py_sum. simpl. rewrite fold_left_Qplus. ring. Qed.

Lemma py_sum_nonneg l : Forall (fun x => (0 <= x)%Q) l -> (0 <= py_sum l)%Q.
Proof.
  induction 1 as [|x l Hx _ IH]; [unfold py_sum; simpl; lra|].
  rewrite py_sum_cons. lra.
Qed.

Lemma py_sum_take_le l n :
  Forall (fun x => (0 <= x)%Q) l -> (py_sum (take n l) <= py_sum l)%Q.
Proof.
  intros H. revert n. induction H as [|x l Hx Hl IH]; intros n.
  - destruct n; apply Qle_refl.
  - destruct n as [|n]; simpl.
    + change (py_sum []) with 0%Q. apply py_sum_nonneg. constructor; assumption.
    + rewrite !py_sum_cons. specialize (IH n). lra.
Qed.

Lemma Forall_take_nonneg l n :
  Forall (fun x => (0 <= x)%Q) l -> Forall (fun x => (0 <= x)%Q) (take n l).
Proof. apply Forall_take. Qed.

Lemma last_running c profits : (List.last (c :: running c profits) 0 == c + py_sum profits)%Q.
Proof.
  revert c. induction profits as [|p profits IH]; intros c.
  - simpl. change (py_sum []) with 0%Q. ring.
  - change (List.last (c :: running c (p :: profits)) 0%Q)
      with (List.last ((c + p)%Q :: running (c + p)%Q profits) 0%Q).
    rewrite IH, py_sum_cons. ring.
Qed.

Lemma running_length c profits : length (running c profits) = length profits.
Proof. revert c. induction profits as [|p profits IH]; intros c; simpl; [|rewrite IH]; reflexivity. Qed.

(** each point of the curve is the point before it plus the profit of the
    record between them *)
Lemma running_step c profits (i : nat) p :
  profits !! i = Some p ->
  exists a, (c :: running c profits) !! i = Some a
    /\ (c :: running c profits) !! S i = Some (a + p)%Q.
Proof.
  revert c i. induction profits as [|x profits IH]; intros c i Hp; [discriminate|].
  destruct i as [|i].
  - injection Hp as <-. exists c. split; reflexivity.
  - simpl in Hp. destruct (IH (c + x)%Q i Hp) as (a & Ha & Hb).
    exists a. split; [exact Ha|exact Hb].
Qed.

(** ** gestao_risco: the profit of one record and the equity curve *)

Lemma simulate_from_running records stakes payout :
  forall equity current,
  gestao_risco.simulate_from equity current records stakes payout
  = (do profits <- mapM_pyres (profit_of stakes payout) records;
     Ok (equity ++ running current profits)).
Proof.
  induction records as [|r records IH]; intros equity current; simpl.
  - rewrite app_nil_r. reflexivity.
  - unfold profit_of at 1.
    destruct (gestao_risco.calculate_profit _ _ stakes payout) as [p|e]; simpl; [|reflexivity].
    rewrite IH. destruct (mapM_pyres _ records) as [ps|e]; simpl; [|reflexivity].
    rewrite <- app_assoc. reflexivity.
Qed.

(** X9. The equity curve is the running sum of the profits:
    [simulate_equity_curve] returns the capital followed by the balance after
    each record, and raises what the first failing [calculate_profit] raises;
    each point is the point before it plus the profit of the record between
    them, and the last point is the capital plus the sum of the profits. *)
Theorem X9_equity_running_sums (records : list gestao_risco.rec) (c : Q) (stakes : list Q)
    (payout : Q) :
  gestao_risco.simulate_equity_curve records c stakes payout
  = (do profits <- mapM_pyres (profit_of stakes payout) records;
     Ok (c :: running c profits))
  /\ (forall profits (i : nat) p,
        profits !! i = Some p ->
        exists a, (c :: running c profits) !! i = Some a
          /\ (c :: running c profits) !! S i = Some (a + p)%Q)
  /\ (forall profits, (List.last (c :: running c profits) 0 == c + py_sum profits)%Q).
Proof.
  split; [|split].
  - unfold gestao_risco.simulate_equity_curve. apply (simulate_from_running records stakes payout [c] c).
  - intros profits i p. apply running_step.
  - intros profits. apply last_running.
Qed.

(** X7. The two profit functions agree. On a record whose upper-cased
    result is WIN, LOSS or DOJI, [app.compute_profit_for_record] returns (or
    raises) what [gestao_risco.calculate_profit] does on that result, the
    record's gale level and the payout in force (the record's own when it is
    known and not zero, else the default). On any other result they differ:
    the first returns 0, the second books the loss of a LOSS. *)
Theorem X7_profit_functions_agree {R : PyRuntime} (r : app.rec) (stakes : list Q)
    (default_payout : Q) :
  let payout :=
    match app.payout r with
    | Some p => if Qeq_bool p 0 then default_payout else p
    | None => default_payout
    end in
  let result := py_upper (app.result r) in
  ((result = py "WIN" \/ result = py "LOSS" \/ result = py "DOJI") ->
   app.compute_profit_for_record r stakes default_payout
   = gestao_risco.calculate_profit result (app.gale_level r) stakes payout)
  /\ (result <> py "WIN" -> result <> py "LOSS" -> result <> py "DOJI" ->
      app.compute_profit_for_record r stakes default_payout = Ok 0%Q
      /\ gestao_risco.calculate_profit result (app.gale_level r) stakes payout
         = gestao_risco.calculate_profit (py "LOSS") (app.gale_level r) stakes payout).
Proof.
  intros payout result. unfold app.compute_profit_for_record, gestao_risco.calculate_profit.
  fold payout. fold result. split.
  - intros [-> | [-> | ->]]; reflexivity.
  - intros Hw Hl Hd.
    assert (Ew : pystr_eqb result (py "WIN") = false)
      by (destruct (pystr_eqb result (py "WIN")) eqn:E; [apply pystr_eqb_eq in E; contradiction|reflexivity]).
    assert (El : pystr_eqb result (py "LOSS") = false)
      by (destruct (pystr_eqb result (py "LOSS")) eqn:E; [apply pystr_eqb_eq in E; contradiction|reflexivity]).
    assert (Ed : pystr_eqb result (py "DOJI") = false)
      by (destruct (pystr_eqb result (py "DOJI")) eqn:E; [apply pystr_eqb_eq in E; contradiction|reflexivity]).
    rewrite Ew, El, Ed. split; reflexivity.
Qed.

(** X8. The loss of one record is bounded by the ladder. With a ladder of
    at least one stake, none negative, a payout that is not negative and a
    gale level that is not negative, [calculate_profit] returns a profit of at
    least minus the sum of the whole ladder; the profit is 0 on a DOJI and is
    never positive on anything but a WIN. *)
Theorem X8_profit_bounds (result : pystr) (g : Z) (stakes : list Q) (payout : Q) :
  stakes <> [] -> Forall (fun x => (0 <= x)%Q) stakes -> (0 <= payout)%Q -> (0 <= g)%Z ->
  exists q,
    gestao_risco.calculate_profit result g stakes payout = Ok q
    /\ (- py_sum stakes <= q)%Q
    /\ (result = py "DOJI" -> q = 0%Q)
    /\ (result <> py "WIN" -> (q <= 0)%Q).
Proof.
  intros Hs Hnn Hp Hg. unfold gestao_risco.calculate_profit.
  assert (Hlen : (0 < Z.of_nat (length stakes))%Z)
    by (destruct stakes; [contradiction|simpl; lia]).
  pose proof (py_sum_nonneg stakes Hnn) as Hsum.
  destruct (pystr_eqb result (py "DOJI")) eqn:Ed.
  { exists 0%Q. split; [reflexivity|]. split; [lra|]. split; [reflexivity|lra]. }
  set (level := Z.min g (Z.of_nat (length stakes) - 1)).
  assert (Hlevel : (0 <= level < Z.of_nat (length stakes))%Z) by (unfold level; lia).
  assert (Hdoji : result = py "DOJI" -> False)
    by (intros ->; rewrite pystr_eqb_refl in Ed; discriminate).
  destruct (pystr_eqb result (py "WIN")) eqn:Ew.
  - apply pystr_eqb_eq in Ew.
    destruct (py_index_in_range stakes level Hlevel) as (sL & HsL & Hlook).
    assert (HsL0 : (0 <= sL)%Q) by (exact (Forall_lookup_1 _ _ _ _ Hnn Hlook)).
    destruct (Z.eqb_spec level 0) as [E0|E0].
    + rewrite E0 in HsL. rewrite HsL. cbn [bind]. eexists. split; [reflexivity|].
      split; [nra|]. split; [intros E; exfalso; auto|intros E; contradiction].
    + rewrite HsL. cbn [bind]. rewrite py_slice_to_take by lia.
      pose proof (py_sum_take_le stakes (Z.to_nat level) Hnn) as Ht.
      eexists. split; [reflexivity|].
      split; [nra|]. split; [intros E; exfalso; auto|intros E; contradiction].
  - rewrite py_slice_to_take by lia.
    pose proof (py_sum_take_le stakes (Z.to_nat (level + 1)) Hnn) as Ht.
    pose proof (py_sum_nonneg _ (Forall_take_nonneg stakes (Z.to_nat (level + 1)) Hnn)) as Ht0.
    eexists. split; [reflexivity|].
    split; [lra|]. split; [intros E; exfalso; auto|intros _; lra].
Qed.

(** X8 on a LOSS at gale 2, with the default ladder and payout *)
Lemma X8_witness :
  exists q,
    gestao_risco.calculate_profit (py "LOSS") 2 gestao_risco.stakes_c1 gestao_risco.payout_minimo
    = Ok q
    /\ (- py_sum gestao_risco.stakes_c1 <= q)%Q /\ (q <= 0)%Q.
Proof.
  destruct (X8_profit_bounds (py "LOSS") 2 gestao_risco.stakes_c1 gestao_risco.payout_minimo)
    as (q & Hq & Hlow & _ & Hneg).
  - discriminate.
  - repeat constructor; discriminate.
  - discriminate.
  - lia.
  - exists q. split; [exact Hq|]. split; [exact Hlow|]. apply Hneg. discriminate.
Defined.

(** ** An empty ladder *)

Lemma calculate_profit_empty result g payout :
  gestao_risco.calculate_profit result g [] payout
  = if pystr_eqb result (py "DOJI") then Ok 0%Q
    else if pystr_eqb result (py "WIN") then Raise IndexError
    else Ok (- py_sum [])%Q.
Proof.
  unfold gestao_risco.calculate_profit.
  destruct (pystr_eqb result (py "DOJI")); [reflexivity|].
  set (level := Z.min g (Z.of_nat (length (@nil Q)) - 1)).
  assert (Hlevel : (level <= -1)%Z) by (unfold level; simpl; lia).
  destruct (pystr_eqb result (py "WIN")).
  - destruct (Z.eqb_spec level 0); [lia|].
    unfold py_index. simpl length.
    destruct (level <? 0)%Z; destruct (_ && _) eqn:E; try reflexivity;
      apply andb_true_iff in E as [E1 E2]; apply Z.leb_le in E1; apply Z.ltb_lt in E2; lia.
  - unfold py_slice_to. rewrite take_nil. reflexivity.
Qed.

Lemma profits_empty_ladder payout records :
  (Exists (fun r => gestao_risco.result r = py "WIN") records ->
   mapM_pyres (profit_of [] payout) records = Raise IndexError)
  /\ (Forall (fun r => gestao_risco.result r <> py "WIN") records ->
      exists profits, mapM_pyres (profit_of [] payout) records = Ok profits
        /\ length profits = length records /\ Forall (fun p => (p == 0)%Q) profits).
Proof.
  induction records as [|r records [IH1 IH2]]; simpl.
  - split; [intros H; inversion H|]. intros _. exists []. repeat split. constructor.
  - unfold profit_of at 1 3. rewrite calculate_profit_empty.
    destruct (pystr_eqb (gestao_risco.result r) (py "WIN")) eqn:Ew.
    + apply pystr_eqb_eq in Ew. rewrite Ew. simpl. split; [reflexivity|].
      intros H. inversion H. contradiction.
    + assert (Hw : gestao_risco.result r <> py "WIN")
        by (intros E; rewrite E, pystr_eqb_refl in Ew; discriminate).
      assert (Hp : exists p, (if pystr_eqb (gestao_risco.result r) (py "DOJI") then Ok 0%Q
                              else Ok (- py_sum [])%Q) = Ok p /\ (p == 0)%Q).
      { destruct (pystr_eqb _ (py "DOJI")); eexists; split; reflexivity. }
      destruct Hp as (p & -> & Hp0). cbn [bind]. split.
      * intros H. inversion H as [? ? Hr|? ? Hr]; subst; [contradiction|].
        rewrite (IH1 Hr). reflexivity.
      * intros H. inversion H as [|? ? _ Hr]; subst.
        destruct (IH2 Hr) as (profits & -> & Hlen & Hall). cbn [bind].
        exists (p :: profits). split; [reflexivity|]. split; [simpl; congruence|].
        constructor; assumption.
Qed.

Lemma running_zero c profits :
  Forall (fun p => (p == 0)%Q) profits -> Forall (fun b => (b == c)%Q) (running c profits).
Proof.
  intros H. assert (Hc : forall c', (c' == c)%Q -> Forall (fun b => (b == c)%Q) (running c' profits)).
  { induction H as [|p profits Hp _ IH]; intros c' Hc'; simpl; constructor.
    - rewrite Hp, Hc'. ring.
    - apply IH. rewrite Hp, Hc'. ring. }
  apply Hc. reflexivity.
Qed.

(** X10. On an empty ladder, [simulate_equity_curve] raises [IndexError] as
    soon as one record is a WIN; without a WIN it returns a flat curve, every
    point equal to the capital. *)
Theorem X10_empty_ladder (records : list gestao_risco.rec) (c payout : Q) :
  (Exists (fun r => gestao_risco.result r = py "WIN") records ->
   gestao_risco.simulate_equity_curve records c [] payout = Raise IndexError)
  /\ (Forall (fun r => gestao_risco.result r <> py "WIN") records ->
      exists equity,
        gestao_risco.simulate_equity_curve records c [] payout = Ok equity
        /\ length equity = S (length records)
        /\ Forall (fun b => (b == c)%Q) equity).
Proof.
  unfold gestao_risco.simulate_equity_curve. rewrite simulate_from_running.
  destruct (profits_empty_ladder payout records) as [H1 H2]. split.
  - intros H. rewrite (H1 H). reflexivity.
  - intros H. destruct (H2 H) as (profits & -> & Hlen & Hall). cbn [bind].
    eexists. split; [reflexivity|]. split.
    + simpl. rewrite running_length, Hlen. reflexivity.
    + constructor; [reflexivity|]. apply running_zero. exact Hall.
Qed.

(** ** gestao_risco: the drawdown pass *)

Lemma drawdown_step_invariant c seen st b :
  drawdown_invariant c seen st ->
  drawdown_invariant c (seen ++ [b]) (gestao_risco.drawdown_step st b).
Proof.
  intros (Hpeak & Hmin & Hseen & Hdd & Hpct & Hpct100).
  unfold gestao_risco.drawdown_step.
  set (peak' := if Qltb (gestao_risco.peak st) b then b else gestao_risco.peak st).
  set (min' := if Qltb b (gestao_risco.min_balance st) then b else gestao_risco.min_balance st).
  assert (Hp' : (gestao_risco.peak st <= peak' /\ b <= peak'
                 /\ (peak' == b \/ peak' == gestao_risco.peak st))%Q).
  { unfold peak'. destruct (Qltb (gestao_risco.peak st) b) eqn:E.
    - apply Qltb_lt in E. split; [lra|]. split; [lra|]. left. reflexivity.
    - assert (~ (gestao_risco.peak st < b)%Q) by (rewrite <- Qltb_lt; congruence).
      split; [lra|]. split; [lra|]. right. reflexivity. }
  assert (Hm' : (min' <= gestao_risco.min_balance st /\ min' <= b)%Q).
  { unfold min'. destruct (Qltb b (gestao_risco.min_balance st)) eqn:E.
    - apply Qltb_lt in E. split; lra.
    - assert (~ (b < gestao_risco.min_balance st)%Q) by (rewrite <- Qltb_lt; congruence).
      split; lra. }
  destruct Hp' as (Hp1 & Hp2 & Hp3). destruct Hm' as (Hm1 & Hm2).
  set (dd := (peak' - b)%Q).
  set (dd_pct := if Qltb 0 peak' then (dd / peak' * 100)%Q else 0%Q).
  assert (Hdd0 : (0 <= dd)%Q) by (unfold dd; lra).
  assert (Hdp : (0 <= dd_pct)%Q /\ ((0 <= b)%Q -> (dd_pct <= 100)%Q)).
  { unfold dd_pct. destruct (Qltb 0 peak') eqn:E; [|split; [lra|intros _; lra]].
    apply Qltb_lt in E. split.
    - assert (0 <= dd / peak')%Q; [|lra].
      apply Qle_shift_div_l; [exact E|]. lra.
    - intros Hb. assert (dd / peak' <= 1)%Q; [|lra].
      apply Qle_shift_div_r; [exact E|]. unfold dd. lra. }
  destruct Hdp as [Hdp0 Hdp100].
  destruct (Qltb (gestao_risco.max_dd st) dd) eqn:E;
    unfold drawdown_invariant; cbn [gestao_risco.peak gestao_risco.min_balance
      gestao_risco.max_dd gestao_risco.max_dd_pct]; fold peak' min'.
  - apply Qltb_lt in E. repeat split; try lra.
    + apply Forall_app. split; [|repeat constructor; lra].
      eapply Forall_impl; [exact Hseen|]. intros x Hx. simpl in Hx. lra.
    + unfold dd. lra.
    + intros Hall. apply Forall_app in Hall as [_ Hb]. inversion Hb. auto.
  - repeat split; try lra.
    + apply Forall_app. split; [|repeat constructor; lra].
      eapply Forall_impl; [exact Hseen|]. intros x Hx. simpl in Hx. lra.
    + intros Hall. apply Forall_app in Hall as [Hall _]. auto.
Qed.

Lemma drawdown_fold c equity : forall seen st,
  drawdown_invariant c seen st ->
  drawdown_invariant c (seen ++ equity) (fold_left gestao_risco.drawdown_step equity st).
Proof.
  induction equity as [|b equity IH]; intros seen st H; simpl.
  - rewrite app_nil_r. exact H.
  - replace (seen ++ b :: equity) with ((seen ++ [b]) ++ equity)
      by (rewrite <- app_assoc; reflexivity).
    apply IH, drawdown_step_invariant, H.
Qed.

(** X11. The drawdown pass of [render_from_json] brackets the curve: the
    final peak is at least the initial capital and the final minimum balance
    at most it, every balance of the curve lies between the two, the maximum
    drawdown is between 0 and peak - minimum, and the percentage kept with it
    is not negative, and at most 100 when no balance is negative. *)
Theorem X11_drawdown_bounds (c : Q) (equity : list Q) :
  let st := gestao_risco.drawdown c equity in
  (c <= gestao_risco.peak st)%Q
  /\ (gestao_risco.min_balance st <= c)%Q
  /\ Forall (fun b => (gestao_risco.min_balance st <= b <= gestao_risco.peak st)%Q) equity
  /\ (0 <= gestao_risco.max_dd st <= gestao_risco.peak st - gestao_risco.min_balance st)%Q
  /\ (0 <= gestao_risco.max_dd_pct st)%Q
  /\ (Forall (fun b => (0 <= b)%Q) equity -> (gestao_risco.max_dd_pct st <= 100)%Q).
Proof.
  intros st. subst st. unfold gestao_risco.drawdown.
  apply (drawdown_fold c equity []).
  unfold drawdown_invariant. simpl. repeat split; try lra. constructor.
Qed.

(** ** gestao_risco: what the page reports *)

Lemma profits_total records stakes payout :
  stakes <> [] -> Forall (fun r => (0 <= gestao_risco.gale_level r)%Z) records ->
  exists profits,
    mapM_pyres (profit_of stakes payout) records = Ok profits
    /\ length profits = length records.
Proof.
  intros Hs. induction 1 as [|r records Hr _ (profits & IH & Hlen)]; simpl; [eauto|].
  unfold profit_of at 1.
  destruct (calculate_profit_ok (gestao_risco.result r) _ stakes payout Hs Hr) as [q ->].
  cbn [bind]. rewrite IH. cbn [bind]. exists (q :: profits). split; [reflexivity|simpl; congruence].
Qed.

Lemma unit_powers (x : Q) :
  (0 <= x <= 1)%Q ->
  (0 <= x ^ 5 * 100 /\ x ^ 5 * 100 <= x ^ 4 * 100 /\ x ^ 4 * 100 <= x ^ 3 * 100
   /\ x ^ 3 * 100 <= x ^ 2 * 100 /\ x ^ 2 * 100 <= 100)%Q.
Proof.
  intros Hx. simpl.
  assert (H2 : (0 <= x * x <= x)%Q) by nra.
  assert (H3 : (0 <= x * (x * x) <= x * x)%Q) by nra.
  assert (H4 : (0 <= x * x * (x * x) <= x * (x * x))%Q) by nra.
  assert (H5 : (0 <= x * (x * x * (x * x)) <= x * x * (x * x))%Q) by nra.
  repeat split; lra.
Qed.

(** X12. The computations of [gestao_risco.render_from_json] never raise.
    They take the early return exactly when the extraction yields no record;
    otherwise the win rate is between 0 and 1 and adds up to 1 with the loss
    rate, the probabilities of 2, 3, 4 and 5 losses in a row are between 0 and
    100 and do not increase with the length of the streak, the curve has one
    point per record after the capital, the final balance is the capital plus
    the mean profit times the number of records, and the realistic projection
    is (final balance - capital) / 30 * 22. *)
Theorem X12_risk_page_total {R : PyRuntime} (messages : list message) :
  let records := gestao_risco._extract_records messages in
  (records = [] -> gestao_risco.render_from_json messages = Ok None)
  /\ (records <> [] ->
      exists m,
        gestao_risco.render_from_json messages = Ok (Some m)
        /\ gestao_risco.total_ops m = Z.of_nat (length records)
        /\ (0 <= gestao_risco.win_rate m <= 1)%Q
        /\ (gestao_risco.win_rate m + gestao_risco.loss_rate m == 1)%Q
        /\ (0 <= gestao_risco.prob_5_loss m)%Q
        /\ (gestao_risco.prob_5_loss m <= gestao_risco.prob_4_loss m)%Q
        /\ (gestao_risco.prob_4_loss m <= gestao_risco.prob_3_loss m)%Q
        /\ (gestao_risco.prob_3_loss m <= gestao_risco.prob_2_loss m)%Q
        /\ (gestao_risco.prob_2_loss m <= 100)%Q
        /\ length (gestao_risco.equity_curve m) = S (length records)
        /\ (gestao_risco.final_balance m
            == gestao_risco.capital_inicial
               + gestao_risco.lucro_medio m * inject_Z (gestao_risco.total_ops m))%Q
        /\ (gestao_risco.proj_realista m
            == (gestao_risco.final_balance m - gestao_risco.capital_inicial) / 30 * 22)%Q).
Proof.
  intros records. unfold gestao_risco.render_from_json. fold records.
  pose proof (gestao_levels messages) as Hlev. fold records in Hlev.
  clearbody records. split; [intros ->; reflexivity|]. intros Hne.
  unfold gestao_risco.render_records.
  destruct records as [|r0 records0] eqn:Hrec; [contradiction|]. rewrite <- Hrec in *.
  assert (Hlev0 : Forall (fun r => (0 <= gestao_risco.gale_level r)%Z) records)
    by (eapply Forall_impl; [exact Hlev|]; intros r Hr; simpl in Hr; lia).
  destruct (profits_total records gestao_risco.stakes_c1 gestao_risco.payout_minimo)
    as (profits & Hprof & Hlen); [discriminate|exact Hlev0|].
  unfold gestao_risco.simulate_equity_curve. rewrite simulate_from_running, Hprof.
  cbn [bind]. fold (profit_of gestao_risco.stakes_c1 gestao_risco.payout_minimo).
  rewrite Hprof. cbn [bind].
  set (w := count (fun r => pystr_eqb (gestao_risco.result r) (py "WIN")) records).
  set (l := count (fun r => pystr_eqb (gestao_risco.result r) (py "LOSS")) records).
  assert (Hw : (0 <= w)%Z) by apply count_nonneg.
  assert (Hl : (0 <= l)%Z) by apply count_nonneg.
  set (wr := if (0 <? w + l)%Z then (inject_Z w / inject_Z (w + l))%Q else 0%Q).
  assert (Hwr : (0 <= wr <= 1)%Q).
  { unfold wr. destruct (Z.ltb_spec 0 (w + l)); [|lra].
    pose proof (inject_Z_pos _ H) as Hpos. split.
    - apply Qle_shift_div_l; [exact Hpos|]. rewrite Qmult_0_l. apply inject_Z_nonneg, Hw.
    - apply Qle_shift_div_r; [exact Hpos|]. rewrite Qmult_1_l, <- Zle_Qle. lia. }
  eexists. split; [reflexivity|].
  cbn [gestao_risco.total_ops gestao_risco.win_rate gestao_risco.loss_rate
       gestao_risco.prob_2_loss gestao_risco.prob_3_loss gestao_risco.prob_4_loss
       gestao_risco.prob_5_loss gestao_risco.equity_curve gestao_risco.final_balance
       gestao_risco.lucro_medio gestao_risco.proj_realista].
  fold wr.
  destruct (unit_powers (1 - wr)%Q) as (P5 & P54 & P43 & P32 & P2); [lra|].
  split; [reflexivity|]. split; [exact Hwr|]. split; [ring|].
  split; [exact P5|]. split; [exact P54|]. split; [exact P43|]. split; [exact P32|].
  split; [exact P2|].
  split; [simpl; rewrite running_length, Hlen; reflexivity|].
  assert (Hn : (0 < inject_Z (Z.of_nat (length records)))%Q).
  { apply inject_Z_pos. rewrite Hrec. simpl. lia. }
  change ([gestao_risco.capital_inicial] ++ running gestao_risco.capital_inicial profits)
    with (gestao_risco.capital_inicial :: running gestao_risco.capital_inicial profits).
  rewrite last_running, Hlen. split.
  - field. lra.
  - field.
Qed.

(** ** analise_gales: the figures of the page *)

(** ** Counting *)

Lemma count_length_filter {A} (P : A -> bool) (l : list A) :
  Z.of_nat (length (List.filter P l)) = count P l.
Proof. reflexivity. Qed.

Lemma count_disjoint {A} (P Q : A -> bool) (l : list A) :
  (forall a, P a = true -> Q a = false) ->
  (count P l + count Q l <= Z.of_nat (length l))%Z.
Proof.
  intros H. induction l as [|a l IH]; [unfold count; simpl; lia|].
  rewrite !count_cons. simpl length.
  destruct (P a) eqn:E; [rewrite (H a E)|destruct (Q a)]; lia.
Qed.

Lemma count_filter_and {A} (P Q : A -> bool) (l : list A) :
  count P (List.filter Q l) = count (fun a => Q a && P a) l.
Proof.
  induction l as [|a l IH]; [reflexivity|].
  simpl. rewrite (count_cons (fun a => Q a && P a)).
  destruct (Q a) eqn:E; simpl; [rewrite count_cons|]; rewrite IH; reflexivity.
Qed.

Lemma count_le {A} (P Q : A -> bool) (l : list A) :
  (forall a, P a = true -> Q a = true) -> (count P l <= count Q l)%Z.
Proof.
  intros H. induction l as [|a l IH]; [unfold count; simpl; lia|].
  rewrite !count_cons. destruct (P a) eqn:E; [rewrite (H a E)|destruct (Q a)]; lia.
Qed.

(** three classes that exclude each other, and the rest *)
Lemma count_three_classes {A} (P0 P1 P2 : A -> bool) (l : list A) :
  (forall a, P0 a = true -> P1 a = false /\ P2 a = false) ->
  (forall a, P1 a = true -> P2 a = false) ->
  (count P0 l + count P1 l + count P2 l
   + count (fun a => negb (P0 a || P1 a || P2 a)) l = Z.of_nat (length l))%Z.
Proof.
  intros H0 H1. induction l as [|a l IH]; [reflexivity|].
  rewrite !count_cons. simpl length.
  destruct (P0 a) eqn:E0.
  - destruct (H0 a E0) as [-> ->]. simpl. lia.
  - destruct (P1 a) eqn:E1.
    + rewrite (H1 a E1). simpl. lia.
    + destruct (P2 a); simpl; lia.
Qed.

Lemma count_zero_iff {A} (P : A -> bool) (l : list A) :
  count P l = 0%Z <-> Forall (fun a => P a = false) l.
Proof.
  split; [|apply count_none].
  induction l as [|a l IH]; [constructor|].
  rewrite count_cons. pose proof (count_nonneg P l).
  destruct (P a) eqn:E; [lia|]. intros H0. constructor; [exact E|]. apply IH. lia.
Qed.

(** ** Rates *)

Lemma rate_sum3 (a b c n : Z) :
  (analise_gales.rate a n + analise_gales.rate b n + analise_gales.rate c n
   == analise_gales.rate (a + b + c) n)%Q.
Proof.
  unfold analise_gales.rate. destruct (Z.ltb_spec 0 n); [|ring].
  rewrite !inject_Z_plus. field. pose proof (inject_Z_pos n H). lra.
Qed.

Lemma rate_full (a n : Z) :
  (0 < n)%Z -> ((analise_gales.rate a n == 100)%Q <-> a = n).
Proof.
  intros Hn. unfold analise_gales.rate. destruct (Z.ltb_spec 0 n); [|lia].
  pose proof (inject_Z_pos n Hn) as Hpos. split.
  - intros E. assert (E1 : (inject_Z a / inject_Z n == 1)%Q) by lra.
    assert (E2 : (inject_Z a == inject_Z n)%Q).
    { rewrite <- (Qmult_1_l (inject_Z n)), <- E1. field. lra. }
    apply inject_Z_injective. exact E2.
  - intros ->. field. lra.
Qed.

Lemma rate_mono_den (a b c : Z) :
  (0 <= a)%Z -> (a <= b)%Z -> (b <= c)%Z ->
  (analise_gales.rate a c <= analise_gales.rate a b)%Q.
Proof.
  intros Ha Hab Hbc. unfold analise_gales.rate.
  destruct (Z.ltb_spec 0 b) as [Hb|Hb].
  - destruct (Z.ltb_spec 0 c) as [Hc|Hc]; [|lia].
    apply (proj2 (inject_Z_div_le _ _ _ _ Hc Hb)). nia.
  - assert (a = 0%Z) as -> by lia.
    destruct (Z.ltb_spec 0 c); [|lra].
    assert (E : (inject_Z 0 / inject_Z c * 100 == 0)%Q); [|lra].
    change (inject_Z 0) with 0%Q. field. pose proof (inject_Z_pos c H). lra.
Qed.

Lemma win_loss_disjoint_gales r :
  analise_gales.is_result "WIN" r = true -> analise_gales.is_result "LOSS" r = false.
Proof.
  unfold analise_gales.is_result. intros H. apply pystr_eqb_eq in H. rewrite H. reflexivity.
Qed.

(** X13. The figures of [analise_gales.render_from_json]. Without a record
    the page returns early; with records, each of its ten percentages is
    between 0 and 100, the recovery rate of a gale level (wins over all its
    records) is at most the win rate of that level (wins over wins and
    losses), and the shares of levels 0, 1 and 2 add up to at most 100, to
    exactly 100 when and only when no record has another level. *)
Theorem X13_gale_page_rates (df : list analise_gales.rec) :
  match analise_gales.render_records df with
  | None => df = []
  | Some m =>
      df <> []
      /\ Forall (fun x => (0 <= x <= 100)%Q)
           [analise_gales.pct_g0 m; analise_gales.pct_g1 m; analise_gales.pct_g2 m;
            analise_gales.wr_g0 m; analise_gales.wr_g1 m; analise_gales.wr_g2 m;
            analise_gales.wr_com_g1 m; analise_gales.wr_com_g1_g2 m;
            analise_gales.taxa_recup_g1 m; analise_gales.taxa_recup_g2 m]
      /\ (analise_gales.taxa_recup_g1 m <= analise_gales.wr_g1 m)%Q
      /\ (analise_gales.taxa_recup_g2 m <= analise_gales.wr_g2 m)%Q
      /\ (analise_gales.pct_g0 m + analise_gales.pct_g1 m + analise_gales.pct_g2 m <= 100)%Q
      /\ ((analise_gales.pct_g0 m + analise_gales.pct_g1 m + analise_gales.pct_g2 m == 100)%Q
          <-> Forall (fun r => (0 <= analise_gales.gale_level r <= 2)%Z) df)
  end.
Proof.
  unfold analise_gales.render_records.
  destruct df as [|r0 df0] eqn:Hdf; [reflexivity|]. rewrite <- Hdf.
  assert (Hne : df <> []) by (rewrite Hdf; discriminate).
  assert (Hn : (0 < Z.of_nat (length df))%Z) by (rewrite Hdf; simpl; lia).
  clear Hdf r0 df0.
  cbn [analise_gales.pct_g0 analise_gales.pct_g1 analise_gales.pct_g2 analise_gales.wr_g0
       analise_gales.wr_g1 analise_gales.wr_g2 analise_gales.wr_com_g1
       analise_gales.wr_com_g1_g2 analise_gales.taxa_recup_g1 analise_gales.taxa_recup_g2].
  rewrite !count_length_filter.
  set (at0 := fun r => (analise_gales.gale_level r =? 0)%Z).
  set (at1 := fun r => (analise_gales.gale_level r =? 1)%Z).
  set (at2 := fun r => (analise_gales.gale_level r =? 2)%Z).
  set (upto1 := fun r => (analise_gales.gale_level r <=? 1)%Z).
  assert (Hwl : forall l, (0 <= count (analise_gales.is_result "WIN") l
                           <= count (analise_gales.is_result "WIN") l
                              + count (analise_gales.is_result "LOSS") l)%Z).
  { intros l. pose proof (count_nonneg (analise_gales.is_result "WIN") l).
    pose proof (count_nonneg (analise_gales.is_result "LOSS") l). lia. }
  assert (Hwt : forall P, (count (analise_gales.is_result "WIN") (List.filter P df)
                           + count (analise_gales.is_result "LOSS") (List.filter P df)
                           <= count P df)%Z).
  { intros P. rewrite <- (count_length_filter P df).
    apply count_disjoint, win_loss_disjoint_gales. }
  pose proof (count_three_classes at0 at1 at2 df) as H3.
  assert (Hrest := count_nonneg (fun a => negb (at0 a || at1 a || at2 a)) df).
  assert (H012 : (count at0 df + count at1 df + count at2 df
                  + count (fun a => negb (at0 a || at1 a || at2 a)) df
                  = Z.of_nat (length df))%Z).
  { apply H3; unfold at0, at1, at2; intros a Ha; apply Z.eqb_eq in Ha; rewrite Ha; auto. }
  clear H3.
  pose proof (count_nonneg at0 df). pose proof (count_nonneg at1 df).
  pose proof (count_nonneg at2 df).
  split; [exact Hne|]. split; [|split; [|split; [|split]]].
  - repeat constructor; try (apply rate_bounds; try apply Hwl; lia).
    + apply rate_bounds. split; [apply Hwl|]. specialize (Hwt at1). specialize (Hwl (List.filter at1 df)). lia.
    + apply rate_bounds. split; [apply Hwl|]. specialize (Hwt at1). specialize (Hwl (List.filter at1 df)). lia.
    + apply rate_bounds. split; [apply Hwl|]. specialize (Hwt at2). specialize (Hwl (List.filter at2 df)). lia.
    + apply rate_bounds. split; [apply Hwl|]. specialize (Hwt at2). specialize (Hwl (List.filter at2 df)). lia.
  - apply rate_mono_den; [apply Hwl|apply Hwl|apply Hwt].
  - apply rate_mono_den; [apply Hwl|apply Hwl|apply Hwt].
  - rewrite rate_sum3. apply rate_bounds. lia.
  - rewrite rate_sum3, (rate_full _ _ Hn). split.
    + intros E. assert (E0 : count (fun a => negb (at0 a || at1 a || at2 a)) df = 0%Z) by lia.
      apply count_zero_iff in E0. eapply Forall_impl; [exact E0|].
      intros r Hr. simpl in Hr. apply negb_false_iff in Hr. unfold at0, at1, at2 in Hr.
      repeat match type of Hr with
      | (_ || _) = true => apply orb_true_iff in Hr as [Hr|Hr]
      end; apply Z.eqb_eq in Hr; lia.
    + intros Hall.
      assert (E0 : count (fun a => negb (at0 a || at1 a || at2 a)) df = 0%Z); [|lia].
      apply count_zero_iff. eapply Forall_impl; [exact Hall|].
      intros r Hr. simpl in Hr. apply negb_false_iff. unfold at0, at1, at2.
      destruct (Z.eqb_spec (analise_gales.gale_level r) 0);
      destruct (Z.eqb_spec (analise_gales.gale_level r) 1);
      destruct (Z.eqb_spec (analise_gales.gale_level r) 2); try reflexivity; lia.
Qed.

(** ** Rounding *)


Lemma round_half_even_upper (q : Q) (b : Z) : (q <= inject_Z b)%Q -> (round_half_even q <= b)%Z.
Proof.
  intros H. apply (round_half_even_bounds q (Qfloor q) b). split; [apply Qfloor_le|exact H].
Qed.

Lemma round_half_even_lower (q : Q) (a : Z) : (inject_Z a <= q)%Q -> (a <= round_half_even q)%Z.
Proof.
  intros H. apply (round_half_even_bounds q a (Qfloor q + 1)). split; [exact H|].
  apply Qlt_le_weak, Qlt_floor.
Qed.



(** a rounded percentage is at least an integer bound exactly when the
    rounding of a hundred times it is at least a hundred times the bound *)
Lemma round2_ge (q : Q) (t : Z) :
  (inject_Z t <= round2 q)%Q <-> (t * 100 <= round_half_even (q * 100))%Z.
Proof.
  unfold round2. rewrite Zle_Qle, inject_Z_mult. change (inject_Z 100) with 100%Q.
  set (r := inject_Z (round_half_even (q * 100))). split; intros H.
  - assert (E : (r / 100 * 100 == r)%Q) by field. lra.
  - apply Qle_shift_div_l; [reflexivity|]. exact H.
Qed.

Lemma round2_le (q : Q) (t : Z) :
  (round2 q <= inject_Z t)%Q <-> (round_half_even (q * 100) <= t * 100)%Z.
Proof.
  unfold round2. rewrite Zle_Qle, inject_Z_mult. change (inject_Z 100) with 100%Q.
  set (r := inject_Z (round_half_even (q * 100))). split; intros H.
  - assert (E : (r / 100 * 100 == r)%Q) by field. lra.
  - apply Qle_shift_div_r; [reflexivity|]. exact H.
Qed.

(** ** validacao_horarios: the rows of the hours *)



(** ** performance_paridades: the tier of an instrument *)

Lemma win_loss_disjoint_paridades r :
  performance_paridades.is_result "WIN" r = true ->
  performance_paridades.is_result "LOSS" r = false.
Proof.
  unfold performance_paridades.is_result. intros H. apply pystr_eqb_eq in H. rewrite H.
  reflexivity.
Qed.

Lemma paridades_volatility_bounds (w l : Z) :
  (0 <= w)%Z -> (0 <= l)%Z ->
  (0 <= performance_paridades._calculate_volatility w l <= 100)%Q.
Proof.
  intros Hw Hl. unfold performance_paridades._calculate_volatility.
  destruct (Z.eqb_spec (w + l) 0); [lra|]. apply percentage_bounds; lia.
Qed.

(** with wins and losses in the proportions w : l, a rounded win rate of at
    least t leaves a rounded loss rate of at most 101 - t *)
Lemma complement_rounded (w l t : Z) :
  (0 <= w)%Z -> (0 <= l)%Z ->
  (inject_Z t <= round2 (pct_fillna w (w + l)))%Q ->
  (round2 (performance_paridades._calculate_volatility w l) <= inject_Z (101 - t))%Q.
Proof.
  intros Hw Hl Ht. apply round2_ge in Ht. apply round2_le.
  unfold pct_fillna in Ht. unfold performance_paridades._calculate_volatility.
  destruct (Z.eqb_spec (w + l) 0) as [E0|E0].
  - change (round_half_even (0 * 100)) with 0%Z in *. lia.
  - assert (Hpos : (0 < inject_Z (w + l))%Q) by (apply inject_Z_pos; lia).
    set (x := (inject_Z w / inject_Z (w + l) * 100 * 100)%Q) in *.
    assert (Hx : (inject_Z (t * 100) + -1 <= x)%Q).
    { destruct (Qlt_le_dec x (inject_Z (t * 100 + -1))) as [Hlt|Hge].
      - apply Qlt_le_weak, round_half_even_upper in Hlt. lia.
      - rewrite inject_Z_plus in Hge. exact Hge. }
    apply round_half_even_upper.
    assert (E : (inject_Z l / inject_Z (w + l) * 100 * 100 == 10000 - x)%Q).
    { unfold x. rewrite inject_Z_plus. rewrite inject_Z_plus in Hpos. field. lra. }
    rewrite E. replace ((101 - t) * 100)%Z with (10100 + - (t * 100))%Z by lia.
    rewrite inject_Z_plus, inject_Z_opp. change (inject_Z 10100) with 10100%Q. lra.
Qed.

(** X16. In [performance_paridades], the tier of an instrument with at least
    5 records is decided by its win rate alone: EXCELENTE from 90, BOM from 85,
    OK from 80, REGULAR from 75, else PERIGOSO. The volatility ceilings of
    [_classify_pair] (15, 18, 25) never bind on a row of [pair_analysis],
    because the volatility of a row is the complement of its win rate. Below 5
    records the tier is SEM_DADOS; every instrument that a record names has a
    row, and the four percentages of a row are between 0 and 100. *)
Theorem X16_tier_by_win_rate (records : list performance_paridades.rec) (p : pystr) :
  match performance_paridades.pair_analysis records !! p with
  | None => Forall (fun r => performance_paridades.pair r <> p) records
  | Some row =>
      Forall (fun x => (0 <= x <= 100)%Q)
        [performance_paridades.Win_Rate_Pct row; performance_paridades.Volatilidade_Pct row;
         performance_paridades.Pct_Gale1 row; performance_paridades.Pct_Gale2 row]
      /\ ((performance_paridades.Total_Operacoes row < 5)%Z ->
          performance_paridades.Classificacao row = performance_paridades.SEM_DADOS)
      /\ ((5 <= performance_paridades.Total_Operacoes row)%Z ->
          performance_paridades.Classificacao row
          = tier_of_win_rate (performance_paridades.Win_Rate_Pct row))
  end.
Proof.
  unfold performance_paridades.pair_analysis. rewrite lookup_fmap, groupby_lookup.
  destruct (rows_of _ p records) as [|r g] eqn:E.
  - simpl. unfold rows_of in E. apply Forall_forall. intros r Hr Hp.
    assert (Hin : In r (List.filter
                          (fun a => bool_decide (Some (performance_paridades.pair a) = Some p))
                          records)).
    { apply filter_In. split; [apply list_elem_of_In; exact Hr|].
      apply bool_decide_eq_true. congruence. }
    rewrite E in Hin. destruct Hin.
  - rewrite <- E. clear E r g. set (group := rows_of _ p records).
    cbn [fmap option_fmap option_map]. unfold performance_paridades.row_of.
    cbn [performance_paridades.Total_Operacoes performance_paridades.Classificacao
         performance_paridades.Win_Rate_Pct performance_paridades.Volatilidade_Pct
         performance_paridades.Pct_Gale1 performance_paridades.Pct_Gale2].
    set (w := count (performance_paridades.is_result "WIN") group).
    set (l := count (performance_paridades.is_result "LOSS") group).
    assert (Hw : (0 <= w)%Z) by apply count_nonneg.
    assert (Hl : (0 <= l)%Z) by apply count_nonneg.
    split.
    { assert (Hg : forall P : performance_paridades.rec -> bool,
                (0 <= count P group <= Z.of_nat (length group))%Z)
        by (intros P; split; [apply count_nonneg|apply count_le_length]).
      constructor; [apply round2_bounds, pct_fillna_bounds; lia|].
      constructor; [apply round2_bounds, paridades_volatility_bounds; assumption|].
      constructor; [apply round2_bounds, pct_fillna_bounds, Hg|].
      constructor; [apply round2_bounds, pct_fillna_bounds, Hg|constructor]. }
    unfold performance_paridades._classify_pair, tier_of_win_rate. split; intros Hn.
    + destruct (Z.ltb_spec (Z.of_nat (length group)) 5); [reflexivity|lia].
    + destruct (Z.ltb_spec (Z.of_nat (length group)) 5); [lia|].
      assert (Hvol : forall t : Z,
        Qleb (inject_Z t) (round2 (pct_fillna w (w + l))) = true ->
        (round2 (performance_paridades._calculate_volatility w l) <= inject_Z (101 - t))%Q).
      { intros t Ht. apply Qleb_le in Ht. apply complement_rounded; assumption. }
      destruct (Qleb 90 (round2 (pct_fillna w (w + l)))) eqn:E90.
      { pose proof (Hvol 90%Z E90) as Hv. change (inject_Z (101 - 90)) with 11%Q in Hv.
        assert (Qleb (round2 (performance_paridades._calculate_volatility w l)) 15 = true) as ->
          by (apply Qleb_le; lra).
        reflexivity. }
      simpl. destruct (Qleb 85 (round2 (pct_fillna w (w + l)))) eqn:E85.
      { pose proof (Hvol 85%Z E85) as Hv. change (inject_Z (101 - 85)) with 16%Q in Hv.
        assert (Qleb (round2 (performance_paridades._calculate_volatility w l)) 18 = true) as ->
          by (apply Qleb_le; lra).
        reflexivity. }
      simpl. destruct (Qleb 80 (round2 (pct_fillna w (w + l)))) eqn:E80.
      { pose proof (Hvol 80%Z E80) as Hv. change (inject_Z (101 - 80)) with 21%Q in Hv.
        assert (Qleb (round2 (performance_paridades._calculate_volatility w l)) 25 = true) as ->
          by (apply Qleb_le; lra).
        reflexivity. }
      reflexivity.
Qed.

(** ** The tiers are monotone *)

Lemma Qleb_mono_l (t a b : Q) : (a <= b)%Q -> Qleb t a = true -> Qleb t b = true.
Proof. rewrite !Qleb_le. intros. lra. Qed.

Lemma Qleb_mono_r (t a b : Q) : (b <= a)%Q -> Qleb a t = true -> Qleb b t = true.
Proof. rewrite !Qleb_le. intros. lra. Qed.

Ltac mono_case M :=
  match type of M with
  | ?a = true -> ?c = true =>
      let E := fresh "E" in
      destruct a eqn:E; [rewrite (M eq_refl)|destruct c]
  end.

(** X17. The tiers are monotone. With at least 5 records on both sides,
    [_classify_pair] gives no worse a tier to a win rate that is not lower
    together with a volatility that is not higher; [_classify_hour] gives no
    worse a tier to a win rate and a "volatility" that are both not lower. *)
Theorem X17_tiers_monotone (wr wr' vol vol' : Q) :
  (wr <= wr')%Q ->
  ((vol' <= vol)%Q ->
   forall total total', (5 <= total)%Z -> (5 <= total')%Z ->
   (pair_rank (performance_paridades._classify_pair wr vol total)
    <= pair_rank (performance_paridades._classify_pair wr' vol' total'))%Z)
  /\ ((vol <= vol')%Q ->
      (hour_rank (validacao_horarios._classify_hour wr vol)
       <= hour_rank (validacao_horarios._classify_hour wr' vol'))%Z).
Proof.
  intros Hwr. split.
  - intros Hvol total total' Ht Ht'. unfold performance_paridades._classify_pair.
    destruct (Z.ltb_spec total 5); [lia|]. destruct (Z.ltb_spec total' 5); [lia|].
    pose proof (Qleb_mono_l 90 _ _ Hwr) as M1. pose proof (Qleb_mono_r 15 _ _ Hvol) as M2.
    pose proof (Qleb_mono_l 85 _ _ Hwr) as M3. pose proof (Qleb_mono_r 18 _ _ Hvol) as M4.
    pose proof (Qleb_mono_l 80 _ _ Hwr) as M5. pose proof (Qleb_mono_r 25 _ _ Hvol) as M6.
    pose proof (Qleb_mono_l 75 _ _ Hwr) as M7.
    mono_case M1; mono_case M2; mono_case M3; mono_case M4; mono_case M5; mono_case M6;
      mono_case M7; simpl; lia.
  - intros Hvol. unfold validacao_horarios._classify_hour.
    pose proof (Qleb_mono_l 88 _ _ Hwr) as M1. pose proof (Qleb_mono_l 78 _ _ Hvol) as M2.
    pose proof (Qleb_mono_l 85 _ _ Hwr) as M3. pose proof (Qleb_mono_l 74 _ _ Hvol) as M4.
    pose proof (Qleb_mono_l 82 _ _ Hwr) as M5. pose proof (Qleb_mono_l 68 _ _ Hvol) as M6.
    mono_case M1; mono_case M2; mono_case M3; mono_case M4; mono_case M5; mono_case M6;
      simpl; lia.
Qed.

(** X17 on two instruments and two hours *)
Lemma X17_witness :
  (pair_rank (performance_paridades._classify_pair 82 20 7)
   <= pair_rank (performance_paridades._classify_pair 91 12 40))%Z
  /\ (hour_rank (validacao_horarios._classify_hour 84 70)
      <= hour_rank (validacao_horarios._classify_hour 89 80))%Z.
Proof.
  destruct (X17_tiers_monotone 82 91 20 12) as [H1 _]; [discriminate|].
  destruct (X17_tiers_monotone 84 89 70 80) as [_ H2]; [discriminate|].
  split; [apply H1; [discriminate|lia|lia]|apply H2; discriminate].
Defined.

(** ** qualidade_sala: the figures of the page *)

Lemma qualidade_pct_bounds (a b : Z) : (0 <= a <= b)%Z -> (0 <= qualidade_sala.pct a b <= 100)%Q.
Proof.
  intros H. unfold qualidade_sala.pct, qualidade_sala._safe_div.
  destruct (Z.ltb_spec 0 b); [|lra].
  destruct (Z.eqb_spec b 0); [lia|]. simpl negb. cbv iota.
  apply round2_bounds. apply percentage_bounds; lia.
Qed.

(** X18. The figures of [qualidade_sala.render_from_json], computed on any
    list of records, the empty one included: wins + losses + draws and the
    records of levels 0, 1 and 2 are each at most the number of records, the
    wins of a level are at most its records, each of the seven percentages is
    between 0 and 100 (no division by zero), and without a single WIN the
    trend is ALERTA. *)
Theorem X18_room_quality_figures (df : list qualidade_sala.rec) :
  let m := qualidade_sala.render_records df in
  qualidade_sala.total_operations m = Z.of_nat (length df)
  /\ (qualidade_sala.wins m + qualidade_sala.losses m + qualidade_sala.dojis m
      <= qualidade_sala.total_operations m)%Z
  /\ (qualidade_sala.total_g0 m + qualidade_sala.total_g1 m + qualidade_sala.total_g2 m
      <= qualidade_sala.total_operations m)%Z
  /\ (0 <= qualidade_sala.wins_g0 m <= qualidade_sala.total_g0 m)%Z
  /\ (0 <= qualidade_sala.wins_g1 m <= qualidade_sala.total_g1 m)%Z
  /\ (0 <= qualidade_sala.wins_g2 m <= qualidade_sala.total_g2 m)%Z
  /\ Forall (fun x => (0 <= x <= 100)%Q)
       [qualidade_sala.win_rate_bruto_pct m; qualidade_sala.win_rate_g0_pct m;
        qualidade_sala.win_rate_g1_pct m; qualidade_sala.win_rate_g2_pct m;
        qualidade_sala.ops_resolved_at_entry_pct m; qualidade_sala.ops_needed_g1_pct m;
        qualidade_sala.ops_needed_g2_pct m]
  /\ ((qualidade_sala.wins m = 0)%Z -> qualidade_sala.tendencia m = qualidade_sala.ALERTA).
Proof.
  intros m. subst m. unfold qualidade_sala.render_records.
  cbn [qualidade_sala.total_operations qualidade_sala.wins qualidade_sala.losses
       qualidade_sala.dojis qualidade_sala.total_g0 qualidade_sala.total_g1
       qualidade_sala.total_g2 qualidade_sala.wins_g0 qualidade_sala.wins_g1
       qualidade_sala.wins_g2 qualidade_sala.win_rate_bruto_pct
       qualidade_sala.win_rate_g0_pct qualidade_sala.win_rate_g1_pct
       qualidade_sala.win_rate_g2_pct qualidade_sala.ops_resolved_at_entry_pct
       qualidade_sala.ops_needed_g1_pct qualidade_sala.ops_needed_g2_pct
       qualidade_sala.tendencia].
  set (W := qualidade_sala.is_result "WIN"). set (L := qualidade_sala.is_result "LOSS").
  set (Dj := qualidade_sala.is_result "DOJI").
  set (at0 := fun r => (qualidade_sala.gale_level r =? 0)%Z).
  set (at1 := fun r => (qualidade_sala.gale_level r =? 1)%Z).
  set (at2 := fun r => (qualidade_sala.gale_level r =? 2)%Z).
  assert (Hres : (count W df + count L df + count Dj df
                  + count (fun a => negb (W a || L a || Dj a)) df = Z.of_nat (length df))%Z).
  { apply count_three_classes; unfold W, L, Dj, qualidade_sala.is_result; intros a Ha;
      apply pystr_eqb_eq in Ha; rewrite Ha; auto. }
  assert (Hlev : (count at0 df + count at1 df + count at2 df
                  + count (fun a => negb (at0 a || at1 a || at2 a)) df = Z.of_nat (length df))%Z).
  { apply count_three_classes; unfold at0, at1, at2; intros a Ha;
      apply Z.eqb_eq in Ha; rewrite Ha; auto. }
  pose proof (count_nonneg (fun a => negb (W a || L a || Dj a)) df).
  pose proof (count_nonneg (fun a => negb (at0 a || at1 a || at2 a)) df).
  pose proof (count_nonneg W df). pose proof (count_nonneg L df). pose proof (count_nonneg Dj df).
  pose proof (count_nonneg at0 df). pose proof (count_nonneg at1 df).
  pose proof (count_nonneg at2 df).
  assert (Hg : forall P : qualidade_sala.rec -> bool,
             (0 <= count (fun r => P r && W r) df <= count P df)%Z).
  { intros P. split; [apply count_nonneg|]. apply count_le. intros a Ha.
    apply andb_true_iff in Ha. tauto. }
  split; [reflexivity|]. split; [lia|]. split; [lia|].
  split; [apply Hg|]. split; [apply Hg|]. split; [apply Hg|]. split.
  - repeat constructor; try (apply qualidade_pct_bounds; try apply Hg; lia).
  - intros Hw0. rewrite Hw0. unfold qualidade_sala.pct, qualidade_sala._safe_div.
    destruct (0 <? 0 + count L df)%Z; [|reflexivity].
    destruct (negb (0 + count L df =? 0)%Z); reflexivity.
Qed.

(** ** app: the summary *)



(** ** The resolved-line pattern of app.py *)

Section Patterns.
Context {R : PyRuntime}.

Lemma rmatch_ext {A} icase total r :
  forall s g (k1 k2 : pystr -> groups -> option A),
  (forall s' g', k1 s' g' = k2 s' g') ->
  rmatch icase total r s g k1 = rmatch icase total r s g k2.
Proof.
  induction r as [|neg items|r1 IH1 r2 IH2|r1 IH1 r2 IH2|r IH|name r IH| |];
    intros s g k1 k2 Hk; simpl.
  - apply Hk.
  - destruct s as [|c s]; [reflexivity|].
    destruct (set_matches icase neg items c); [apply Hk|reflexivity].
  - apply IH1. intros s' g'. apply IH2. exact Hk.
  - rewrite (IH1 s g k1 k2 Hk), (IH2 s g k1 k2 Hk). reflexivity.
  - generalize (length s) at 1 2. intros fuel. revert s g.
    induction fuel as [|fuel IHf]; intros s g; [apply Hk|].
    match goal with
    | |- match rmatch _ _ _ _ _ ?k with _ => _ end = match rmatch _ _ _ _ _ ?k' with _ => _ end =>
        rewrite (IH s g k k')
    end.
    + rewrite Hk. reflexivity.
    + intros s' g'. destruct (length s' <? length s)%nat; [apply IHf|reflexivity].
  - apply IH. intros s' g'. apply Hk.
  - destruct (length s =? total)%nat; [apply Hk|reflexivity].
  - destruct s as [|c [|c' s]]; [apply Hk| |reflexivity].
    destruct (c =? 10)%N; [apply Hk|reflexivity].
Qed.

Lemma set_char_class (x y : N) c :
  same_case_class x y ->
  set_matches true false [CChar x] c = set_matches true false [CChar y] c.
Proof. intros H. unfold set_matches. simpl. rewrite (H c). reflexivity. Qed.

(** under [re.IGNORECASE] the alternative "Doji" is the alternative "DOJI" *)
Lemma doji_alternatives {A} total s g (k : pystr -> groups -> option A) :
  same_case_class 111 79 -> same_case_class 106 74 -> same_case_class 105 73 ->
  rmatch true total (RLit "Doji") s g k = rmatch true total (RLit "DOJI") s g k.
Proof.
  intros Ho Hj Hi. unfold RLit, RChr.
  change (N_of_ascii "D") with 68%N. change (N_of_ascii "o") with 111%N.
  change (N_of_ascii "j") with 106%N. change (N_of_ascii "i") with 105%N.
  change (N_of_ascii "O") with 79%N. change (N_of_ascii "J") with 74%N.
  change (N_of_ascii "I") with 73%N.
  cbn [rmatch].
  destruct s as [|c1 s]; [reflexivity|].
  destruct (set_matches true false [CChar 68] c1); [|reflexivity].
  destruct s as [|c2 s]; [reflexivity|]. rewrite (set_char_class 111 79 c2 Ho).
  destruct (set_matches true false [CChar 79] c2); [|reflexivity].
  destruct s as [|c3 s]; [reflexivity|]. rewrite (set_char_class 106 74 c3 Hj).
  destruct (set_matches true false [CChar 74] c3); [|reflexivity].
  destruct s as [|c4 s]; [reflexivity|]. rewrite (set_char_class 105 73 c4 Hi).
  reflexivity.
Qed.

Lemma outcome_alternatives {A} total s g (k : pystr -> groups -> option A) :
  same_case_class 111 79 -> same_case_class 106 74 -> same_case_class 105 73 ->
  rmatch true total
    (RAlt (RLit "WIN") (RAlt (RLit "LOSS") (RAlt (RLit "DOJI") (RAlt (RLit "Doji") (RLit "Doji")))))
    s g k
  = rmatch true total OUTCOME s g k.
Proof.
  intros Ho Hj Hi. unfold OUTCOME.
  change (rmatch true total (RAlt ?a ?b) s g k)
    with (match rmatch true total a s g k with
          | Some x => Some x
          | None => rmatch true total b s g k
          end).
  cbn [rmatch]. rewrite !(doji_alternatives total s g k Ho Hj Hi).
  repeat match goal with
  | |- context [match ?x with Some a => Some a | None => _ end] => destruct x
  end; reflexivity.
Qed.

End Patterns.

Lemma latin1_case_class (x : N) :
  Latin1.lower x = (x + 32)%N -> Latin1.lower (x + 32) = (x + 32)%N ->
  same_case_class (R := Latin1.runtime) (x + 32) x.
Proof.
  intros Hx Hy c. simpl. unfold Latin1.same_letter. rewrite Hx, Hy.
  destruct (N.eqb_spec (Latin1.lower c) (x + 32)) as [E|E]; [rewrite !orb_true_r; reflexivity|].
  rewrite !orb_false_r.
  destruct (N.eqb_spec c (x + 32)) as [->|]; [congruence|].
  destruct (N.eqb_spec c x) as [->|]; [congruence|reflexivity].
Qed.

(** X20. The resolved-line pattern of [app.py], whose last group lists
    "Doji" twice more after "DOJI", matches what the pattern of the page
    modules matches and binds the same groups, given that [re.IGNORECASE]
    treats each of o, j, i as it treats O, J, I. *)
Theorem X20_app_pattern_same {R : PyRuntime} (s : pystr) :
  same_case_class 111 79 -> same_case_class 106 74 -> same_case_class 105 73 ->
  re_match app.RESOLVED_RE s = re_match performance_paridades.RESOLVED_RE s.
Proof.
  intros Ho Hj Hi. unfold re_match, app.RESOLVED_RE, performance_paridades.RESOLVED_RE, RESOLVED.
  match goal with
  | |- rmatch _ _ (RCat (RCat ?a (RGroup _ ?o1)) _) _ _ _
       = rmatch _ _ (RCat (RCat _ (RGroup _ ?o2)) _) _ _ _ =>
      change (rmatch true (length s) (RCat (RCat a (RGroup "result" o1)) REol) s []
                (fun _ g => Some g))
        with (rmatch true (length s) a s []
                (fun s1 g1 => rmatch true (length s) (RGroup "result" o1) s1 g1
                   (fun s2 g2 => rmatch true (length s) REol s2 g2 (fun _ g => Some g))));
      change (rmatch true (length s) (RCat (RCat a (RGroup "result" o2)) REol) s []
                (fun _ g => Some g))
        with (rmatch true (length s) a s []
                (fun s1 g1 => rmatch true (length s) (RGroup "result" o2) s1 g1
                   (fun s2 g2 => rmatch true (length s) REol s2 g2 (fun _ g => Some g))))
  end.
  apply rmatch_ext. intros s1 g1.
  change (rmatch true (length s) (RGroup "result" ?o) s1 g1 ?k)
    with (rmatch true (length s) o s1 g1
            (fun s' g' => k s' (("result"%string, take (length s1 - length s') s1) :: g'))).
  apply outcome_alternatives; assumption.
Qed.

(** X20 on a resolved line that ends in Doji, with the tables of Latin-1 *)
Lemma X20_witness :
  re_match app.RESOLVED_RE ([127183%N] ++ py " EURUSD-OTC - 14:10:00 - M1 - put - Doji")
  = re_match performance_paridades.RESOLVED_RE
      ([127183%N] ++ py " EURUSD-OTC - 14:10:00 - M1 - put - Doji")
  /\ is_Some (re_match app.RESOLVED_RE
                ([127183%N] ++ py " EURUSD-OTC - 14:10:00 - M1 - put - Doji")).
Proof.
  split.
  - apply (X20_app_pattern_same (R := Latin1.runtime)).
    + apply (latin1_case_class 79); reflexivity.
    + apply (latin1_case_class 74); reflexivity.
    + apply (latin1_case_class 73); reflexivity.
  - vm_compute. eauto.
Defined.

(** X21. The one-line form every extractor matches against,
    [" ".join(text.splitlines()).strip()], has no line boundary left in it and
    neither starts nor ends with whitespace; collapsing it again changes
    nothing, and a text of whitespace only collapses to the empty string. *)
Theorem X21_one_line (text : pystr) :
  Forall (fun c => is_linebreak c = false) (one_line text)
  /\ (forall c s, one_line text = c :: s -> is_space c = false)
  /\ (forall c s, rev (one_line text) = c :: s -> is_space c = false)
  /\ one_line (one_line text) = one_line text
  /\ (Forall (fun c => is_space c = true) text -> one_line text = []).
Proof.
  split; [apply one_line_no_break|].
  split; [apply (strip_ends (join [32%N] (splitlines text)))|].
  split; [apply (strip_ends (join [32%N] (splitlines text)))|].
  split; [apply one_line_idempotent|].
  intros H. apply one_line_blank, strip_nil_iff, H.
Qed.

(** X19. [try_parse_iso_date] ignores the whitespace around a string: a
    string with a character that is not whitespace parses as the same string
    without its leading and trailing whitespace. *)
Theorem X19_date_whitespace {R : PyRuntime} {D : DateLib} (s : pystr) :
  strip s <> [] ->
  app.try_parse_iso_date (VStr s) = app.try_parse_iso_date (VStr (strip s)).
Proof.
  intros Hne. unfold app.try_parse_iso_date.
  assert (Hs : s <> []) by (intros ->; apply Hne; reflexivity).
  assert (T1 : truthy (VStr s) = true).
  { simpl. destruct (pystr_eqb s []) eqn:E; [apply pystr_eqb_eq in E; contradiction|reflexivity]. }
  assert (T2 : truthy (VStr (strip s)) = true).
  { simpl. destruct (pystr_eqb (strip s) []) eqn:E;
      [apply pystr_eqb_eq in E; contradiction|reflexivity]. }
  rewrite T1, T2. cbn [negb py_str]. rewrite strip_idempotent. reflexivity.
Qed.

(** X19 on the epoch string of C8 between two spaces, on a host whose
    local time is UTC *)
Lemma X19_witness :
  strip (py " 1700000000 ") = py "1700000000"
  /\ forall strp iso,
       app.try_parse_iso_date (D := Build_DateLib Utc.fromtimestamp strp iso)
         (VStr (py " 1700000000 "))
       = Some (mkdate 2023 11 14).
Proof.
  split; [reflexivity|]. intros strp iso.
  rewrite (X19_date_whitespace (D := Build_DateLib Utc.fromtimestamp strp iso)
             (py " 1700000000 ")); [reflexivity|discriminate].
Defined.

(** ** The two passes *)

Section TwoPass.
Context {R : PyRuntime}.

Lemma horarios_one_unresolved signals msg :
  is_resolved_line msg = false -> horarios_one signals msg = [].
Proof.
  unfold is_resolved_line, horarios_one, validacao_horarios.RESOLVED_RE.
  destruct (re_match _ _); [discriminate|reflexivity].
Qed.

Lemma paridades_one_unresolved signals msg :
  is_resolved_line msg = false -> paridades_one signals msg = [].
Proof.
  unfold is_resolved_line, paridades_one, performance_paridades.RESOLVED_RE.
  destruct (re_match _ _); [discriminate|reflexivity].
Qed.

(** the two-pass extractors, as two filters: the table of the open signals,
    then the resolved lines read against it *)
Lemma horarios_two_filters messages :
  validacao_horarios._extract_records messages
  = Ok (flat_map (horarios_one (collect_signals (List.filter is_open_signal messages)))
          (List.filter is_resolved_line messages)).
Proof.
  unfold validacao_horarios._extract_records.
  rewrite (horarios_second_pass_flat (collect_signals messages) messages []).
  rewrite <- collect_signals_open_only. simpl. f_equal. symmetry.
  apply flat_map_filter. apply horarios_one_unresolved.
Qed.

Lemma paridades_two_filters messages :
  performance_paridades._extract_records messages
  = flat_map (paridades_one (collect_signals (List.filter is_open_signal messages)))
      (List.filter is_resolved_line messages).
Proof.
  unfold performance_paridades._extract_records.
  rewrite (fold_left_append _ _ (paridades_step_app (collect_signals messages))).
  rewrite <- collect_signals_open_only. simpl. symmetry.
  apply (flat_map_filter is_resolved_line (paridades_one (collect_signals messages))).
  apply paridades_one_unresolved.
Qed.

End TwoPass.

(** X22. In the two-pass extractors the order between open signals and
    resolved lines does not matter: two collections with the same open-signal
    messages in the same order and the same resolved lines in the same order
    give the same records, payouts included, in [validacao_horarios] and in
    [performance_paridades], wherever each kind sits among the other and
    whatever other messages lie between them. *)
Theorem X22_order_between_passes {R : PyRuntime} (l1 l2 : list message) :
  List.filter is_open_signal l1 = List.filter is_open_signal l2 ->
  List.filter is_resolved_line l1 = List.filter is_resolved_line l2 ->
  validacao_horarios._extract_records l1 = validacao_horarios._extract_records l2
  /\ performance_paridades._extract_records l1 = performance_paridades._extract_records l2.
Proof.
  intros Ho Hr. rewrite !horarios_two_filters, !paridades_two_filters, Ho, Hr. auto.
Qed.

(** X22 on the two orders of C1, with a line of chatter in between *)
Lemma X22_witness :
  validacao_horarios._extract_records [open_signal; chatter; resolved_win_g1]
  = validacao_horarios._extract_records [resolved_win_g1; open_signal]
  /\ horarios_payouts [resolved_win_g1; open_signal] = Ok [Some (87 # 100)].
Proof.
  split; [|vm_compute; reflexivity].
  apply (X22_order_between_passes [open_signal; chatter; resolved_win_g1]
           [resolved_win_g1; open_signal]); vm_compute; reflexivity.
Defined.
